(** * Classroom voting application (app.py): a shallow embedding

    The application keeps all of its data in a remote hierarchical store and
    talks to it either through the Admin SDK or through plain HTTP requests.
    The embedding below follows app.py function by function:

    - JSON values as the Python runtime sees them ([json]), with Python
      dictionaries as insertion-ordered association lists, because the order
      of [.items()] decides which request is sent first;
    - the store as one JSON tree addressed by paths, the outcome of every
      request taken from a script of replies, and the messages shown to the
      user collected in a log ([world]);
    - Python exceptions as an explicit result, so that [try]/[except] blocks
      and uncaught errors are both visible ([M], [try_except]). *)

From Stdlib Require Import List String Ascii ZArith QArith Qround Bool Arith Lia.
From Stdlib Require Import Permutation Sorted DecimalString DecimalNat.
Import ListNotations.
Local Open Scope string_scope.
Local Open Scope list_scope.

(* ================================================================== *)
(** * JSON values and the Python operations the program applies to them *)
(* ================================================================== *)

#[warnings="-register-all"]
Inductive json : Type :=
| JNull
| JBool (b : bool)
| JInt (z : Z)
| JFloat (q : Q)
| JStr (s : string)
| JList (l : list json)
| JDict (d : list (string * json)).

(** A Python [dict] with string keys, in insertion order. *)
Definition dict := list (string * json).

Fixpoint dict_get (k : string) (d : dict) : option json :=
  match d with
  | [] => None
  | (k', v) :: d' => if String.eqb k k' then Some v else dict_get k d'
  end.

Definition dict_mem (k : string) (d : dict) : bool :=
  match dict_get k d with Some _ => true | None => false end.

(** [d[k] = v]: an existing key keeps its position, a new one goes last. *)
Fixpoint dict_set (k : string) (v : json) (d : dict) : dict :=
  match d with
  | [] => [(k, v)]
  | (k', v') :: d' =>
      if String.eqb k k' then (k, v) :: d' else (k', v') :: dict_set k v d'
  end.

(** [d.pop(k, None)] *)
Fixpoint dict_pop (k : string) (d : dict) : dict :=
  match d with
  | [] => []
  | (k', v') :: d' =>
      if String.eqb k k' then d' else (k', v') :: dict_pop k d'
  end.

(** Keys of a Python dictionary are pairwise different. *)
Definition dict_wf (d : dict) : Prop := NoDup (map fst d).

Inductive exn : Type :=
| TransportError (msg : string)
| JSONDecodeError
| TypeError
| AttributeError
| KeyError (k : string)
| ZeroDivisionError.

(** [str(e)]; only the text of a transport error is the caller's, the other
    texts stand for the runtime's own wording. *)
Definition str_exn (e : exn) : string :=
  match e with
  | TransportError msg => msg
  | JSONDecodeError => "JSONDecodeError"
  | TypeError => "TypeError"
  | AttributeError => "AttributeError"
  | KeyError k => k
  | ZeroDivisionError => "division by zero"
  end.

Inductive result (A : Type) : Type :=
| Ret (a : A)
| Exc (e : exn).
Arguments Ret {A} a.
Arguments Exc {A} e.

(** Truth value of an object in a condition ([if data:], [not name]). *)
Definition py_truthy (j : json) : bool :=
  match j with
  | JNull => false
  | JBool b => b
  | JInt z => negb (z =? 0)%Z
  | JFloat q => negb (Qeq_bool q 0)
  | JStr s => negb (String.eqb s "")
  | JList l => match l with [] => false | _ => true end
  | JDict d => match d with [] => false | _ => true end
  end.

Definition str_truthy (s : string) : bool := negb (String.eqb s "").

(** [k in j] for a string [k]. *)
Definition py_contains (k : string) (j : json) : result bool :=
  match j with
  | JDict d => Ret (dict_mem k d)
  | JList l =>
      Ret (existsb (fun x => match x with JStr s => String.eqb s k | _ => false end) l)
  | JStr s => Ret (match index 0 k s with Some _ => true | None => false end)
  | _ => Exc TypeError
  end.

(** [j[k]] for a string [k]. *)
Definition py_getitem (k : string) (j : json) : result json :=
  match j with
  | JDict d => match dict_get k d with Some v => Ret v | None => Exc (KeyError k) end
  | _ => Exc TypeError
  end.

(** [j[k] = v] for a string [k]. *)
Definition py_setitem (k : string) (v : json) (j : json) : result json :=
  match j with
  | JDict d => Ret (JDict (dict_set k v d))
  | _ => Exc TypeError
  end.

(** [j.items()] *)
Definition py_items (j : json) : result dict :=
  match j with
  | JDict d => Ret d
  | _ => Exc AttributeError
  end.

(** [j.get(k)] and [j.get(k, default)] *)
Definition py_get (k : string) (dflt : json) (j : json) : result json :=
  match j with
  | JDict d => Ret (match dict_get k d with Some v => v | None => dflt end)
  | _ => Exc AttributeError
  end.

(** [len(j)] *)
Definition py_len (j : json) : result nat :=
  match j with
  | JList l => Ret (List.length l)
  | JDict d => Ret (List.length d)
  | JStr s => Ret (String.length s)
  | _ => Exc TypeError
  end.

(** [enumerate(l)] *)
Definition enumerate {A : Type} (l : list A) : list (nat * A) :=
  combine (seq 0 (List.length l)) l.

(** [str(i)] for an index. *)
Definition string_of_nat (n : nat) : string :=
  NilEmpty.string_of_uint (Nat.to_uint n).

(** [f"idea_{i}"] *)
Definition idea_key (i : nat) : string := "idea_" ++ string_of_nat i.

(** [x == n] between a stored value and an integer. *)
Definition py_eq_int (j : json) (n : Z) : bool :=
  match j with
  | JInt z => (z =? n)%Z
  | JBool b => ((if b then 1 else 0) =? n)%Z
  | JFloat q => Qeq_bool q (inject_Z n)
  | _ => false
  end.

(* ================================================================== *)
(** * The world: store, transport, secrets, session and what is shown *)
(* ================================================================== *)

(** What one request to the store comes back as. [Replied 200] is success;
    [Garbled] is a 200 reply whose body is not JSON; [Dropped] is a request
    that raises (connection refused, timeout).  The Admin SDK raises on every
    reply that is not a success. *)
Inductive outcome : Type :=
| Replied (status : Z)
| Garbled
| Dropped (msg : string).

(** One row of the results table. *)
Record row : Type := mk_row {
  idea_num : nat;
  idea : json;
  submitted_by : json;
  avg_score : Q;
  num_votes : nat
}.

(** What the page shows or does, in order. *)
Inductive message : Type :=
| StError (s : string)
| StSuccess (s : string)
| StInfo (s : string)
| StToast (s : string)
| StWrite (s : string)
| StSubheader (s : string)
| StDataframe (rows : list row) (score_format : string)
| StBarChart (rows : list row)
| StRerun.

Record session : Type := mk_session {
  class_code : string;
  authenticated : bool;
  student_name : string;
  current_votes : dict;
  auto_save : bool
}.

Record world : Type := mk_world {
  admin : bool;                (* firebase_admin._apps is not empty *)
  secret_pw : option string;   (* st.secrets["teacher_password"], if any *)
  root : json;                 (* the content of the store *)
  net : list outcome;          (* replies to the requests to come *)
  shown : list message;        (* newest last *)
  sess : session               (* st.session_state *)
}.

Definition set_root (r : json) (w : world) : world :=
  mk_world (admin w) (secret_pw w) r (net w) (shown w) (sess w).
Definition set_net (n : list outcome) (w : world) : world :=
  mk_world (admin w) (secret_pw w) (root w) n (shown w) (sess w).
Definition set_shown (m : list message) (w : world) : world :=
  mk_world (admin w) (secret_pw w) (root w) (net w) m (sess w).
Definition set_sess (s : session) (w : world) : world :=
  mk_world (admin w) (secret_pw w) (root w) (net w) (shown w) s.

(** State passing with exceptions; what was written or shown before an
    exception stays written and shown. *)
Definition M (A : Type) : Type := world -> result A * world.

Definition ret {A} (a : A) : M A := fun w => (Ret a, w).
Definition raise {A} (e : exn) : M A := fun w => (Exc e, w).
Definition bind {A B} (m : M A) (f : A -> M B) : M B :=
  fun w => match m w with
           | (Ret a, w') => f a w'
           | (Exc e, w') => (Exc e, w')
           end.
Definition lift {A} (r : result A) : M A := fun w => (r, w).

(** [try: m  except Exception as e: h e] *)
Definition try_except {A} (m : M A) (h : exn -> M A) : M A :=
  fun w => match m w with
           | (Ret a, w') => (Ret a, w')
           | (Exc e, w') => h e w'
           end.

Declare Scope m_scope.
Delimit Scope m_scope with m.
Notation "x <- c1 ;; c2" := (bind c1 (fun x => c2))
  (at level 61, c1 at next level, right associativity) : m_scope.
Notation "c1 ;; c2" := (bind c1 (fun _ => c2))
  (at level 61, right associativity) : m_scope.
Local Open Scope m_scope.

Definition get_world : M world := fun w => (Ret w, w).
Definition show (m : message) : M unit :=
  fun w => (Ret tt, set_shown (shown w ++ [m]) w).
Definition st_error (s : string) : M unit := show (StError s).
Definition get_session : M session := fun w => (Ret (sess w), w).
Definition put_session (s : session) : M unit := fun w => (Ret tt, set_sess s w).

(* ------------------------------------------------------------------ *)
(** ** The store as a tree *)

(** The node at a path; a missing node reads as null. *)
Fixpoint tree_get (path : list string) (j : json) : json :=
  match path with
  | [] => j
  | k :: p =>
      match j with
      | JDict d => match dict_get k d with
                   | Some c => tree_get p c
                   | None => JNull
                   end
      | _ => JNull
      end
  end.

(** Overwriting the node at a path; missing parents are created. *)
Fixpoint tree_set (path : list string) (v : json) (j : json) : json :=
  match path with
  | [] => v
  | k :: p =>
      match j with
      | JDict d =>
          JDict (dict_set k (tree_set p v (match dict_get k d with
                                           | Some c => c
                                           | None => JNull
                                           end)) d)
      | _ => JDict [(k, tree_set p v JNull)]
      end
  end.

(** The nodes the code addresses, as the keys on the way to them.  The code
    writes each as a string with the class code and the name put into it
    ([class_url] and [vote_url] below); these lists are the segments of those
    strings when the class code and the name are keys of the store
    ([class_url_segments], [vote_url_segments]), and that is what they stand
    for here.  A code or a name with a slash in it names another node
    ([slash_names_a_nested_node]). *)
Definition class_path (code : string) : list string := ["classes"; code].
Definition voter_path (code voter : string) : list string :=
  ["classes"; code; "votes"; voter].
Definition codes_path : list string := ["class_access_codes"].

Definition next_outcome : M outcome :=
  fun w => match net w with
           | [] => (Ret (Replied 200), w)
           | o :: rest => (Ret o, set_net rest w)
           end.

Definition succeeded (o : outcome) : bool :=
  match o with
  | Replied c => (c =? 200)%Z
  | Garbled => true
  | Dropped _ => false
  end.

(** *** Admin SDK: [db.reference(path).get()], [.set(v)], [.delete()] *)

Definition sdk_error (o : outcome) : exn :=
  match o with
  | Dropped msg => TransportError msg
  | _ => TransportError "FirebaseError"
  end.

Definition replied_ok (o : outcome) : bool :=
  match o with
  | Replied c => (c =? 200)%Z
  | _ => false
  end.

Definition store_write (path : list string) (v : json) : M unit :=
  fun w => (Ret tt, set_root (tree_set path v (root w)) w).

Definition ref_get (path : list string) : M json :=
  o <- next_outcome ;;
  if replied_ok o then (w <- get_world ;; ret (tree_get path (root w)))
  else raise (sdk_error o).

Definition ref_set (path : list string) (v : json) : M unit :=
  o <- next_outcome ;;
  if replied_ok o then store_write path v
  else raise (sdk_error o).

(** *** HTTP fallback: [requests.get], [requests.put] on [path.json] *)

Record response : Type := mk_response {
  status_code : Z;
  response_json : result json     (* what [response.json()] does *)
}.

Definition requests_get (path : list string) : M response :=
  o <- next_outcome ;;
  match o with
  | Replied c => w <- get_world ;;
                 ret (mk_response c (Ret (tree_get path (root w))))
  | Garbled => ret (mk_response 200 (Exc JSONDecodeError))
  | Dropped msg => raise (TransportError msg)
  end.

Definition requests_put (path : list string) (v : json) : M response :=
  o <- next_outcome ;;
  match o with
  | Dropped msg => raise (TransportError msg)
  | Garbled => store_write path v ;; ret (mk_response 200 (Exc JSONDecodeError))
  | Replied c =>
      (if (c =? 200)%Z then store_write path v else ret tt) ;;
      ret (mk_response c (Ret JNull))
  end.

Definition is_admin : M bool := fun w => (Ret (admin w), w).

(* ================================================================== *)
(** * Firebase helper functions (app.py, lines 37-128) *)
(* ================================================================== *)

(** [{"ideas": [], "votes": {}}] *)
Definition empty_record : json := JDict [("ideas", JList []); ("votes", JDict [])].

(** Lines 61-63: the keyed form of a positional list of votes. *)
Definition keyed_of_list (votes : list json) : dict :=
  fold_left (fun object_votes iv => dict_set (idea_key (fst iv)) (snd iv) object_votes)
            (enumerate votes) [].

(** Lines 66-74: the converted votes go back to the voter's own path; the
    reply to the request is not looked at. *)
Definition write_back (code voter : string) (object_votes : json) : M unit :=
  a <- is_admin ;;
  if a then ref_set (voter_path code voter) object_votes
  else (requests_put (voter_path code voter) object_votes ;; ret tt).

(** Lines 58-74: the loop over [data["votes"].items()].  [data] is the object
    being changed in place; every list found is replaced in it and written to
    the voter's own path, whose reply is not looked at. *)
Fixpoint normalize_loop (code : string) (items : dict) (data : json) : M json :=
  match items with
  | [] => ret data
  | (voter, votes) :: rest =>
      match votes with
      | JList l =>
          let object_votes := JDict (keyed_of_list l) in
          all_votes <- lift (py_getitem "votes" data) ;;
          all_votes' <- lift (py_setitem voter object_votes all_votes) ;;
          data' <- lift (py_setitem "votes" all_votes' data) ;;
          write_back code voter object_votes ;;
          normalize_loop code rest data'
      | _ => normalize_loop code rest data
      end
  end.

(** Lines 44-53: [None] stands for the early [return] on a reply that is not
    200. *)
Definition fetch_class (code : string) : M (option json) :=
  a <- is_admin ;;
  if a then (data <- ref_get (class_path code) ;; ret (Some data))
  else (resp <- requests_get (class_path code) ;;
        if (status_code resp =? 200)%Z
        then (data <- lift (response_json resp) ;; ret (Some data))
        else ret None).

(** Lines 55-77: what is returned for the [data] that was fetched. *)
Definition normalize_record (code : string) (data : json) : M json :=
  if py_truthy data then
    has_votes <- lift (py_contains "votes" data) ;;
    if (has_votes : bool) then
      all_votes <- lift (py_getitem "votes" data) ;;
      items <- lift (py_items all_votes) ;;
      normalize_loop code items data
    else ret data
  else ret empty_record.

(** Lines 43-77, the body of the [try]. *)
Definition get_data_try (code : string) : M json :=
  fetched <- fetch_class code ;;
  match fetched with
  | None => ret empty_record
  | Some data => normalize_record code data
  end.

(** Lines 39-40: [if not class_code: class_code = st.session_state.class_code] *)
Definition resolve_code (code : option string) : M string :=
  match code with
  | Some c => if str_truthy c then ret c
              else (s <- get_session ;; ret (class_code s))
  | None => s <- get_session ;; ret (class_code s)
  end.

Definition get_data (code : option string) : M json :=
  c <- resolve_code code ;;
  try_except (get_data_try c)
             (fun e => st_error ("Error retrieving data: " ++ str_exn e) ;;
                       ret empty_record).

Definition save_data (data : json) (code : option string) : M bool :=
  c <- resolve_code code ;;
  try_except
    (a <- is_admin ;;
     if a then (ref_set (class_path c) data ;; ret true)
     else (resp <- requests_put (class_path c) data ;;
           ret (status_code resp =? 200)%Z))
    (fun e => st_error ("Error saving data: " ++ str_exn e) ;; ret false).

Definition get_class_codes : M json :=
  try_except
    (a <- is_admin ;;
     if a then (data <- ref_get codes_path ;;
                ret (if py_truthy data then data else JDict []))
     else (resp <- requests_get codes_path ;;
           if (status_code resp =? 200)%Z
           then (body <- lift (response_json resp) ;;
                 if py_truthy body then ret body else ret (JDict []))
           else ret (JDict [])))
    (fun e => st_error ("Error getting class codes: " ++ str_exn e) ;;
              ret (JDict [])).

Definition get_teacher_password : M string :=
  fun w => (Ret (match secret_pw w with
                 | Some p => p
                 | None => "teacherpass"
                 end), w).

(* ================================================================== *)
(** * Class access: creating a class and resetting it (lines 173-242) *)
(* ================================================================== *)

Definition set_joined (code : string) (s : session) : session :=
  mk_session code true (student_name s) (current_votes s) (auto_save s).

(** Lines 173-208, the body of [if st.button("Create Class")]. *)
Definition create_class (teacher_password new_class_name new_class_code : string)
  : M unit :=
  expected <- get_teacher_password ;;
  if negb (String.eqb teacher_password expected) then
    st_error "Incorrect teacher password"
  else if negb (str_truthy new_class_name) || negb (str_truthy new_class_code) then
    st_error "Please provide both class name and code"
  else
    class_codes <- get_class_codes ;;
    class_codes' <- lift (py_setitem new_class_code (JStr new_class_name) class_codes) ;;
    a <- is_admin ;;
    success <-
      (if a then
         try_except (ref_set codes_path class_codes' ;; ret true)
                    (fun e => st_error ("Error creating class: " ++ str_exn e) ;;
                              ret false)
       else (resp <- requests_put codes_path class_codes' ;;
             ret (status_code resp =? 200)%Z)) ;;
    if (success : bool) then
      save_data empty_record (Some new_class_code) ;;
      s <- get_session ;;
      put_session (set_joined new_class_code s) ;;
      show (StSuccess ("Created and joined class: " ++ new_class_name)) ;;
      show StRerun
    else st_error "Failed to create class. Please try again.".

(** Lines 233-242, the body of [if st.button("Reset All Data")]. *)
Definition reset_all_data (teacher_password : string) : M unit :=
  expected <- get_teacher_password ;;
  if String.eqb teacher_password expected then
    s <- get_session ;;
    ok <- save_data empty_record (Some (class_code s)) ;;
    if (ok : bool) then (show (StSuccess "Data reset successfully!") ;; show StRerun)
    else st_error "Failed to reset data. Check Firebase connection."
  else st_error "Incorrect password".

(* ================================================================== *)
(** * Scenario submission (lines 276-300) *)
(* ================================================================== *)

(** [data["ideas"].append(entry)] *)
Definition append_idea (entry : json) (data : json) : result json :=
  match py_getitem "ideas" data with
  | Exc e => Exc e
  | Ret (JList l) => py_setitem "ideas" (JList (l ++ [entry])) data
  | Ret _ => Exc AttributeError
  end.

Definition scenario_entry (new_idea name : string) (now : Q) : json :=
  JDict [("idea", JStr new_idea); ("submitted_by", JStr name);
         ("timestamp", JFloat now)].

(** The body of [if st.button("Submit Scenario")]; [now] is [time.time()]. *)
Definition submit_scenario (new_idea : string) (now : Q) : M unit :=
  data <- get_data None ;;
  s <- get_session ;;
  if negb (str_truthy (student_name s)) then
    st_error "Please enter your group name first!"
  else if negb (str_truthy new_idea) then
    st_error "Please enter a scenario!"
  else
    has_ideas <- lift (py_contains "ideas" data) ;;
    data1 <- (if (has_ideas : bool) then ret data
              else lift (py_setitem "ideas" (JList []) data)) ;;
    data2 <- lift (append_idea (scenario_entry new_idea (student_name s) now) data1) ;;
    ok <- save_data data2 (Some (class_code s)) ;;
    if (ok : bool) then
      (show (StSuccess "Scenario submitted successfully!") ;; show StRerun)
    else st_error "Failed to submit scenario. Please try again.".

(* ================================================================== *)
(** * Voting (lines 376-564) *)
(* ================================================================== *)

(** Sequencing of operations that may raise but have no effect. *)
Definition rbind {A B} (r : result A) (f : A -> result B) : result B :=
  match r with
  | Ret a => f a
  | Exc e => Exc e
  end.

Declare Scope r_scope.
Delimit Scope r_scope with r.
Notation "x <- c1 ;; c2" := (rbind c1 (fun x => c2))
  (at level 61, c1 at next level, right associativity) : r_scope.

(** Lines 391-393: the conversion of a list inside [save_vote], which keeps
    position [j] only when [j < len(updated_data["ideas"])]. *)
Fixpoint convert_bounded (data : json) (ivs : list (nat * json)) (obj : dict)
  : result dict :=
  match ivs with
  | [] => Ret obj
  | (j, vote) :: rest =>
      match py_getitem "ideas" data with
      | Exc e => Exc e
      | Ret ideas =>
          match py_len ideas with
          | Exc e => Exc e
          | Ret n =>
              convert_bounded data rest
                (if Nat.ltb j n then dict_set (idea_key j) vote obj else obj)
          end
      end
  end.

(** The write of one voter's votes to the voter's own path, as it is written
    out at lines 399-412, 470-483 and 539-552; [what] is the text of the error
    shown when the Admin SDK raises. *)
Definition write_votes (payload : json) (what : string) : M bool :=
  s <- get_session ;;
  a <- is_admin ;;
  if a then
    try_except (ref_set (voter_path (class_code s) (student_name s)) payload ;; ret true)
               (fun e => st_error (what ++ str_exn e) ;; ret false)
  else (resp <- requests_put (voter_path (class_code s) (student_name s)) payload ;;
        ret (status_code resp =? 200)%Z).

Definition set_current_votes (cv : dict) (s : session) : session :=
  mk_session (class_code s) (authenticated s) (student_name s) cv (auto_save s).

(** Lines 380-396: what [updated_data["votes"][student_name]] holds once the
    new rating is in it.  Nothing but this part of [updated_data] is written
    afterwards. *)
Definition updated_votes (name idea_id : string) (rating : Z) (updated_data : json)
  : result json :=
  (has_votes <- py_contains "votes" updated_data ;;
   data1 <- (if (has_votes : bool) then Ret updated_data
             else py_setitem "votes" (JDict []) updated_data) ;;
   all_votes <- py_getitem "votes" data1 ;;
   known <- py_contains name all_votes ;;
   all_votes1 <-
     (if negb known then py_setitem name (JDict []) all_votes
      else
        mine <- py_getitem name all_votes ;;
        match mine with
        | JList old_votes =>
            converted <- convert_bounded data1 (enumerate old_votes) [] ;;
            py_setitem name (JDict converted) all_votes
        | _ => Ret all_votes
        end) ;;
   my_votes <- py_getitem name all_votes1 ;;
   py_setitem idea_id (JInt rating) my_votes)%r.

(** Lines 376-418 *)
Definition save_vote (idea_id : string) (rating : Z) : M bool :=
  updated_data <- get_data None ;;
  s <- get_session ;;
  my_votes <- lift (updated_votes (student_name s) idea_id rating updated_data) ;;
  success <- write_votes my_votes "Error saving vote: " ;;
  if (success : bool) then
    s' <- get_session ;;
    put_session (set_current_votes (dict_set idea_id (JInt rating) (current_votes s')) s') ;;
    ret true
  else ret false.

(** [votes.copy()] followed by [.pop(k, None)] *)
Definition copy_pop (k : string) (votes : json) : result json :=
  match votes with
  | JDict d => Ret (JDict (dict_pop k d))
  | JList _ => Exc TypeError
  | _ => Exc AttributeError
  end.

(** Lines 463-467 and 532-536: the voter's votes without [key], or [None]
    when there is nothing to remove. *)
Definition votes_without (name key : string) (updated_data : json)
  : result (option json) :=
  (has_votes <- py_contains "votes" updated_data ;;
   known <- (if (has_votes : bool) then
               all_votes <- py_getitem "votes" updated_data ;;
               py_contains name all_votes
             else Ret false) ;;
   if (known : bool) then
     all_votes <- py_getitem "votes" updated_data ;;
     mine <- py_getitem name all_votes ;;
     present <- py_contains key mine ;;
     if (present : bool) then
       updated_votes <- copy_pop key mine ;;
       Ret (Some updated_votes)
     else Ret None
   else Ret None)%r.

(** Lines 462-488 and 531-561: removing one stored vote.  The two places
    differ only in what they show afterwards. *)
Definition remove_stored_vote (key : string) (on_success on_failure : M unit)
  : M unit :=
  updated_data <- get_data None ;;
  s <- get_session ;;
  target <- lift (votes_without (student_name s) key updated_data) ;;
  match target with
  | Some updated_votes =>
      success <- write_votes updated_votes "Error removing vote: " ;;
      if (success : bool) then
        s' <- get_session ;;
        put_session (set_current_votes (dict_pop key (current_votes s')) s') ;;
        on_success
      else on_failure
  | None => ret tt
  end.

Definition string_of_Z (z : Z) : string := NilEmpty.string_of_int (Z.to_int z).

(** [f"vote_slider_{i}"], the key of the slider of scenario [i] (line 491). *)
Definition slider_key (i : nat) : string := "vote_slider_" ++ string_of_nat i.

(** [s.split('_')[-1]]: what follows the last underscore. *)
Fixpoint last_field_from (acc s : string) : string :=
  match s with
  | EmptyString => acc
  | String c s' =>
      if Ascii.eqb c "_"%char then last_field_from "" s'
      else last_field_from (acc ++ String c "") s'
  end.

Definition last_field (s : string) : string := last_field_from "" s.

(** [current_votes[key] != new_value], once [key in current_votes] is known *)
Definition differs (key : string) (cv : dict) (new_value : Z) : bool :=
  match dict_get key cv with
  | Some v => negb (py_eq_int v new_value)
  | None => true
  end.

(** Lines 445-488: the callback of the slider of scenario [i]; [new_value] is
    the value the slider now has, [st.session_state[slider_key]].  The
    callback is handed [slider_key i] and takes the index from it with
    [int(slider_key.split('_')[-1])], whose argument is the decimal string of
    [i] ([last_field_slider_key]). *)
Definition on_slider_change (i : nat) (new_value : Z) : M unit :=
  s <- get_session ;;
  if auto_save s then
    let key := idea_key i in
    if (new_value >? 0)%Z then
      if negb (dict_mem key (current_votes s)) || differs key (current_votes s) new_value
      then
        success <- save_vote key new_value ;;
        if (success : bool)
        then show (StToast ("Vote automatically saved: " ++ string_of_Z new_value ++ "/5"))
        else ret tt
      else ret tt
    else if dict_mem key (current_votes s) then
      remove_stored_vote key (show (StToast "Vote removed")) (ret tt)
    else ret tt
  else ret tt.

(** Lines 511-564: a press on the button shown next to the slider of scenario
    [i] while the slider reads [new_rating].  A disabled button cannot be
    pressed. *)
Definition press_button (i : nat) (new_rating : Z) : M unit :=
  s <- get_session ;;
  if negb (auto_save s) then
    let idea_id := idea_key i in
    let button_disabled :=
      (new_rating =? 0)%Z
      || (dict_mem idea_id (current_votes s)
          && negb (differs idea_id (current_votes s) new_rating)) in
    if (new_rating >? 0)%Z then
      if button_disabled then ret tt
      else
        ok <- save_vote idea_id new_rating ;;
        if (ok : bool) then
          (show (StSuccess "Vote submitted for this scenario!") ;; show StRerun)
        else st_error "Failed to submit vote. Please try again."
    else if dict_mem idea_id (current_votes s) then
      remove_stored_vote idea_id
        (show (StSuccess "Vote removed!") ;; show StRerun)
        (st_error "Failed to remove vote. Please try again.")
    else ret tt
  else ret tt.

(* ================================================================== *)
(** * Results (lines 611-706) *)
(* ================================================================== *)

(** What a [for] loop or [enumerate] runs over. *)
Definition py_iter (j : json) : result (list json) :=
  match j with
  | JList l => Ret l
  | JDict d => Ret (map (fun kv => JStr (fst kv)) d)
  | JStr s => Ret (map (fun c => JStr (String c "")) (list_ascii_of_string s))
  | _ => Exc TypeError
  end.

(** [a / b] on integers: true division. The quotient is kept exact here; the
    rounding of the machine's floating point numbers is outside the model. *)
Definition py_truediv (a b : Z) : result Q :=
  if (b =? 0)%Z then Exc ZeroDivisionError else Ret (inject_Z a / inject_Z b)%Q.

(** [sum(votes)] *)
Definition py_sum (votes : list Z) : Z := fold_left Z.add votes 0%Z.

(** Line 652: [sum(votes) / len(votes) if votes else 0] *)
Definition average (votes : list Z) : result Q :=
  match votes with
  | [] => Ret 0%Q
  | _ :: _ => py_truediv (py_sum votes) (Z.of_nat (List.length votes))
  end.

(** Lines 625-630 *)
Definition idea_details (idea_data : json) : json * json :=
  match idea_data with
  | JDict d =>
      (match dict_get "idea" d with Some v => v | None => JStr "Unknown scenario" end,
       match dict_get "submitted_by" d with Some v => v | None => JStr "Unknown" end)
  | _ => (JStr "Unknown scenario", JStr "Unknown")
  end.

(** [results_df['avg_score'].sum()] *)
Definition sum_scores (results : list row) : Q :=
  fold_left (fun acc r => (acc + avg_score r)%Q) results 0%Q.

(** [sort_values("avg_score", ascending=False)]: rows with equal scores keep
    their order here; the library does not promise an order among them. *)
Fixpoint insert_desc (r : row) (l : list row) : list row :=
  match l with
  | [] => [r]
  | x :: l' =>
      if Qle_bool (avg_score x) (avg_score r) then r :: x :: l'
      else x :: insert_desc r l'
  end.

Definition sort_desc (l : list row) : list row := fold_right insert_desc [] l.

(** Lines 698-702: the voters whose votes are a non-empty dict. *)
Definition has_voted (kv : string * json) : bool :=
  match snd kv with
  | JDict (_ :: _) => true
  | _ => false
  end.

Section Results.

(** [int(s)] on a string is the runtime's; [None] is its [ValueError]. *)
Variable int_of_str : string -> option Z.

(** [int(v)], with [None] for the [ValueError] and [TypeError] that lines 640
    and 647 catch. *)
Definition py_int (v : json) : option Z :=
  match v with
  | JInt z => Some z
  | JBool b => Some (if b then 1 else 0)%Z
  | JFloat q => Some (Z.quot (Qnum q) (Z.pos (Qden q)))
  | JStr s => int_of_str s
  | _ => None
  end.

(** [try: votes.append(int(v)) except (ValueError, TypeError): pass] *)
Definition append_int (v : json) (votes : list Z) : list Z :=
  match py_int v with
  | Some z => votes ++ [z]
  | None => votes
  end.

(** Lines 635-649: the loop over the voters for scenario [i]. *)
Fixpoint collect_votes (i : nat) (items : dict) (votes : list Z) : list Z :=
  match items with
  | [] => votes
  | (voter, voter_votes) :: rest =>
      collect_votes i rest
        (match voter_votes with
         | JDict d =>
             match dict_get (idea_key i) d with
             | Some v => append_int v votes
             | None => votes
             end
         | JList l =>
             if Nat.ltb i (List.length l) then append_int (nth i l JNull) votes
             else votes
         | _ => votes
         end)
  end.

(** Lines 633-634: [votes = []], then the loop when ["votes" in data]. *)
Definition votes_for (data : json) (i : nat) : result (list Z) :=
  (has_votes <- py_contains "votes" data ;;
   if (has_votes : bool) then
     all_votes <- py_getitem "votes" data ;;
     items <- py_items all_votes ;;
     Ret (collect_votes i items [])
   else Ret [])%r.

(** Lines 619-661: the loop over [enumerate(data["ideas"])]. *)
Fixpoint build_results (data : json) (ideas : list (nat * json)) (results : list row)
  : result (list row) :=
  match ideas with
  | [] => Ret results
  | (i, idea_data) :: rest =>
      (votes <- votes_for data i ;;
       avg <- average votes ;;
       build_results data rest
         (results ++ [mk_row (i + 1) (fst (idea_details idea_data))
                             (snd (idea_details idea_data)) avg (List.length votes)]))%r
  end.

(** Lines 696-702 *)
Definition participation (data : json) : M unit :=
  has_votes <- lift (py_contains "votes" data) ;;
  if (has_votes : bool) then
    all_votes <- lift (py_getitem "votes" data) ;;
    items <- lift (py_items all_votes) ;;
    let voters := map fst (filter has_voted items) in
    show (StSubheader "Participation") ;;
    show (StWrite ("Total number of voters: " ++ string_of_nat (List.length voters))) ;;
    show (StWrite "Students who have voted:") ;;
    show (StWrite (match voters with
                   | [] => "No one has voted yet"
                   | _ => String.concat ", " voters
                   end))
  else ret tt.

(** Lines 667-704: what is shown for the computed [results]. *)
Definition render_results (data : json) (results : list row) : M unit :=
  if negb (Nat.eqb (List.length results) 0) && negb (Qle_bool (sum_scores results) 0) then
    let results_df := sort_desc results in
    show (StDataframe results_df "%.2f/5") ;;
    show (StSubheader "Average Scores (Higher is Better)") ;;
    (if negb (Nat.eqb (List.length results_df) 0)
        && negb (Qle_bool (sum_scores results_df) 0)
     then show (StBarChart results_df)
     else show (StInfo "No votes have been submitted yet for the chart visualization.")) ;;
    participation data
  else show (StInfo "No votes have been submitted yet!").

(** Lines 613-706: the results tab once [data] has been read. *)
Definition results_tab (data : json) : M unit :=
  ideas <- lift (py_get "ideas" JNull data) ;;
  if py_truthy ideas then
    ideas_seq <- lift (py_getitem "ideas" data) ;;
    ideas_list <- lift (py_iter ideas_seq) ;;
    results <- lift (build_results data (enumerate ideas_list) []) ;;
    render_results data results
  else show (StInfo "No scenarios have been submitted yet!").


(* ------------------------------------------------------------------ *)
(** ** The aggregation as the specification words it

    Section 4.5 of the specification: for the scenario at index [i], every
    voter's rating at key [idea_i], or at position [i] of a list; values that
    are not integers are left out; the score is the mean of what was
    collected, or 0, and the number of votes is their count. *)

Definition spec_rating (i : nat) (voter_votes : json) : option json :=
  match voter_votes with
  | JDict d => dict_get (idea_key i) d
  | JList l => nth_error l i
  | _ => None
  end.

Definition spec_collected (i : nat) (items : dict) : list Z :=
  flat_map (fun kv => match spec_rating i (snd kv) with
                      | Some v => match py_int v with Some z => [z] | None => [] end
                      | None => []
                      end) items.

Definition spec_mean (ratings : list Z) : Q :=
  match ratings with
  | [] => 0%Q
  | _ :: _ => (inject_Z (fold_right Z.add 0%Z ratings)
               / inject_Z (Z.of_nat (List.length ratings)))%Q
  end.

Definition spec_row (items : dict) (i : nat) (idea_data : json) : row :=
  mk_row (i + 1) (fst (idea_details idea_data)) (snd (idea_details idea_data))
         (spec_mean (spec_collected i items))
         (List.length (spec_collected i items)).

Definition spec_rows (items : dict) (ideas : list json) : list row :=
  map (fun ii => spec_row items (fst ii) (snd ii)) (enumerate ideas).

End Results.

(** The voters of a record: none when it has no ["votes"], undefined when
    ["votes"] is not a dictionary. *)
Definition stored_votes (d : dict) : option dict :=
  match dict_get "votes" d with
  | None => Some []
  | Some (JDict items) => Some items
  | Some _ => None
  end.

(** Appending to what is shown. *)
Definition log (w : world) (ms : list message) : world :=
  set_shown (shown w ++ ms) w.

(* ================================================================== *)
(** * Further parts of the page *)
(* ================================================================== *)

(** ** Joining and leaving a class (lines 155-165 and 226-229) *)

Section Joining.

(** [str(v)] inside an f-string is the runtime's. *)
Variable py_str : json -> string.

(** Lines 155-165, the body of [if st.button("Join Class")]. *)
Definition join_class (code : string) : M unit :=
  class_codes <- get_class_codes ;;
  known <- lift (py_contains code class_codes) ;;
  if (known : bool) then
    s <- get_session ;;
    put_session (set_joined code s) ;;
    class_name <- lift (py_getitem code class_codes) ;;
    show (StSuccess ("Joined class: " ++ py_str class_name)) ;;
    show StRerun
  else st_error "Invalid class code. Please try again.".

End Joining.

(** Lines 226-229, the body of [if st.button("Switch Class")]. *)
Definition switch_class : M unit :=
  s <- get_session ;;
  put_session (mk_session "" false (student_name s) (current_votes s) (auto_save s)) ;;
  show StRerun.

(** ** What is shown of one scenario (lines 309-315 and 428-433) *)

(** Lines 309-315: the text and the submitter in the list of scenarios. *)
Definition listing_fields (idea_data : json) : result (json * json) :=
  match idea_data with
  | JDict d =>
      if dict_mem "idea" d && dict_mem "submitted_by" d then
        (text <- py_getitem "idea" idea_data ;;
         by_whom <- py_getitem "submitted_by" idea_data ;;
         Ret (text, by_whom))%r
      else
        (text <- py_get "idea" (JStr "Unknown scenario") idea_data ;;
         by_whom <- py_get "submitted_by" (JStr "Unknown") idea_data ;;
         Ret (text, by_whom))%r
  | _ => Ret (JStr "Unknown scenario", JStr "Unknown")
  end.

(** Lines 428-433: the text above a slider. *)
Definition voting_text (idea_data : json) : result json :=
  match idea_data with
  | JDict d =>
      if dict_mem "idea" d then py_getitem "idea" idea_data
      else py_get "idea" (JStr "Unknown scenario") idea_data
  | _ => Ret (JStr "Unknown scenario")
  end.

(** ** The session's votes and the order of the sliders (lines 351-373) *)

(** Lines 352-363: what [st.session_state.current_votes] is set to when the
    session has none yet; [data] is the record read at line 330. *)
Definition init_current_votes (name : string) (data : json) : result dict :=
  (has_votes <- py_contains "votes" data ;;
   known <- (if (has_votes : bool) then
               all_votes <- py_getitem "votes" data ;;
               py_contains name all_votes
             else Ret false) ;;
   if (known : bool) then
     all_votes <- py_getitem "votes" data ;;
     mine <- py_getitem name all_votes ;;
     match mine with
     | JDict d => Ret d
     | JList l => convert_bounded data (enumerate l) []
     | _ => Ret []
     end
   else Ret [])%r.

Section Ordering.

(** [random.shuffle] is the runtime's: the order it leaves the list in. *)
Variable shuffle : list (nat * json) -> list (nat * json).

(** Lines 366-373: the pairs the sliders are drawn from, and what the session
    keeps as [randomized_ideas]; [cached] is what it kept before, if
    anything. *)
Definition voting_order (cached : option (list (nat * json))) (data : json)
  : result (list (nat * json)) :=
  (ideas <- py_getitem "ideas" data ;;
   ideas_list <- py_iter ideas ;;
   match cached with
   | None => Ret (shuffle (enumerate ideas_list))
   | Some kept => Ret kept
   end)%r.

End Ordering.

(** ** Clearing all votes of the participant (lines 574-599) *)

(** Removing the node at a path. *)
Fixpoint tree_delete (path : list string) (j : json) : json :=
  match path with
  | [] => JNull
  | k :: p =>
      match j with
      | JDict d =>
          match p with
          | [] => JDict (dict_pop k d)
          | _ :: _ =>
              match dict_get k d with
              | Some c => JDict (dict_set k (tree_delete p c) d)
              | None => j
              end
          end
      | _ => j
      end
  end.

Definition store_delete (path : list string) : M unit :=
  fun w => (Ret tt, set_root (tree_delete path (root w)) w).

(** [db.reference(path).delete()] *)
Definition ref_delete (path : list string) : M unit :=
  o <- next_outcome ;;
  if replied_ok o then store_delete path
  else raise (sdk_error o).

(** [requests.delete] on [path.json] *)
Definition requests_delete (path : list string) : M response :=
  o <- next_outcome ;;
  match o with
  | Dropped msg => raise (TransportError msg)
  | Garbled => store_delete path ;; ret (mk_response 200 (Exc JSONDecodeError))
  | Replied c =>
      (if (c =? 200)%Z then store_delete path else ret tt) ;;
      ret (mk_response c (Ret JNull))
  end.

(** Lines 574-599, the body of [if st.button("Clear All My Votes")].  The
    value returned is what the session keeps as [randomized_ideas]
    afterwards, [cached] being what it kept before. *)
Definition clear_all_votes (cached : option (list (nat * json)))
  : M (option (list (nat * json))) :=
  s <- get_session ;;
  a <- is_admin ;;
  success <-
    (if a then
       try_except (ref_delete (voter_path (class_code s) (student_name s)) ;; ret true)
                  (fun e => st_error ("Error clearing votes: " ++ str_exn e) ;; ret false)
     else (resp <- requests_delete (voter_path (class_code s) (student_name s)) ;;
           ret (status_code resp =? 200)%Z)) ;;
  if (success : bool) then
    s' <- get_session ;;
    put_session (set_current_votes [] s') ;;
    show (StSuccess "All your votes have been cleared!") ;;
    show StRerun ;;
    ret None
  else
    st_error "Failed to clear votes. Please try again." ;;
    ret cached.

(** ** The paths the code builds

    The code names a node of the store by a string: [f"/classes/{class_code}"]
    (lines 45 and 90), [f"/classes/{class_code}/votes/{student_name}"] (lines
    68, 402, 473, 542 and 579), and the same text after [FIREBASE_URL] with
    [".json"] appended when it goes over HTTP (lines 49, 72, 96, 409, 480, 549
    and 587).  Neither the class code nor the name is checked before it is put
    into the string.  The store takes what stands between the slashes as the
    keys on the way to the node. *)

Definition class_url (code : string) : string := "/classes/" ++ code.

Definition vote_url (code name : string) : string :=
  "/classes/" ++ code ++ "/votes/" ++ name.

Definition push_segment (acc : string) (l : list string) : list string :=
  match acc with
  | EmptyString => l
  | _ => acc :: l
  end.

Fixpoint segments_from (acc s : string) : list string :=
  match s with
  | EmptyString => push_segment acc []
  | String c s' =>
      if Ascii.eqb c "/"%char then push_segment acc (segments_from "" s')
      else segments_from (acc ++ String c "") s'
  end.

Definition url_segments (s : string) : list string := segments_from "" s.

(** What the store holds at the node a string names. *)
Definition node_at (url : string) (rt : json) : json := tree_get (url_segments url) rt.

(* ================================================================== *)
(** * Notions used in the statements *)
(* ================================================================== *)

(** The keyed form of a list has key [idea_i] at position [i], for every
    position, whatever the value there. *)
Definition keyed_spec (votes : list json) : dict :=
  map (fun iv => (idea_key (fst iv), snd iv)) (enumerate votes).

(** [a] is placed before [b] in a table sorted by descending score. *)
Definition score_ge (a b : row) : Prop := (avg_score b <= avg_score a)%Q.

Definition is_participation (m : message) : Prop :=
  match m with
  | StSubheader _ | StWrite _ => True
  | _ => False
  end.

(** The reply the next request gets, and the world once it is consumed. *)
Definition next_reply (w : world) : outcome := hd (Replied 200) (net w).
Definition advance (w : world) : world :=
  match net w with
  | [] => w
  | _ :: rest => set_net rest w
  end.

(** Every request to come is answered with a success. *)
Definition all_ok (w : world) : Prop := Forall (fun o => o = Replied 200) (net w).

(** The world after a request that wrote [v] at [p]. *)
Definition wrote (p : list string) (v : json) (w : world) : world :=
  set_root (tree_set p v (root w)) (advance w).

(** The class code an operation works on (lines 39-40). *)
Definition the_code (code : option string) (w : world) : string :=
  match code with
  | Some c => if str_truthy c then c else class_code (sess w)
  | None => class_code (sess w)
  end.

(** The record of a class with every list of votes replaced by its keyed
    form, voter by voter. *)
Fixpoint normalized (items : dict) (data : json) : json :=
  match items with
  | [] => data
  | (voter, JList l) :: rest =>
      normalized rest (tree_set ["votes"; voter] (JDict (keyed_of_list l)) data)
  | _ :: rest => normalized rest data
  end.

(** The store after every list of votes of a class has been written back. *)
Fixpoint written (code : string) (items : dict) (rt : json) : json :=
  match items with
  | [] => rt
  | (voter, JList l) :: rest =>
      written code rest (tree_set (voter_path code voter) (JDict (keyed_of_list l)) rt)
  | _ :: rest => written code rest rt
  end.

(** A record that has a dictionary under ["votes"]. *)
Definition has_votes_dict (data : json) : Prop :=
  exists d vs, data = JDict d /\ dict_get "votes" d = Some (JDict vs).

(** The voters of what is stored at a class path. *)
Definition votes_items (data : json) : dict :=
  match data with
  | JDict d => match dict_get "votes" d with
               | Some (JDict vs) => vs
               | _ => []
               end
  | _ => []
  end.

(** How many votes are stored as lists. *)
Definition count_lists (items : dict) : nat :=
  List.length (filter (fun kv => match snd kv with JList _ => true | _ => false end) items).

(** Nothing on the client side changed between two worlds: same mode, same
    secrets, same session, same messages. *)
Definition same_client (w w' : world) : Prop :=
  admin w' = admin w /\ secret_pw w' = secret_pw w /\ sess w' = sess w
  /\ shown w' = shown w.

(** The votes of a record with every list replaced by its keyed form. *)
Fixpoint norm_votes (items vs : dict) : dict :=
  match items with
  | [] => vs
  | (voter, JList l) :: rest =>
      norm_votes rest (dict_set voter (JDict (keyed_of_list l)) vs)
  | _ :: rest => norm_votes rest vs
  end.

(** The message [get_data] shows for the exception [e]. *)
Definition retrieval_error (e : exn) : message :=
  StError ("Error retrieving data: " ++ str_exn e).

(** A request that got an HTTP reply (it did not raise), and one whose reply
    says it failed. *)
Definition is_reply (o : outcome) : Prop :=
  match o with
  | Replied _ => True
  | _ => False
  end.

Definition failed (o : outcome) : Prop :=
  match o with
  | Replied c => c <> 200%Z
  | _ => False
  end.

(** The configured teacher password (lines 122-128). *)
Definition teacher_password_of (w : world) : string :=
  match secret_pw w with
  | Some p => p
  | None => "teacherpass"
  end.

(** What [get_class_codes] returns when the registry node holds [reg]:
    [reg or {}]. *)
Definition registry_or_empty (reg : json) : json :=
  if py_truthy reg then reg else JDict [].

(** No voter of these has votes stored as a list. *)
Definition no_legacy (items : dict) : Prop :=
  Forall (fun kv => forall l, snd kv <> JList l) items.

(** A stored value that does not compare equal to 0. *)
Definition nonzero (v : json) : Prop := py_eq_int v 0 = false.

(** A set of votes, keyed or positional, in which no value is 0. *)
Definition zero_free (votes : json) : Prop :=
  match votes with
  | JDict d => Forall (fun kv => nonzero (snd kv)) d
  | JList l => Forall nonzero l
  | _ => True
  end.

(** What the store holds for the participant of the session. *)
Definition own_path (w : world) : list string :=
  voter_path (class_code (sess w)) (student_name (sess w)).

Definition stored_voteset (w : world) : json := tree_get (own_path w) (root w).

(** The voters stored for the class of the session have pairwise different
    names. *)
Definition voters_wf (w : world) : Prop :=
  dict_wf (votes_items (tree_get (class_path (class_code (sess w))) (root w))).

(** An action that only shows something: it leaves the store and the session
    alone. *)
Definition only_shows (m : M unit) : Prop :=
  forall w r w', m w = (r, w') -> root w' = root w /\ sess w' = sess w.

(** A voter's votes as [get_data] leaves them: a list becomes its keyed
    form, anything else stays. *)
Definition norm_value (v : json) : json :=
  match v with
  | JList l => JDict (keyed_of_list l)
  | _ => v
  end.

Definition norm_item (kv : string * json) : string * json :=
  (fst kv, norm_value (snd kv)).

(** What the session's votes are loaded with for a participant whose stored
    votes are [stored]. *)
Definition loaded_votes (stored : option json) : dict :=
  match stored with
  | Some (JList l) => keyed_of_list l
  | Some (JDict m) => m
  | _ => []
  end.

(** The message [get_class_codes] shows for the exception [e]. *)
Definition codes_error (e : exn) : message :=
  StError ("Error getting class codes: " ++ str_exn e).

(** The message [save_data] shows for the exception [e]. *)
Definition saving_error (e : exn) : message :=
  StError ("Error saving data: " ++ str_exn e).

(** The votes [save_vote] starts from for a participant, given the voters
    [nv] of the record it has read: the participant's dictionary, or an empty
    one for a participant not among them. *)
Definition votes_to_update (name : string) (nv : dict) : option dict :=
  match dict_get name nv with
  | Some (JDict mine) => Some mine
  | None => Some []
  | Some _ => None
  end.

(** A text that is one key of the store wherever the code puts it into a
    path: it is not empty and has none of the characters that split a path
    ([/]), that the store refuses in a key ([.], [$], [#], [[], []]) or that
    a URL reads as something else ([?], [%]).  For such a class code and such
    a name the lists [class_path] and [voter_path] are the segments of the
    strings the code builds ([class_url_segments], [vote_url_segments]). *)
Definition key_char (c : ascii) : bool :=
  negb (existsb (Ascii.eqb c) ["/"; "."; "$"; "#"; "["; "]"; "?"; "%"]%char).

Fixpoint all_chars (p : ascii -> bool) (s : string) : bool :=
  match s with
  | EmptyString => true
  | String c s' => p c && all_chars p s'
  end.

Definition plain_key (s : string) : bool :=
  negb (String.eqb s "") && all_chars key_char s.

(* ================================================================== *)
(** * Sample data *)
(* ================================================================== *)

(** Three voters and one scenario: ratings 4 and 5, and one voter who has not
    rated it. *)
Definition three_voters : dict :=
  [("a", JDict [("idea_0", JInt 4)]);
   ("b", JDict [("idea_0", JInt 5)]);
   ("c", JDict [])].

Definition one_idea : list json :=
  [JDict [("idea", JStr "Using AI to grade essays"); ("submitted_by", JStr "TeamA")]].

Definition three_voters_record : dict :=
  [("ideas", JList one_idea); ("votes", JDict three_voters)].

(** A runtime whose [int] accepts no string at all. *)
Definition no_int_of_str (s : string) : option Z := None.

(** A class "c" with one scenario; "ann" has her votes stored as the list
    [3, 5, 0], "bob" his as a dictionary. *)
Definition legacy_class : json :=
  JDict [("ideas", JList [JStr "x"]);
         ("votes", JDict [("ann", JList [JInt 3; JInt 5; JInt 0]);
                          ("bob", JDict [("idea_0", JInt 4)])])].

Definition legacy_store : json := JDict [("classes", JDict [("c", legacy_class)])].

Definition ann_session : session := mk_session "c" true "ann" [] false.

(** The store is reached over plain HTTP and answers as scripted. *)
Definition http_world (replies : list outcome) : world :=
  mk_world false None legacy_store replies [] ann_session.

(** The store is reached through the Admin SDK. *)
Definition sdk_world (replies : list outcome) : world :=
  mk_world true None legacy_store replies [] ann_session.

(** The class "c" is registered under the name "Period 3" and has data. *)
Definition registered_store : json :=
  JDict [("class_access_codes", JDict [("c", JStr "Period 3")]);
         ("classes", JDict [("c", legacy_class)])].

Definition teacher_world : world :=
  mk_world true None registered_store [] [] (mk_session "" false "" [] false).

(** Nobody has typed a name yet. *)
Definition nameless_world : world :=
  mk_world false None legacy_store [] [] (mk_session "c" true "" [] false).

(** A class with one scenario and one voter, "bob", who rated it 4 and whose
    session knows it; his slider saves on change. *)
Definition plain_class : json :=
  JDict [("ideas", JList [JStr "x"]);
         ("votes", JDict [("bob", JDict [("idea_0", JInt 4)])])].

Definition bob_world : world :=
  mk_world true None (JDict [("classes", JDict [("c", plain_class)])]) [] []
           (mk_session "c" true "bob" [("idea_0", JInt 4)] true).

(** The same class once it has been read: the store holds the keyed form of
    the list of "ann", and her session has loaded it. *)
Definition loaded_store : json :=
  JDict [("classes",
          JDict [("c", JDict [("ideas", JList [JStr "x"]);
                              ("votes",
                               JDict [("ann", JDict [("idea_0", JInt 3);
                                                     ("idea_1", JInt 5);
                                                     ("idea_2", JInt 0)]);
                                      ("bob", JDict [("idea_0", JInt 4)])])])])].

Definition ann_loaded_world : world :=
  mk_world false None loaded_store [] []
           (mk_session "c" true "ann"
                       [("idea_0", JInt 3); ("idea_1", JInt 5); ("idea_2", JInt 0)] false).

(** Python's [str] on the values a registry holds: a string is itself. *)
Definition str_of_name (j : json) : string :=
  match j with
  | JStr s => s
  | _ => ""
  end.

(** Two classes are registered; "ann" is in class "c" with her votes loaded. *)
Definition two_class_store : json :=
  JDict [("class_access_codes", JDict [("c", JStr "Period 3"); ("d", JStr "Period 4")]);
         ("classes", JDict [("c", plain_class); ("d", empty_record)])].

Definition leaving_world : world :=
  mk_world false None two_class_store [] []
           (mk_session "c" true "ann" [("idea_0", JInt 3)] false).

(** The class once read, reached over plain HTTP by "ann", with a store that
    answers the read and refuses the write that follows. *)
Definition refusing_world (auto : bool) : world :=
  mk_world false None loaded_store [Replied 200; Replied 500] []
           (mk_session "c" true "ann"
                       [("idea_0", JInt 3); ("idea_1", JInt 5); ("idea_2", JInt 0)] auto).

(** The class of "bob" after it has been reset from another session: the
    store holds the empty record, his session still holds the rating it had
    loaded. *)
Definition stale_world (auto : bool) : world :=
  mk_world true None (JDict [("classes", JDict [("c", empty_record)])]) [] []
           (mk_session "c" true "bob" [("idea_0", JInt 4)] auto).

(** Three scenarios and three voters, one of them with votes stored as a
    list: the scores are 3, 1 and 9/2, so the table has the third scenario
    first, the first one next and the second one last. *)
Definition three_ideas : list json :=
  [JDict [("idea", JStr "Using AI to grade essays"); ("submitted_by", JStr "TeamA")];
   JDict [("idea", JStr "Using AI to screen job applicants"); ("submitted_by", JStr "TeamB")];
   JDict [("idea", JStr "Using AI to translate a menu"); ("submitted_by", JStr "TeamC")]].

Definition ranked_votes : dict :=
  [("a", JDict [("idea_0", JInt 2); ("idea_1", JInt 1); ("idea_2", JInt 5)]);
   ("b", JDict [("idea_0", JInt 3); ("idea_2", JInt 4)]);
   ("c", JList [JInt 4])].

Definition ranked_record : dict :=
  [("ideas", JList three_ideas); ("votes", JDict ranked_votes)].

Definition viewer_world : world :=
  mk_world false None JNull [] [] (mk_session "c" true "a" [] false).

(** "carl" has the rating 2 in his session and nothing in the store, in a
    class where "ann" still has her votes stored as a list. *)
Definition stale_legacy_world : world :=
  mk_world true None legacy_store [] []
           (mk_session "c" true "carl" [("idea_0", JInt 2)] false).

(* ================================================================== *)
(** * Facts about dictionaries and keys *)
(* ================================================================== *)

Local Open Scope nat_scope.

Lemma dict_get_set_same (k : string) (v : json) (d : dict) :
  dict_get k (dict_set k v d) = Some v.
Proof.
  induction d as [|[k' v'] d IH]; simpl.
  - now rewrite String.eqb_refl.
  - destruct (String.eqb k k') eqn:E; simpl.
    + now rewrite String.eqb_refl.
    + now rewrite E.
Qed.

Lemma dict_get_set_other (k k' : string) (v : json) (d : dict) :
  k <> k' -> dict_get k (dict_set k' v d) = dict_get k d.
Proof.
  intros Hne. induction d as [|[k0 v0] d IH]; simpl.
  - destruct (String.eqb_spec k k'); [contradiction | reflexivity].
  - destruct (String.eqb_spec k' k0) as [->|Hk]; simpl.
    + destruct (String.eqb_spec k k0); [contradiction | reflexivity].
    + destruct (String.eqb_spec k k0); [reflexivity | exact IH].
Qed.

Lemma dict_get_In (k : string) (v : json) (d : dict) :
  dict_get k d = Some v -> In (k, v) d.
Proof.
  induction d as [|[k' v'] d IH]; simpl; [discriminate|].
  destruct (String.eqb_spec k k') as [->|Hk].
  - intros [= ->]. now left.
  - intros H. right. now apply IH.
Qed.

Lemma dict_get_not_In (k : string) (d : dict) :
  ~ In k (map fst d) -> dict_get k d = None.
Proof.
  induction d as [|[k' v'] d IH]; simpl; [reflexivity|].
  intros H. destruct (String.eqb_spec k k') as [->|Hk].
  - exfalso. apply H. now left.
  - apply IH. intros Hin. apply H. now right.
Qed.

(** Setting a key that is not there yet appends it. *)
Lemma dict_set_fresh (k : string) (v : json) (d : dict) :
  ~ In k (map fst d) -> dict_set k v d = d ++ [(k, v)].
Proof.
  induction d as [|[k' v'] d IH]; simpl; [reflexivity|].
  intros H. destruct (String.eqb_spec k k') as [->|Hk].
  - exfalso. apply H. now left.
  - f_equal. apply IH. intros Hin. apply H. now right.
Qed.

Lemma dict_pop_get_same (k : string) (d : dict) :
  dict_wf d -> dict_get k (dict_pop k d) = None.
Proof.
  unfold dict_wf. induction d as [|[k' v'] d IH]; simpl; [reflexivity|].
  intros Hnd. inversion Hnd as [|? ? Hnotin Hnd']; subst.
  destruct (String.eqb_spec k k') as [->|Hk].
  - now apply dict_get_not_In.
  - simpl. destruct (String.eqb_spec k k'); [contradiction | now apply IH].
Qed.

Lemma dict_pop_subset (k : string) (d : dict) (kv : string * json) :
  In kv (dict_pop k d) -> In kv d.
Proof.
  induction d as [|[k' v'] d IH]; simpl; [tauto|].
  destruct (String.eqb k k'); simpl.
  - intros H. now right.
  - intros [H|H]; [now left | right; now apply IH].
Qed.

Lemma dict_set_In (k : string) (v : json) (d : dict) (kv : string * json) :
  In kv (dict_set k v d) -> kv = (k, v) \/ In kv d.
Proof.
  induction d as [|[k' v'] d IH]; simpl.
  - intros [H|[]]. now left.
  - destruct (String.eqb k k'); simpl.
    + intros [H|H]; [now left | right; now right].
    + intros [H|H]; [right; now left |].
      destruct (IH H) as [H'|H']; [now left | right; now right].
Qed.

Lemma string_of_nat_inj (i j : nat) : string_of_nat i = string_of_nat j -> i = j.
Proof.
  unfold string_of_nat. intros H.
  assert (Hu : Nat.to_uint i = Nat.to_uint j).
  { apply (f_equal NilEmpty.uint_of_string) in H.
    rewrite !NilEmpty.usu in H. now injection H. }
  apply (f_equal Nat.of_uint) in Hu.
  now rewrite !DecimalNat.Unsigned.of_to in Hu.
Qed.

Lemma string_append_assoc (a b c : string) : ((a ++ b) ++ c = a ++ (b ++ c))%string.
Proof. induction a as [|x a IH]; simpl; [reflexivity | now rewrite IH]. Qed.

Lemma last_field_digits (d : Decimal.uint) : forall acc,
  last_field_from acc (NilEmpty.string_of_uint d)
  = (acc ++ NilEmpty.string_of_uint d)%string.
Proof.
  assert (Hnil : forall a : string, (a ++ "")%string = a)
    by (induction a as [|x a IH]; simpl; [reflexivity | now rewrite IH]).
  induction d as [|d IH|d IH|d IH|d IH|d IH|d IH|d IH|d IH|d IH|d IH]; intros acc;
    cbn [NilEmpty.string_of_uint last_field_from Ascii.eqb Bool.eqb];
    try (rewrite IH; apply string_append_assoc).
  now rewrite Hnil.
Qed.

(** The key of a slider ends in the decimal string of its index. *)
Lemma last_field_slider_key (i : nat) : last_field (slider_key i) = string_of_nat i.
Proof.
  unfold last_field, slider_key, string_of_nat.
  cbn [append last_field_from Ascii.eqb Bool.eqb].
  now rewrite last_field_digits.
Qed.

Lemma idea_key_inj (i j : nat) : idea_key i = idea_key j -> i = j.
Proof.
  unfold idea_key. simpl. intros H. injection H as H. now apply string_of_nat_inj.
Qed.

Lemma keyed_fold_from (l : list json) : forall (n : nat) (acc : dict),
  (forall k, In k (map fst acc) -> exists m, m < n /\ k = idea_key m) ->
  fold_left (fun o iv => dict_set (idea_key (fst iv)) (snd iv) o)
            (combine (seq n (List.length l)) l) acc
  = acc ++ map (fun iv => (idea_key (fst iv), snd iv))
               (combine (seq n (List.length l)) l).
Proof.
  induction l as [|v l IH]; intros n acc Hacc; simpl.
  - now rewrite app_nil_r.
  - rewrite dict_set_fresh.
    + rewrite IH.
      * now rewrite <- app_assoc.
      * intros k Hk. rewrite map_app, in_app_iff in Hk. simpl in Hk.
        destruct Hk as [Hk|[Hk|[]]].
        -- destruct (Hacc k Hk) as [m [Hm ->]]. exists m. split; [lia | reflexivity].
        -- exists n. split; [lia | now symmetry].
    + intros Hin. destruct (Hacc _ Hin) as [m [Hm Heq]].
      apply idea_key_inj in Heq. lia.
Qed.

Lemma keyed_of_list_spec (votes : list json) : keyed_of_list votes = keyed_spec votes.
Proof.
  unfold keyed_of_list, keyed_spec, enumerate.
  rewrite keyed_fold_from; [reflexivity|].
  intros k [].
Qed.

Lemma keyed_spec_values (votes : list json) : map snd (keyed_spec votes) = votes.
Proof.
  unfold keyed_spec, enumerate. rewrite map_map. simpl.
  generalize 0 as n. induction votes as [|v l IH]; intros n; simpl; [reflexivity|].
  now rewrite IH.
Qed.

(* ================================================================== *)
(** * The aggregation of the results tab *)
(* ================================================================== *)

Section ResultsFacts.

Variable int_of_str : string -> option Z.

Lemma nth_error_nth_ltb (l : list json) (i : nat) :
  nth_error l i = if Nat.ltb i (List.length l) then Some (nth i l JNull) else None.
Proof.
  revert i. induction l as [|x l IH]; intros [|i]; simpl; try reflexivity.
  rewrite IH. change (Nat.ltb (S i) (S (List.length l))) with (Nat.ltb i (List.length l)).
  reflexivity.
Qed.

(** The loop of lines 635-649 collects what the specification describes. *)
Lemma collect_votes_acc (i : nat) (items : dict) : forall acc,
  collect_votes int_of_str i items acc = acc ++ spec_collected int_of_str i items.
Proof.
  induction items as [|[voter vv] items IH]; intros acc; simpl.
  - now rewrite app_nil_r.
  - rewrite IH. unfold spec_collected at 2. simpl.
    fold (spec_collected int_of_str i items).
    rewrite app_assoc. f_equal.
    destruct vv; simpl; try now rewrite app_nil_r.
    + rewrite nth_error_nth_ltb.
      destruct (Nat.ltb i (List.length l)); [|now rewrite app_nil_r].
      unfold append_int. destruct (py_int _ _); [reflexivity | now rewrite app_nil_r].
    + destruct (dict_get (idea_key i) d); [|now rewrite app_nil_r].
      unfold append_int. destruct (py_int _ _); [reflexivity | now rewrite app_nil_r].
Qed.

Lemma py_sum_fold_right (votes : list Z) : py_sum votes = fold_right Z.add 0%Z votes.
Proof.
  unfold py_sum. apply fold_symmetric; intros; lia.
Qed.

(** Line 652 never divides by zero and yields the mean. *)
Lemma average_spec (votes : list Z) : average votes = Ret (spec_mean votes).
Proof.
  destruct votes as [|z votes]; [reflexivity|].
  unfold average, py_truediv, spec_mean.
  rewrite py_sum_fold_right.
  destruct (Z.eqb_spec (Z.of_nat (List.length (z :: votes))) 0) as [H|H].
  - simpl List.length in H. lia.
  - reflexivity.
Qed.

Lemma votes_for_spec (d items : dict) (i : nat) :
  stored_votes d = Some items ->
  votes_for int_of_str (JDict d) i = Ret (spec_collected int_of_str i items).
Proof.
  unfold stored_votes, votes_for, py_contains, py_getitem, dict_mem. simpl.
  destruct (dict_get "votes" d) as [v|]; simpl.
  - destruct v; try discriminate. intros [= ->]. simpl.
    now rewrite collect_votes_acc.
  - now intros [= <-].
Qed.

Lemma build_results_from (d items : dict) (ideas : list json) :
  stored_votes d = Some items ->
  forall (n : nat) (acc : list row),
    build_results int_of_str (JDict d) (combine (seq n (List.length ideas)) ideas) acc
    = Ret (acc ++ map (fun ii => spec_row int_of_str items (fst ii) (snd ii))
                      (combine (seq n (List.length ideas)) ideas)).
Proof.
  intros Hv. induction ideas as [|x ideas IH]; intros n acc; simpl.
  - now rewrite app_nil_r.
  - rewrite (votes_for_spec d items n Hv). simpl.
    rewrite average_spec. simpl. rewrite IH. now rewrite <- app_assoc.
Qed.

Lemma build_results_spec (d items : dict) (ideas : list json) :
  stored_votes d = Some items ->
  build_results int_of_str (JDict d) (enumerate ideas) []
  = Ret (spec_rows int_of_str items ideas).
Proof.
  intros Hv. unfold enumerate, spec_rows.
  now rewrite (build_results_from d items ideas Hv).
Qed.

End ResultsFacts.

Section ResultsClaims.

Variable int_of_str : string -> option Z.

(** C3. For a record whose votes are a dictionary (or missing), the loop of
    the results tab produces, for the scenario at index [i], exactly the row
    the specification describes: the ratings collected are every voter's
    value at key [idea_i] (or at position [i] of a list) that [int] accepts,
    the others are skipped; [avg_score] is their arithmetic mean and
    [num_votes] their count.  Ratings 4 and 5 (a third voter absent) give 4.5
    and 2; no collected rating gives 0 and 0, and the computation returns
    (it never divides by zero). *)
Theorem results_aggregation (d items : dict) (ideas : list json) :
  stored_votes d = Some items ->
  build_results int_of_str (JDict d) (enumerate ideas) []
  = Ret (spec_rows int_of_str items ideas)
  /\ (forall i idea_data,
        spec_collected int_of_str i items = [4; 5]%Z ->
        (avg_score (spec_row int_of_str items i idea_data) == 4.5)%Q
        /\ num_votes (spec_row int_of_str items i idea_data) = 2)
  /\ (forall i idea_data,
        spec_collected int_of_str i items = [] ->
        avg_score (spec_row int_of_str items i idea_data) = 0%Q
        /\ num_votes (spec_row int_of_str items i idea_data) = 0)
  /\ (forall votes, average votes = Ret (spec_mean votes)).
Proof.
  intros Hv. split; [now apply build_results_spec|].
  split; [|split].
  - intros i idea_data Hc. unfold spec_row. simpl. rewrite Hc. split; reflexivity.
  - intros i idea_data Hc. unfold spec_row. simpl. rewrite Hc. split; reflexivity.
  - apply average_spec.
Qed.

End ResultsClaims.

Lemma results_aggregation_witness :
  stored_votes three_voters_record = Some three_voters
  /\ build_results no_int_of_str (JDict three_voters_record) (enumerate one_idea) []
     = Ret [mk_row 1 (JStr "Using AI to grade essays") (JStr "TeamA") (9 # 2) 2].
Proof.
  split; [reflexivity|].
  destruct (results_aggregation no_int_of_str three_voters_record three_voters
              one_idea eq_refl) as [H _].
  rewrite H. reflexivity.
Defined.

(* ================================================================== *)
(** * What is shown: the log of messages *)
(* ================================================================== *)

Lemma show_run (m : message) (w : world) : show m w = (Ret tt, log w [m]).
Proof. reflexivity. Qed.

Lemma log_log (w : world) (a b : list message) : log (log w a) b = log w (a ++ b).
Proof. unfold log, set_shown. simpl. now rewrite app_assoc. Qed.

Lemma log_nil (w : world) : log w [] = w.
Proof. destruct w. unfold log, set_shown. simpl. now rewrite app_nil_r. Qed.

Lemma log_root (w : world) (ms : list message) : root (log w ms) = root w.
Proof. reflexivity. Qed.

(* ================================================================== *)
(** * The results table *)
(* ================================================================== *)

Lemma insert_desc_perm (r : row) (l : list row) : Permutation (r :: l) (insert_desc r l).
Proof.
  induction l as [|x l IH]; simpl; [reflexivity|].
  destruct (Qle_bool (avg_score x) (avg_score r)); [reflexivity|].
  rewrite perm_swap. now constructor.
Qed.

Lemma sort_desc_perm (l : list row) : Permutation l (sort_desc l).
Proof.
  induction l as [|x l IH]; simpl; [constructor|].
  rewrite <- insert_desc_perm. now constructor.
Qed.

Lemma insert_desc_sorted (r : row) (l : list row) :
  StronglySorted score_ge l -> StronglySorted score_ge (insert_desc r l).
Proof.
  induction l as [|x l IH]; intros Hs; simpl.
  - constructor; constructor.
  - inversion Hs as [|? ? Hs' Hall]; subst.
    destruct (Qle_bool (avg_score x) (avg_score r)) eqn:E.
    + apply Qle_bool_iff in E. constructor; [exact Hs|].
      constructor; [exact E|].
      eapply Forall_impl; [|exact Hall]. intros y Hy. unfold score_ge in *.
      now apply Qle_trans with (avg_score x).
    + assert (Hlt : (avg_score r < avg_score x)%Q).
      { apply Qnot_le_lt. intros Hle. apply Qle_bool_iff in Hle. congruence. }
      constructor; [now apply IH|].
      apply (Permutation_Forall (insert_desc_perm r l)).
      constructor; [now apply Qlt_le_weak | exact Hall].
Qed.

Lemma sort_desc_sorted (l : list row) : StronglySorted score_ge (sort_desc l).
Proof.
  induction l as [|x l IH]; simpl; [constructor|]. now apply insert_desc_sorted.
Qed.

Lemma sum_scores_from (l : list row) : forall acc : Q,
  (fold_left (fun a r => a + avg_score r) l acc
   == acc + fold_right (fun r a => avg_score r + a) 0 l)%Q.
Proof.
  induction l as [|x l IH]; intros acc; simpl.
  - now rewrite Qplus_0_r.
  - rewrite IH. now rewrite Qplus_assoc.
Qed.

Lemma sum_scores_zero (l : list row) :
  Forall (fun r => avg_score r == 0)%Q l -> (sum_scores l == 0)%Q.
Proof.
  intros H. unfold sum_scores. rewrite sum_scores_from. rewrite Qplus_0_l.
  induction H as [|x l Hx Hl IH]; simpl; [reflexivity|].
  rewrite Hx, IH. reflexivity.
Qed.

Lemma sum_scores_perm (l l' : list row) :
  Permutation l l' -> (sum_scores l == sum_scores l')%Q.
Proof.
  intros H. unfold sum_scores. rewrite !sum_scores_from, !Qplus_0_l.
  induction H; simpl.
  - reflexivity.
  - now rewrite IHPermutation.
  - rewrite !Qplus_assoc. now rewrite (Qplus_comm (avg_score y)).
  - now rewrite IHPermutation1.
Qed.

Lemma scores_total_nonneg (l : list row) :
  Forall (fun r => 0 <= avg_score r)%Q l ->
  (0 <= fold_right (fun r a => avg_score r + a) 0 l)%Q.
Proof.
  induction 1 as [|x l Hx Hl IH]; simpl; [apply Qle_refl|].
  apply Qle_trans with (0 + 0)%Q; [discriminate | now apply Qplus_le_compat].
Qed.

(** Scores that are not negative and not all zero sum to more than zero. *)
Lemma sum_scores_positive (l : list row) :
  Forall (fun r => 0 <= avg_score r)%Q l ->
  Exists (fun r => 0 < avg_score r)%Q l ->
  (0 < sum_scores l)%Q.
Proof.
  intros Hnn Hex. unfold sum_scores. rewrite sum_scores_from, Qplus_0_l.
  induction Hex as [x l Hx|x l Hex IH]; simpl;
    inversion Hnn as [|? ? Hx0 Hl]; subst.
  - apply Qle_lt_trans with (0 + 0)%Q; [discriminate|].
    apply Qplus_lt_le_compat; [exact Hx | now apply scores_total_nonneg].
  - apply Qle_lt_trans with (0 + 0)%Q; [discriminate|].
    rewrite (Qplus_comm (avg_score x)).
    apply Qplus_lt_le_compat; [now apply IH | exact Hx0].
Qed.

Lemma spec_rows_nth (int_of_str : string -> option Z) (items : dict)
      (ideas : list json) (i : nat) (idea_data : json) :
  nth_error ideas i = Some idea_data ->
  nth_error (spec_rows int_of_str items ideas) i
  = Some (spec_row int_of_str items i idea_data).
Proof.
  unfold spec_rows, enumerate. intros H.
  rewrite nth_error_map.
  assert (Hc : forall n (l : list json) i x, nth_error l i = Some x ->
               nth_error (combine (seq n (List.length l)) l) i = Some (n + i, x)).
  { intros n l. revert n. induction l as [|y l IH]; intros n [|j] x Hx; simpl in *;
      try discriminate.
    - injection Hx as ->. now rewrite Nat.add_0_r.
    - rewrite (IH (S n) j x Hx). f_equal. f_equal. lia. }
  rewrite (Hc 0 ideas i idea_data H). reflexivity.
Qed.

Lemma participation_run (d items : dict) (w : world) :
  stored_votes d = Some items ->
  exists ms, participation (JDict d) w = (Ret tt, log w ms)
             /\ Forall is_participation ms.
Proof.
  unfold stored_votes, participation, bind, lift, ret, py_contains, py_getitem, dict_mem.
  destruct (dict_get "votes" d) as [v|]; cbv beta iota.
  - destruct v; try discriminate. intros _. unfold py_items. cbv beta iota.
    repeat (rewrite show_run; cbv beta iota). rewrite !log_log.
    eexists. split; [reflexivity|]. repeat constructor.
  - intros _. exists []. rewrite log_nil. split; [reflexivity | constructor].
Qed.

Lemma positive_sum_test (q : Q) : (0 < q)%Q -> Qle_bool q 0 = false.
Proof.
  intros H. destruct (Qle_bool q 0) eqn:E; [|reflexivity].
  apply Qle_bool_iff in E. exfalso. now apply (Qlt_not_le _ _ H).
Qed.

Lemma render_all_zero (data : json) (results : list row) (w : world) :
  Forall (fun r => avg_score r == 0)%Q results ->
  render_results data results w
  = (Ret tt, log w [StInfo "No votes have been submitted yet!"]).
Proof.
  intros H. unfold render_results.
  assert (E : Qle_bool (sum_scores results) 0 = true).
  { apply Qle_bool_iff. rewrite (sum_scores_zero _ H). apply Qle_refl. }
  rewrite E. simpl. rewrite andb_false_r. apply show_run.
Qed.

Lemma render_table (d items : dict) (results : list row) (w : world) :
  stored_votes d = Some items ->
  (0 < sum_scores results)%Q ->
  exists rest,
    render_results (JDict d) results w
    = (Ret tt, log w (StDataframe (sort_desc results) "%.2f/5"
                      :: StSubheader "Average Scores (Higher is Better)"
                      :: StBarChart (sort_desc results) :: rest))
    /\ Forall is_participation rest.
Proof.
  intros Hv Hpos. unfold render_results.
  assert (Hne : Nat.eqb (List.length results) 0 = false).
  { destruct results; [|reflexivity]. exfalso. revert Hpos. unfold sum_scores. simpl.
    apply Qlt_irrefl. }
  assert (Hne' : Nat.eqb (List.length (sort_desc results)) 0 = false).
  { now rewrite <- (Permutation_length (sort_desc_perm results)). }
  assert (Hpos' : (0 < sum_scores (sort_desc results))%Q).
  { now rewrite <- (sum_scores_perm _ _ (sort_desc_perm results)). }
  rewrite Hne, Hne', (positive_sum_test _ Hpos), (positive_sum_test _ Hpos'). simpl.
  unfold bind. rewrite !show_run.
  destruct (participation_run d items
              (log (log (log w [StDataframe (sort_desc results) "%.2f/5"])
                        [StSubheader "Average Scores (Higher is Better)"])
                   [StBarChart (sort_desc results)]) Hv) as [ms [Hrun Hms]].
  rewrite Hrun. rewrite !log_log. simpl. exists ms. split; [reflexivity | exact Hms].
Qed.

Section TableClaims.

Variable int_of_str : string -> option Z.

Lemma results_tab_run (d items : dict) (ideas : list json) (w : world) :
  dict_get "ideas" d = Some (JList ideas) ->
  ideas <> [] ->
  stored_votes d = Some items ->
  results_tab int_of_str (JDict d) w
  = render_results (JDict d) (spec_rows int_of_str items ideas) w.
Proof.
  intros Hi Hne Hv. unfold results_tab, bind, lift, py_get, py_getitem, py_iter.
  rewrite Hi. simpl. destruct ideas as [|x ideas]; [contradiction|].
  rewrite (build_results_spec int_of_str d items (x :: ideas) Hv). reflexivity.
Qed.

(** C6. For a record with at least one scenario, the results tab works on
    one row per scenario, row [i] holding [idea_num = i + 1], the scenario's
    text and submitter, the average score and the number of votes.  When the
    score of every scenario is zero, nothing but the message "No votes have
    been submitted yet!" is shown.  When the scores sum to more than zero (as
    they do when none is negative and one is not zero), the first thing shown
    is the table: the same rows, sorted by [avg_score] in descending order,
    with the score column formatted by "%.2f/5"; the message is not shown
    then. *)
Theorem results_table (d items : dict) (ideas : list json) (w : world) :
  dict_get "ideas" d = Some (JList ideas) ->
  ideas <> [] ->
  stored_votes d = Some items ->
  let rows := spec_rows int_of_str items ideas in
  (forall i idea_data,
      nth_error ideas i = Some idea_data ->
      nth_error rows i
      = Some (mk_row (i + 1) (fst (idea_details idea_data)) (snd (idea_details idea_data))
                     (spec_mean (spec_collected int_of_str i items))
                     (List.length (spec_collected int_of_str i items))))
  /\ (Forall (fun r => avg_score r == 0)%Q rows ->
      results_tab int_of_str (JDict d) w
      = (Ret tt, log w [StInfo "No votes have been submitted yet!"]))
  /\ ((0 < sum_scores rows)%Q ->
      exists table rest,
        results_tab int_of_str (JDict d) w
        = (Ret tt, log w (StDataframe table "%.2f/5" :: rest))
        /\ Permutation rows table
        /\ StronglySorted score_ge table
        /\ ~ In (StInfo "No votes have been submitted yet!") rest)
  /\ (Forall (fun r => 0 <= avg_score r)%Q rows ->
      Exists (fun r => 0 < avg_score r)%Q rows ->
      (0 < sum_scores rows)%Q).
Proof.
  intros Hi Hne Hv rows. split; [|split; [|split]].
  - intros i idea_data Hn. unfold rows. now rewrite (spec_rows_nth _ _ _ _ _ Hn).
  - intros Hz. rewrite (results_tab_run d items ideas w Hi Hne Hv).
    now apply render_all_zero.
  - intros Hpos. rewrite (results_tab_run d items ideas w Hi Hne Hv).
    destruct (render_table d items rows w Hv Hpos) as [rest [Hrun Hrest]].
    exists (sort_desc rows). eexists. split; [exact Hrun|].
    split; [apply sort_desc_perm|]. split; [apply sort_desc_sorted|].
    intros [H|[H|H]]; try discriminate.
    rewrite Forall_forall in Hrest. apply (Hrest _ H).
  - apply sum_scores_positive.
Qed.

End TableClaims.

Lemma results_table_witness :
  (exists rest,
     results_tab no_int_of_str (JDict ranked_record) viewer_world
     = (Ret tt,
        log viewer_world
            (StDataframe
               [mk_row 3 (JStr "Using AI to translate a menu") (JStr "TeamC") (9 # 2) 2;
                mk_row 1 (JStr "Using AI to grade essays") (JStr "TeamA") (9 # 3) 3;
                mk_row 2 (JStr "Using AI to screen job applicants") (JStr "TeamB") 1 1]
               "%.2f/5" :: rest))
     /\ ~ In (StInfo "No votes have been submitted yet!") rest)
  /\ StronglySorted score_ge
       [mk_row 3 (JStr "Using AI to translate a menu") (JStr "TeamC") (9 # 2) 2;
        mk_row 1 (JStr "Using AI to grade essays") (JStr "TeamA") (9 # 3) 3;
        mk_row 2 (JStr "Using AI to screen job applicants") (JStr "TeamB") 1 1]
  /\ nth_error (spec_rows no_int_of_str ranked_votes three_ideas) 2
     = Some (mk_row 3 (JStr "Using AI to translate a menu") (JStr "TeamC") (9 # 2) 2)
  /\ results_tab no_int_of_str
                 (JDict [("ideas", JList three_ideas);
                         ("votes", JDict [("a", JDict []); ("b", JDict [("idea_7", JInt 3)])])])
                 viewer_world
     = (Ret tt, log viewer_world [StInfo "No votes have been submitted yet!"]).
Proof.
  assert (Hne : three_ideas <> []) by discriminate.
  destruct (results_table no_int_of_str ranked_record ranked_votes three_ideas
              viewer_world eq_refl Hne eq_refl) as (Hrows & _ & Htable & _).
  destruct (results_table no_int_of_str
              [("ideas", JList three_ideas);
               ("votes", JDict [("a", JDict []); ("b", JDict [("idea_7", JInt 3)])])]
              [("a", JDict []); ("b", JDict [("idea_7", JInt 3)])] three_ideas
              viewer_world eq_refl Hne eq_refl) as (_ & Hzero & _).
  destruct Htable as (table & rest & Hrun & _ & Hsorted & Hrest); [reflexivity|].
  assert (Hshown :
            shown (snd (results_tab no_int_of_str (JDict ranked_record) viewer_world))
            = StDataframe
                [mk_row 3 (JStr "Using AI to translate a menu") (JStr "TeamC") (9 # 2) 2;
                 mk_row 1 (JStr "Using AI to grade essays") (JStr "TeamA") (9 # 3) 3;
                 mk_row 2 (JStr "Using AI to screen job applicants") (JStr "TeamB") 1 1]
                "%.2f/5"
              :: tl (shown (snd (results_tab no_int_of_str (JDict ranked_record)
                                             viewer_world))))
    by reflexivity.
  rewrite Hrun in Hshown. cbn [snd log shown set_shown viewer_world app tl] in Hshown.
  injection Hshown as Htable.
  split; [|split; [|split]].
  - exists rest. split; [|exact Hrest]. rewrite Hrun. now rewrite Htable.
  - rewrite <- Htable. exact Hsorted.
  - exact (Hrows 2 _ eq_refl).
  - apply Hzero. repeat constructor.
Defined.

(* ================================================================== *)
(** * Facts about the store *)
(* ================================================================== *)

Lemma tree_get_null (p : list string) : tree_get p JNull = JNull.
Proof. destruct p; reflexivity. Qed.

Lemma tree_get_app (p q : list string) : forall j,
  tree_get (p ++ q) j = tree_get q (tree_get p j).
Proof.
  induction p as [|k p IH]; intros j; simpl; [reflexivity|].
  destruct j; try (now rewrite tree_get_null).
  destruct (dict_get k d); [apply IH | now rewrite tree_get_null].
Qed.

Lemma tree_get_set_same (p : list string) (v : json) : forall j,
  tree_get p (tree_set p v j) = v.
Proof.
  induction p as [|k p IH]; intros j; simpl; [reflexivity|].
  destruct j; simpl; try (rewrite String.eqb_refl; apply IH).
  rewrite dict_get_set_same. apply IH.
Qed.

Lemma tree_set_app (p q : list string) (v : json) : forall j,
  tree_set (p ++ q) v j = tree_set p (tree_set q v (tree_get p j)) j.
Proof.
  induction p as [|k p IH]; intros j; simpl; [reflexivity|].
  destruct j; try (now rewrite IH, tree_get_null).
  destruct (dict_get k d); now rewrite IH; try rewrite tree_get_null.
Qed.

(** Writing one child of a node leaves the other children as they were. *)
Lemma tree_get_set_sibling (p : list string) (x y : string) (v : json) (j : json) :
  x <> y ->
  tree_get (p ++ [x]) (tree_set (p ++ [y]) v j) = tree_get (p ++ [x]) j.
Proof.
  intros Hne. rewrite tree_set_app, !tree_get_app, tree_get_set_same.
  destruct (tree_get p j); simpl; try (destruct (String.eqb_spec x y); tauto).
  now rewrite dict_get_set_other.
Qed.

Lemma tree_get_set_child (p : list string) (x y : string) (v : json) (j : json) :
  tree_get (p ++ [x]) (tree_set (p ++ [y]) v j)
  = if String.eqb x y then v else tree_get (p ++ [x]) j.
Proof.
  destruct (String.eqb_spec x y) as [->|Hne].
  - apply tree_get_set_same.
  - now apply tree_get_set_sibling.
Qed.

Lemma dict_set_same (k : string) (v : json) (d : dict) :
  dict_get k d = Some v -> dict_set k v d = d.
Proof.
  induction d as [|[k' v'] d IH]; simpl; [discriminate|].
  destruct (String.eqb_spec k k') as [->|Hne].
  - now intros [= ->].
  - intros H. now rewrite IH.
Qed.

Lemma dict_set_set (k : string) (v v' : json) (d : dict) :
  dict_set k v' (dict_set k v d) = dict_set k v' d.
Proof.
  induction d as [|[k0 v0] d IH]; simpl.
  - now rewrite String.eqb_refl.
  - destruct (String.eqb k k0) eqn:E; simpl.
    + now rewrite String.eqb_refl.
    + now rewrite E, IH.
Qed.

(* ------------------------------------------------------------------ *)
(** ** One request *)

Lemma next_outcome_run (w : world) : next_outcome w = (Ret (next_reply w), advance w).
Proof. unfold next_outcome, next_reply, advance. now destruct (net w). Qed.

Lemma advance_fields (w : world) :
  admin (advance w) = admin w /\ secret_pw (advance w) = secret_pw w
  /\ root (advance w) = root w /\ shown (advance w) = shown w
  /\ sess (advance w) = sess w /\ net (advance w) = tl (net w).
Proof. unfold advance. destruct (net w) eqn:E; simpl; rewrite ?E; repeat split. Qed.

Lemma all_ok_next (w : world) : all_ok w -> next_reply w = Replied 200.
Proof.
  unfold all_ok, next_reply. destruct (net w); simpl; [reflexivity|].
  intros H. now inversion H.
Qed.

Lemma all_ok_advance (w : world) : all_ok w -> all_ok (advance w).
Proof.
  unfold all_ok, advance. destruct (net w) eqn:E; simpl; [now rewrite E|].
  intros H. now inversion H.
Qed.

Lemma all_ok_set_root (w : world) (r : json) : all_ok w -> all_ok (set_root r w).
Proof. exact (fun H => H). Qed.

Lemma all_ok_log (w : world) (ms : list message) : all_ok w -> all_ok (log w ms).
Proof. exact (fun H => H). Qed.

Lemma advance_root (w : world) : root (advance w) = root w.
Proof. apply advance_fields. Qed.

Lemma ref_get_run (p : list string) (w : world) :
  ref_get p w
  = if replied_ok (next_reply w) then (Ret (tree_get p (root w)), advance w)
    else (Exc (sdk_error (next_reply w)), advance w).
Proof.
  unfold ref_get, bind. rewrite next_outcome_run.
  destruct (replied_ok (next_reply w)); [|reflexivity].
  unfold get_world, ret. now rewrite advance_root.
Qed.

Lemma ref_set_run (p : list string) (v : json) (w : world) :
  ref_set p v w
  = if replied_ok (next_reply w) then (Ret tt, wrote p v w)
    else (Exc (sdk_error (next_reply w)), advance w).
Proof.
  unfold ref_set, bind. rewrite next_outcome_run.
  destruct (replied_ok (next_reply w)); [|reflexivity].
  unfold store_write, wrote. now rewrite advance_root.
Qed.

Lemma requests_get_run (p : list string) (w : world) :
  requests_get p w
  = match next_reply w with
    | Replied c => (Ret (mk_response c (Ret (tree_get p (root w)))), advance w)
    | Garbled => (Ret (mk_response 200 (Exc JSONDecodeError)), advance w)
    | Dropped msg => (Exc (TransportError msg), advance w)
    end.
Proof.
  unfold requests_get, bind. rewrite next_outcome_run.
  destruct (next_reply w); try reflexivity.
  unfold get_world, ret. now rewrite advance_root.
Qed.

Lemma requests_put_run (p : list string) (v : json) (w : world) :
  requests_put p v w
  = match next_reply w with
    | Replied c => (Ret (mk_response c (Ret JNull)),
                    if (c =? 200)%Z then wrote p v w else advance w)
    | Garbled => (Ret (mk_response 200 (Exc JSONDecodeError)), wrote p v w)
    | Dropped msg => (Exc (TransportError msg), advance w)
    end.
Proof.
  unfold requests_put, bind. rewrite next_outcome_run.
  destruct (next_reply w) as [c| |msg]; try reflexivity.
  - destruct (c =? 200)%Z; unfold store_write, ret, wrote; now rewrite ?advance_root.
  - unfold store_write, ret, wrote. now rewrite advance_root.
Qed.

Lemma write_back_run (code voter : string) (v : json) (w : world) :
  write_back code voter v w
  = if admin w then
      (if replied_ok (next_reply w) then (Ret tt, wrote (voter_path code voter) v w)
       else (Exc (sdk_error (next_reply w)), advance w))
    else
      match next_reply w with
      | Replied c => (Ret tt, if (c =? 200)%Z then wrote (voter_path code voter) v w
                              else advance w)
      | Garbled => (Ret tt, wrote (voter_path code voter) v w)
      | Dropped msg => (Exc (TransportError msg), advance w)
      end.
Proof.
  unfold write_back, bind, is_admin. destruct (admin w).
  - apply ref_set_run.
  - rewrite requests_put_run. now destruct (next_reply w).
Qed.

(** A write-back consumes one reply and either writes the value or not. *)
Lemma write_back_frame (code voter : string) (v : json) (w : world)
      (r : result unit) (w' : world) :
  write_back code voter v w = (r, w') ->
  w' = advance w \/ w' = wrote (voter_path code voter) v w.
Proof.
  rewrite write_back_run.
  destruct (admin w); [destruct (replied_ok _)|destruct (next_reply w) as [c| |m]];
    try (intros [= <- <-]; tauto).
  destruct (c =? 200)%Z; intros [= <- <-]; tauto.
Qed.

Lemma all_ok_replied (w : world) : all_ok w -> replied_ok (next_reply w) = true.
Proof. intros H. now rewrite (all_ok_next w H). Qed.

Lemma all_ok_wrote (p : list string) (v : json) (w : world) :
  all_ok w -> all_ok (wrote p v w).
Proof. intros H. unfold wrote. apply all_ok_set_root. now apply all_ok_advance. Qed.

Lemma write_back_ok (code voter : string) (v : json) (w : world) :
  all_ok w -> write_back code voter v w = (Ret tt, wrote (voter_path code voter) v w).
Proof.
  intros H. rewrite write_back_run, (all_ok_replied w H), (all_ok_next w H).
  now destruct (admin w).
Qed.

(* ================================================================== *)
(** * The conversion loop of [get_data] *)
(* ================================================================== *)

Lemma same_client_refl (w : world) : same_client w w.
Proof. repeat split. Qed.

Lemma same_client_trans (w1 w2 w3 : world) :
  same_client w1 w2 -> same_client w2 w3 -> same_client w1 w3.
Proof.
  unfold same_client. intros (a & b & c & d) (a' & b' & c' & d').
  repeat split; congruence.
Qed.

Lemma same_client_advance (w : world) : same_client w (advance w).
Proof. destruct (advance_fields w) as (a & b & c & d & e & f). now repeat split. Qed.

Lemma same_client_wrote (p : list string) (v : json) (w : world) :
  same_client w (wrote p v w).
Proof. unfold wrote. apply (same_client_advance w). Qed.

Lemma wrote_root (p : list string) (v : json) (w : world) :
  root (wrote p v w) = tree_set p v (root w).
Proof. reflexivity. Qed.

Lemma has_votes_dict_set (voter : string) (v : json) (data : json) :
  has_votes_dict data -> has_votes_dict (tree_set ["votes"; voter] v data).
Proof.
  intros (d & vs & -> & Hv). simpl. rewrite Hv.
  exists (dict_set "votes" (JDict (dict_set voter v vs)) d), (dict_set voter v vs).
  split; [reflexivity | apply dict_get_set_same].
Qed.

(** One turn of the loop on a voter whose votes are a list. *)
Lemma normalize_loop_list (code voter : string) (l : list json) (rest : dict)
      (data : json) (w : world) :
  has_votes_dict data ->
  normalize_loop code ((voter, JList l) :: rest) data w
  = match write_back code voter (JDict (keyed_of_list l)) w with
    | (Ret _, w1) =>
        normalize_loop code rest
          (tree_set ["votes"; voter] (JDict (keyed_of_list l)) data) w1
    | (Exc e, w1) => (Exc e, w1)
    end.
Proof.
  intros (d & vs & -> & Hv).
  cbn [normalize_loop]. unfold bind, lift, py_getitem. rewrite Hv.
  cbn [py_setitem tree_set]. rewrite Hv. reflexivity.
Qed.

Lemma normalize_loop_other (code voter : string) (v : json) (rest : dict)
      (data : json) (w : world) :
  (forall l, v <> JList l) ->
  normalize_loop code ((voter, v) :: rest) data w = normalize_loop code rest data w.
Proof. intros H. destruct v; try reflexivity. now destruct (H l). Qed.

Lemma normalized_other (voter : string) (v : json) (rest : dict) (data : json) :
  (forall l, v <> JList l) ->
  normalized ((voter, v) :: rest) data = normalized rest data.
Proof. intros H. destruct v; try reflexivity. now destruct (H l). Qed.

Lemma is_list_dec (v : json) : {l | v = JList l} + {forall l, v <> JList l}.
Proof. destruct v; try (right; discriminate). left. now exists l. Qed.

(** Whatever the replies: the loop shows nothing, leaves the client side
    alone, touches the store only through write-backs of converted lists,
    and, when it returns, returns the normalized record. *)
Lemma normalize_loop_sound (code : string) (items : dict) :
  forall (data : json) (w : world) (r : result json) (w' : world),
    has_votes_dict data ->
    normalize_loop code items data w = (r, w') ->
    same_client w w'
    /\ (forall I : json -> Prop,
           (forall voter l rt, In (voter, JList l) items -> I rt ->
                               I (tree_set (voter_path code voter)
                                           (JDict (keyed_of_list l)) rt)) ->
           I (root w) -> I (root w'))
    /\ (forall data', r = Ret data' -> data' = normalized items data).
Proof.
  induction items as [|[voter v] rest IH]; intros data w r w' Hd Hrun.
  - injection Hrun as <- <-. split; [apply same_client_refl|].
    split; [tauto|]. now intros data' [= <-].
  - destruct (is_list_dec v) as [[l ->]|Hv].
    + rewrite (normalize_loop_list code voter l rest data w Hd) in Hrun.
      destruct (write_back code voter (JDict (keyed_of_list l)) w) as [[[]|e] w1] eqn:Hw.
      * destruct (IH _ _ _ _ (has_votes_dict_set voter _ data Hd) Hrun)
          as (Hc & HI & Hval).
        assert (Hstep : same_client w w1
                        /\ (root w1 = root w
                            \/ root w1 = tree_set (voter_path code voter)
                                                  (JDict (keyed_of_list l)) (root w))).
        { destruct (write_back_frame _ _ _ _ _ _ Hw) as [->| ->].
          - split; [apply same_client_advance | left; apply advance_root].
          - split; [apply same_client_wrote | right; apply wrote_root]. }
        destruct Hstep as [Hc1 Hr1].
        split; [now apply same_client_trans with w1|]. split.
        -- intros I HIstep HI0. apply HI.
           ++ intros voter' l' rt Hin. apply HIstep. now right.
           ++ destruct Hr1 as [-> | ->]; [exact HI0|].
              apply HIstep; [now left | exact HI0].
        -- intros data' Hr. simpl. now apply Hval.
      * injection Hrun as <- <-.
        destruct (write_back_frame _ _ _ _ _ _ Hw) as [->| ->].
        -- split; [apply same_client_advance|]. split.
           ++ intros I _ HI0. now rewrite advance_root.
           ++ discriminate.
        -- split; [apply same_client_wrote|]. split.
           ++ intros I HIstep HI0. rewrite wrote_root. apply HIstep; [now left | exact HI0].
           ++ discriminate.
    + rewrite (normalize_loop_other code voter v rest data w Hv) in Hrun.
      destruct (IH _ _ _ _ Hd Hrun) as (Hc & HI & Hval).
      split; [exact Hc|]. split.
      * intros I HIstep HI0. apply HI; [|exact HI0].
        intros voter' l' rt Hin. apply HIstep. now right.
      * intros data' Hr. rewrite (normalized_other voter v rest data Hv). now apply Hval.
Qed.

(** With every request answered by a success the loop returns the normalized
    record and the store holds every converted list. *)
Lemma normalize_loop_ok (code : string) (items : dict) :
  forall (data : json) (w : world),
    has_votes_dict data -> all_ok w ->
    exists w', normalize_loop code items data w = (Ret (normalized items data), w')
               /\ same_client w w' /\ all_ok w'
               /\ root w' = written code items (root w).
Proof.
  induction items as [|[voter v] rest IH]; intros data w Hd Hok.
  - exists w. repeat split; assumption.
  - destruct (is_list_dec v) as [[l ->]|Hv].
    + rewrite (normalize_loop_list code voter l rest data w Hd).
      rewrite (write_back_ok code voter _ w Hok).
      destruct (IH (tree_set ["votes"; voter] (JDict (keyed_of_list l)) data)
                   (wrote (voter_path code voter) (JDict (keyed_of_list l)) w)
                   (has_votes_dict_set voter _ data Hd)
                   (all_ok_wrote _ _ w Hok)) as (w' & Hrun & Hc & Hok' & Hroot).
      exists w'. split; [exact Hrun|]. split.
      * eapply same_client_trans; [apply same_client_wrote | exact Hc].
      * split; [exact Hok' | exact Hroot].
    + rewrite (normalize_loop_other code voter v rest data w Hv).
      destruct (IH data w Hd Hok) as (w' & Hrun & Hc & Hok' & Hroot).
      exists w'. rewrite (normalized_other voter v rest data Hv).
      split; [exact Hrun|]. split; [exact Hc|]. split; [exact Hok'|].
      rewrite Hroot. destruct v; try reflexivity. now destruct (Hv l).
Qed.

Lemma written_class (code : string) (items : dict) : forall rt,
  tree_get (class_path code) (written code items rt)
  = normalized items (tree_get (class_path code) rt).
Proof.
  induction items as [|[voter v] rest IH]; intros rt; [reflexivity|].
  destruct v; try apply IH.
  cbn [written normalized]. rewrite IH. f_equal.
  change (voter_path code voter) with (class_path code ++ ["votes"; voter]).
  now rewrite tree_set_app, tree_get_set_same.
Qed.

Lemma normalized_dict (items : dict) : forall (d vs : dict),
  dict_get "votes" d = Some (JDict vs) ->
  normalized items (JDict d) = JDict (dict_set "votes" (JDict (norm_votes items vs)) d).
Proof.
  induction items as [|[voter v] rest IH]; intros d vs Hv.
  - simpl. now rewrite dict_set_same.
  - destruct v; try (now apply IH).
    cbn [normalized norm_votes tree_set]. rewrite Hv.
    rewrite (IH _ (dict_set voter (JDict (keyed_of_list l)) vs)).
    + now rewrite dict_set_set.
    + apply dict_get_set_same.
Qed.

(** What a voter's votes are after the conversion. *)
Lemma norm_votes_get (name : string) (items : dict) :
  dict_wf items ->
  forall vs,
    dict_get name (norm_votes items vs)
    = match dict_get name items with
      | Some (JList l) => Some (JDict (keyed_of_list l))
      | _ => dict_get name vs
      end.
Proof.
  unfold dict_wf. induction items as [|[k v] rest IH]; intros Hnd vs; [reflexivity|].
  simpl in Hnd. inversion Hnd as [|? ? Hnotin Hnd']; subst.
  cbn [dict_get]. destruct (String.eqb_spec name k) as [->|Hne].
  - assert (Hrest : dict_get k rest = None) by now apply dict_get_not_In.
    destruct v; cbn [norm_votes]; rewrite (IH Hnd'), Hrest; try reflexivity.
    apply dict_get_set_same.
  - destruct v; cbn [norm_votes]; rewrite (IH Hnd'); try reflexivity.
    destruct (dict_get name rest) as [[]|]; try reflexivity;
      now apply dict_get_set_other.
Qed.

Lemma norm_votes_no_list (items : dict) :
  no_legacy items ->
  forall vs, norm_votes items vs = vs.
Proof.
  induction 1 as [|[k v] rest Hx Hrest IH]; intros vs; [reflexivity|].
  simpl in Hx. destruct v; try apply IH. now destruct (Hx l).
Qed.

Lemma normalized_no_list (items : dict) :
  no_legacy items ->
  forall data, normalized items data = data.
Proof.
  induction 1 as [|[k v] rest Hx Hrest IH]; intros data; [reflexivity|].
  simpl in Hx. destruct v; try apply IH. now destruct (Hx l).
Qed.

Lemma written_no_list (code : string) (items : dict) :
  no_legacy items ->
  forall rt, written code items rt = rt.
Proof.
  induction 1 as [|[k v] rest Hx Hrest IH]; intros rt; [reflexivity|].
  simpl in Hx. destruct v; try apply IH. now destruct (Hx l).
Qed.

(* ================================================================== *)
(** * Reading a class: [get_data] *)
(* ================================================================== *)

Lemma resolve_code_run (code : option string) (w : world) :
  resolve_code code w = (Ret (the_code code w), w).
Proof.
  unfold resolve_code, the_code. destruct code as [c|]; [|reflexivity].
  now destruct (str_truthy c).
Qed.

(** Nothing happened at all. *)
Ltac quiet_case :=
  match goal with
  | |- (_, ?w) = (?r, ?w') -> _ =>
      intros [= <- <-]; split; [apply same_client_refl|];
      split; [tauto|]; intros ? [= <-]; (now left) || (now right)
  | |- (Exc _, ?w) = (?r, ?w') -> _ =>
      intros [= <- <-]; split; [apply same_client_refl|];
      split; [tauto|]; discriminate
  end.

Lemma normalize_record_sound (code : string) (data : json) (w : world)
      (r : result json) (w' : world) :
  normalize_record code data w = (r, w') ->
  same_client w w'
  /\ (forall I : json -> Prop,
         (forall voter l rt, In (voter, JList l) (votes_items data) -> I rt ->
                             I (tree_set (voter_path code voter)
                                         (JDict (keyed_of_list l)) rt)) ->
         I (root w) -> I (root w'))
  /\ (forall data', r = Ret data' ->
                    data' = empty_record \/ data' = normalized (votes_items data) data).
Proof.
  unfold normalize_record.
  destruct (py_truthy data); [|unfold ret; quiet_case].
  unfold bind, lift, ret.
  destruct data; cbn [py_contains];
    try (intros [= <- <-]; split; [apply same_client_refl|];
         split; [tauto | discriminate]).
  - (* a string *)
    destruct (index 0 "votes" s); cbn [py_getitem]; [|quiet_case].
    intros [= <- <-]. split; [apply same_client_refl|]. split; [tauto | discriminate].
  - (* a list *)
    destruct (existsb _ l); cbn [py_getitem]; [|quiet_case].
    intros [= <- <-]. split; [apply same_client_refl|]. split; [tauto | discriminate].
  - (* a dictionary *)
    unfold dict_mem, py_getitem, votes_items.
    destruct (dict_get "votes" d) as [v|] eqn:Hv; [|quiet_case].
    destruct v; cbn [py_items];
      try (intros [= <- <-]; split; [apply same_client_refl|];
           split; [tauto | discriminate]).
    intros Hrun.
    assert (Hd : has_votes_dict (JDict d)) by (now exists d, d0).
    destruct (normalize_loop_sound code d0 (JDict d) w r w' Hd Hrun) as (Hc & HI & Hval).
    split; [exact Hc|]. split; [exact HI|].
    intros data' Hr. right. now apply Hval.
Qed.

Lemma normalize_record_ok (code : string) (d vs : dict) (w : world) :
  d <> [] ->
  dict_get "votes" d = Some (JDict vs) ->
  all_ok w ->
  exists w', normalize_record code (JDict d) w = (Ret (normalized vs (JDict d)), w')
             /\ same_client w w' /\ all_ok w'
             /\ root w' = written code vs (root w).
Proof.
  intros Hne Hv Hok. unfold normalize_record.
  destruct d as [|kv d']; [contradiction|]. cbn [py_truthy].
  unfold bind, lift, py_contains, dict_mem, py_getitem. rewrite Hv. cbn [py_items].
  apply normalize_loop_ok; [|exact Hok].
  now exists (kv :: d'), vs.
Qed.

Lemma fetch_class_run (code : string) (w : world) :
  fetch_class code w
  = if admin w then
      (if replied_ok (next_reply w)
       then (Ret (Some (tree_get (class_path code) (root w))), advance w)
       else (Exc (sdk_error (next_reply w)), advance w))
    else
      match next_reply w with
      | Replied c => if (c =? 200)%Z
                     then (Ret (Some (tree_get (class_path code) (root w))), advance w)
                     else (Ret None, advance w)
      | Garbled => (Exc JSONDecodeError, advance w)
      | Dropped msg => (Exc (TransportError msg), advance w)
      end.
Proof.
  unfold fetch_class, bind, is_admin. destruct (admin w).
  - rewrite ref_get_run. now destruct (replied_ok (next_reply w)).
  - rewrite requests_get_run. destruct (next_reply w) as [c| |m]; try reflexivity.
    cbn [status_code response_json]. now destruct (c =? 200)%Z.
Qed.

(** The fetch consumes one reply and changes nothing else; when it yields
    data, it is what the store holds at the class path. *)
Lemma fetch_class_frame (code : string) (w : world) (r : result (option json))
      (w1 : world) :
  fetch_class code w = (r, w1) ->
  w1 = advance w
  /\ (forall data, r = Ret (Some data) -> data = tree_get (class_path code) (root w)).
Proof.
  rewrite fetch_class_run.
  destruct (admin w); [destruct (replied_ok _)|destruct (next_reply w) as [c| |m]];
    try (intros [= <- <-]; split; [reflexivity|]; intros data [= <-]; reflexivity);
    try (intros [= <- <-]; split; [reflexivity|]; discriminate).
  destruct (c =? 200)%Z; intros [= <- <-]; split; try reflexivity;
    [intros data [= <-]; reflexivity | discriminate].
Qed.

(** The body of the [try], whatever the replies. *)
Lemma get_data_try_sound (code : string) (w : world) (r : result json) (w' : world) :
  get_data_try code w = (r, w') ->
  same_client w w'
  /\ (forall I : json -> Prop,
         (forall voter l rt,
             In (voter, JList l) (votes_items (tree_get (class_path code) (root w))) ->
             I rt ->
             I (tree_set (voter_path code voter) (JDict (keyed_of_list l)) rt)) ->
         I (root w) -> I (root w'))
  /\ (forall data', r = Ret data' ->
        data' = empty_record
        \/ data' = normalized (votes_items (tree_get (class_path code) (root w)))
                              (tree_get (class_path code) (root w))).
Proof.
  unfold get_data_try, bind.
  destruct (fetch_class code w) as [[[data|]|e] w1] eqn:Hf;
    destruct (fetch_class_frame code w _ _ Hf) as [-> Hdata].
  - rewrite <- (Hdata data eq_refl). intros Hrun.
    destruct (normalize_record_sound code data (advance w) r w' Hrun) as (Hc & HI & Hval).
    split; [eapply same_client_trans; [apply same_client_advance | exact Hc]|].
    split; [|exact Hval].
    intros I Hstep HI0. apply HI; [exact Hstep | now rewrite advance_root].
  - unfold ret. intros [= <- <-]. split; [apply same_client_advance|].
    split; [intros I _ HI0; now rewrite advance_root|].
    intros data' [= <-]. now left.
  - intros [= <- <-]. split; [apply same_client_advance|].
    split; [intros I _ HI0; now rewrite advance_root | discriminate].
Qed.

Lemma get_data_run (code : option string) (w : world) :
  get_data code w
  = match get_data_try (the_code code w) w with
    | (Ret data, w1) => (Ret data, w1)
    | (Exc e, w1) => (Ret empty_record, log w1 [retrieval_error e])
    end.
Proof.
  unfold get_data, bind. rewrite resolve_code_run. unfold try_except.
  destruct (get_data_try (the_code code w) w) as [[data|e] w1]; [reflexivity|].
  unfold st_error, ret. now rewrite show_run.
Qed.

(** [get_data] whatever the replies: it returns; apart from one possible error
    message the client side is as before; the store changed only through
    write-backs of converted lists; and the record returned is the empty one
    or the stored one, normalized. *)
Lemma get_data_sound (code : option string) (w : world) (r : result json) (w' : world) :
  get_data code w = (r, w') ->
  exists data',
    r = Ret data'
    /\ admin w' = admin w /\ secret_pw w' = secret_pw w /\ sess w' = sess w
    /\ (shown w' = shown w
        \/ exists e, shown w' = shown w ++ [retrieval_error e] /\ data' = empty_record)
    /\ (forall I : json -> Prop,
           (forall voter l rt,
               In (voter, JList l)
                  (votes_items (tree_get (class_path (the_code code w)) (root w))) ->
               I rt ->
               I (tree_set (voter_path (the_code code w) voter)
                           (JDict (keyed_of_list l)) rt)) ->
           I (root w) -> I (root w'))
    /\ (data' = empty_record
        \/ data' = normalized
                     (votes_items (tree_get (class_path (the_code code w)) (root w)))
                     (tree_get (class_path (the_code code w)) (root w))).
Proof.
  rewrite get_data_run.
  destruct (get_data_try (the_code code w) w) as [[data|e] w1] eqn:Htry;
    destruct (get_data_try_sound _ _ _ _ Htry) as ((Ha & Hs & Hse & Hsh) & HI & Hval);
    intros [= <- <-].
  - exists data. repeat split; try assumption; [now left | now apply Hval].
  - exists empty_record. repeat split; try assumption.
    + right. exists e. split; [|reflexivity]. unfold log. simpl. now rewrite Hsh.
    + now left.
Qed.

(** C4, as the code has it.  [get_data] never raises: it returns for every
    class code and every world.  When nothing is stored at the class path it
    returns the empty record and shows nothing.  Whenever the body of its
    [try] raises (a request that fails, a reply that is not JSON, data of an
    unexpected shape) it shows one error message and returns the empty
    record.  A reply with a status other than 200 in the fallback mode is not
    such a failure: the empty record is returned and no message is shown. *)
Theorem get_data_fail_soft :
  (forall code w, exists data w', get_data code w = (Ret data, w'))
  /\ (forall code w,
         replied_ok (next_reply w) = true ->
         tree_get (class_path (the_code code w)) (root w) = JNull ->
         get_data code w = (Ret empty_record, advance w))
  /\ (forall code w e w1,
         get_data_try (the_code code w) w = (Exc e, w1) ->
         get_data code w = (Ret empty_record, log w1 [retrieval_error e]))
  /\ (forall code w msg,
         next_reply w = Dropped msg ->
         get_data code w
         = (Ret empty_record, log (advance w) [retrieval_error (TransportError msg)]))
  /\ (forall code w,
         admin w = false -> next_reply w = Garbled ->
         get_data code w
         = (Ret empty_record, log (advance w) [retrieval_error JSONDecodeError]))
  /\ (forall code w c,
         admin w = false -> next_reply w = Replied c -> c <> 200%Z ->
         get_data code w = (Ret empty_record, advance w)).
Proof.
  split; [|split; [|split; [|split; [|split]]]].
  - intros code w. destruct (get_data code w) as [r w'] eqn:E.
    destruct (get_data_sound code w r w' E) as (data & -> & _). now exists data, w'.
  - intros code w Hok Hnull. rewrite get_data_run. unfold get_data_try, bind.
    rewrite fetch_class_run, Hok, Hnull.
    destruct (next_reply w) as [c| |m]; try discriminate. simpl in Hok. rewrite Hok.
    now destruct (admin w).
  - intros code w e w1 H. now rewrite get_data_run, H.
  - intros code w msg H. rewrite get_data_run. unfold get_data_try, bind.
    rewrite fetch_class_run, H. now destruct (admin w).
  - intros code w Ha H. rewrite get_data_run. unfold get_data_try, bind.
    now rewrite fetch_class_run, Ha, H.
  - intros code w c Ha H Hc. rewrite get_data_run. unfold get_data_try, bind.
    rewrite fetch_class_run, Ha, H.
    destruct (Z.eqb_spec c 200); [contradiction | reflexivity].
Qed.

(** C4 as the specification words it fails: over plain HTTP a reply with
    status 404 makes [get_data] return the empty record without any message
    on the page. *)
Lemma get_data_silent_on_status :
  get_data None (http_world [Replied 404])
  = (Ret empty_record, http_world [])
  /\ shown (http_world []) = [].
Proof. split; reflexivity. Qed.

Lemma get_data_ok (code : option string) (w : world) (d vs : dict) :
  all_ok w ->
  tree_get (class_path (the_code code w)) (root w) = JDict d ->
  dict_get "votes" d = Some (JDict vs) ->
  exists w', get_data code w = (Ret (normalized vs (JDict d)), w')
             /\ same_client w w' /\ all_ok w'
             /\ root w' = written (the_code code w) vs (root w).
Proof.
  intros Hok Hd Hv.
  assert (Hne : d <> []) by (intros ->; discriminate).
  destruct (normalize_record_ok (the_code code w) d vs (advance w) Hne Hv
              (all_ok_advance w Hok)) as (w' & Hrun & Hc & Hok' & Hroot).
  exists w'. rewrite get_data_run. unfold get_data_try, bind.
  rewrite fetch_class_run, (all_ok_replied w Hok), (all_ok_next w Hok), Hd.
  assert (Hfetch : (if admin w
                    then (Ret (Some (JDict d)), advance w)
                    else if (200 =? 200)%Z then (Ret (Some (JDict d)), advance w)
                         else (Ret None, advance w))
                   = (Ret (Some (JDict d)), advance w)) by now destruct (admin w).
  rewrite Hfetch, Hrun. split; [reflexivity|]. split.
  - eapply same_client_trans; [apply same_client_advance | exact Hc].
  - split; [exact Hok' | now rewrite Hroot, advance_root].
Qed.

Lemma votes_of_normalized (voter : string) (d vs : dict) :
  dict_get "votes" d = Some (JDict vs) ->
  dict_wf vs ->
  tree_get ["votes"; voter] (normalized vs (JDict d))
  = match dict_get voter vs with
    | Some (JList l) => JDict (keyed_of_list l)
    | Some v => v
    | None => JNull
    end.
Proof.
  intros Hv Hwf. rewrite (normalized_dict vs d vs Hv). cbn [tree_get].
  rewrite dict_get_set_same, (norm_votes_get voter vs Hwf vs).
  destruct (dict_get voter vs) as [[]|]; reflexivity.
Qed.

(** C1, as the code has it.  When the store answers and holds a record for
    the class, [get_data] returns that record with, for every voter whose
    votes are stored as a list, the keyed form in its place: key [idea_i] for
    every position [i], the positions holding 0 included.  It shows no error,
    and afterwards the store holds exactly the record that was returned, so
    the keyed form is what is persisted for that voter. *)
Theorem legacy_votes_normalized (code : option string) (w : world) (d vs : dict) :
  all_ok w ->
  tree_get (class_path (the_code code w)) (root w) = JDict d ->
  dict_get "votes" d = Some (JDict vs) ->
  dict_wf vs ->
  exists data w',
    get_data code w = (Ret data, w')
    /\ shown w' = shown w
    /\ tree_get (class_path (the_code code w)) (root w') = data
    /\ forall voter l,
         dict_get voter vs = Some (JList l) ->
         tree_get ["votes"; voter] data = JDict (keyed_spec l)
         /\ tree_get (voter_path (the_code code w) voter) (root w') = JDict (keyed_spec l)
         /\ map snd (keyed_spec l) = l.
Proof.
  intros Hok Hd Hv Hwf.
  destruct (get_data_ok code w d vs Hok Hd Hv) as (w' & Hrun & Hc & _ & Hroot).
  exists (normalized vs (JDict d)), w'. split; [exact Hrun|].
  split; [apply Hc|].
  assert (Hstore : tree_get (class_path (the_code code w)) (root w')
                   = normalized vs (JDict d)).
  { now rewrite Hroot, written_class, Hd. }
  split; [exact Hstore|].
  intros voter l Hl.
  assert (Hdata : tree_get ["votes"; voter] (normalized vs (JDict d))
                  = JDict (keyed_spec l)).
  { rewrite (votes_of_normalized voter d vs Hv Hwf), Hl. now rewrite keyed_of_list_spec. }
  split; [exact Hdata|]. split; [|apply keyed_spec_values].
  change (voter_path (the_code code w) voter)
    with (class_path (the_code code w) ++ ["votes"; voter]).
  now rewrite tree_get_app, Hstore.
Qed.

Lemma legacy_votes_normalized_witness :
  exists data w',
    get_data None (http_world []) = (Ret data, w')
    /\ tree_get ["votes"; "ann"] data = JDict (keyed_spec [JInt 3; JInt 5; JInt 0])
    /\ tree_get (voter_path "c" "ann") (root w')
       = JDict (keyed_spec [JInt 3; JInt 5; JInt 0]).
Proof.
  assert (Hok : all_ok (http_world [])) by constructor.
  assert (Hwf : dict_wf [("ann", JList [JInt 3; JInt 5; JInt 0]);
                         ("bob", JDict [("idea_0", JInt 4)])]).
  { unfold dict_wf. simpl. repeat constructor; simpl; intuition discriminate. }
  destruct (legacy_votes_normalized None (http_world []) _ _ Hok eq_refl eq_refl Hwf)
    as (data & w' & Hrun & _ & _ & Hvoters).
  destruct (Hvoters "ann" [JInt 3; JInt 5; JInt 0] eq_refl) as (H1 & H2 & _).
  exists data, w'. split; [exact Hrun|]. split; [exact H1 | exact H2].
Defined.

(** C1 as the specification words it fails: the list [3, 5, 0] is read, and
    written back, with the key [idea_2] holding 0; the 0 is not dropped. *)
Lemma legacy_zero_not_dropped :
  tree_get ["votes"; "ann"] (match fst (get_data None (http_world [])) with
                             | Ret data => data
                             | Exc _ => JNull
                             end)
  = JDict [("idea_0", JInt 3); ("idea_1", JInt 5); ("idea_2", JInt 0)]
  /\ tree_get (voter_path "c" "ann") (root (snd (get_data None (http_world []))))
     = JDict [("idea_0", JInt 3); ("idea_1", JInt 5); ("idea_2", JInt 0)]
  /\ JDict [("idea_0", JInt 3); ("idea_1", JInt 5); ("idea_2", JInt 0)]
     <> JDict [("idea_0", JInt 3); ("idea_1", JInt 5)].
Proof. split; [reflexivity|]. split; [reflexivity | discriminate]. Qed.

(* ------------------------------------------------------------------ *)
(** ** Write-backs over plain HTTP *)

Lemma advance_net_cons (w : world) (o : outcome) (rest : list outcome) :
  net w = o :: rest -> next_reply w = o /\ net (advance w) = rest.
Proof.
  intros H. unfold next_reply, advance. rewrite H. split; reflexivity.
Qed.

(** Over plain HTTP the loop goes on whatever status a write-back gets: every
    list costs one request, nothing is shown, the normalized record is
    returned, and if every write-back failed the store is as it was. *)
Lemma normalize_loop_unchecked (code : string) (items : dict) :
  forall (data : json) (w : world) (replies rest : list outcome),
    admin w = false ->
    has_votes_dict data ->
    net w = replies ++ rest ->
    List.length replies = count_lists items ->
    Forall is_reply replies ->
    exists w',
      normalize_loop code items data w = (Ret (normalized items data), w')
      /\ same_client w w' /\ net w' = rest
      /\ (Forall failed replies -> root w' = root w).
Proof.
  induction items as [|[voter v] items IH]; intros data w replies rest Ha Hd Hnet Hlen Hrep.
  - destruct replies; [|discriminate]. exists w.
    split; [reflexivity|]. split; [apply same_client_refl|]. now split.
  - destruct (is_list_dec v) as [[l ->]|Hv].
    + destruct replies as [|o replies]; [discriminate|].
      inversion Hrep as [|? ? Ho Hrep']; subst.
      destruct o as [c| |m]; try contradiction.
      destruct (advance_net_cons w (Replied c) (replies ++ rest) Hnet) as [Hnext Hadv].
      rewrite (normalize_loop_list code voter l items data w Hd).
      rewrite write_back_run, Ha, Hnext.
      set (w1 := if (c =? 200)%Z
                 then wrote (voter_path code voter) (JDict (keyed_of_list l)) w
                 else advance w).
      assert (Hw1 : same_client w w1 /\ net w1 = replies ++ rest
                    /\ (c <> 200%Z -> root w1 = root w)).
      { unfold w1. destruct (Z.eqb_spec c 200).
        - split; [apply same_client_wrote|]. split; [exact Hadv | contradiction].
        - split; [apply same_client_advance|]. split; [exact Hadv|].
          intros _. apply advance_root. }
      destruct Hw1 as (Hc1 & Hnet1 & Hroot1).
      assert (Ha1 : admin w1 = false) by (destruct Hc1 as [-> _]; exact Ha).
      destruct (IH (tree_set ["votes"; voter] (JDict (keyed_of_list l)) data) w1
                   replies rest Ha1 (has_votes_dict_set voter _ data Hd) Hnet1
                   (eq_add_S _ _ Hlen) Hrep') as (w' & Hrun & Hc & Hnet' & Hroot').
      exists w'. split; [exact Hrun|].
      split; [now apply same_client_trans with w1|]. split; [exact Hnet'|].
      intros Hf. inversion Hf as [|? ? Hc200 Hf']; subst.
      rewrite (Hroot' Hf'). now apply Hroot1.
    + rewrite (normalize_loop_other code voter v items data w Hv),
              (normalized_other voter v items data Hv).
      apply IH; try assumption.
      rewrite Hlen. unfold count_lists. simpl.
      destruct v; try reflexivity. now destruct (Hv l).
Qed.

(** C10. Over plain HTTP, once the class record has been fetched, the status
    of the write-backs is never looked at: whatever status each of them gets,
    [get_data] returns the normalized record (the one it returns when every
    write-back succeeds), shows no message, and has sent exactly one request
    per converted list (none is repeated); when every write-back failed, the
    store still holds what it held before. *)
Theorem write_back_status_unchecked (code : option string) (w : world) (d vs : dict)
        (replies rest : list outcome) :
  admin w = false ->
  net w = Replied 200 :: replies ++ rest ->
  List.length replies = count_lists vs ->
  Forall is_reply replies ->
  tree_get (class_path (the_code code w)) (root w) = JDict d ->
  dict_get "votes" d = Some (JDict vs) ->
  exists w',
    get_data code w = (Ret (normalized vs (JDict d)), w')
    /\ shown w' = shown w
    /\ net w' = rest
    /\ (Forall failed replies -> root w' = root w).
Proof.
  intros Ha Hnet Hlen Hrep Hd Hv.
  destruct (advance_net_cons w _ _ Hnet) as [Hnext Hadv].
  assert (Ha1 : admin (advance w) = false)
    by (destruct (same_client_advance w) as [-> _]; exact Ha).
  assert (Hdict : has_votes_dict (JDict d)) by (now exists d, vs).
  destruct (normalize_loop_unchecked (the_code code w) vs (JDict d) (advance w)
              replies rest Ha1 Hdict Hadv Hlen Hrep) as (w' & Hrun & Hc & Hnet' & Hroot').
  exists w'. rewrite get_data_run. unfold get_data_try, bind.
  rewrite fetch_class_run, Ha, Hnext, Hd. cbn [Z.eqb Pos.eqb].
  unfold normalize_record.
  destruct d as [|kv d']; [discriminate|]. cbn [py_truthy].
  unfold bind, lift, py_contains, dict_mem, py_getitem. rewrite Hv. cbn [py_items].
  rewrite Hrun. split; [reflexivity|].
  split; [destruct Hc as (_ & _ & _ & ->); apply (same_client_advance w)|].
  split; [exact Hnet'|]. intros Hf. rewrite (Hroot' Hf). apply advance_root.
Qed.

Lemma write_back_status_unchecked_witness :
  exists w',
    get_data None (http_world [Replied 200; Replied 500])
    = (Ret (normalized (votes_items legacy_class) legacy_class), w')
    /\ shown w' = []
    /\ net w' = []
    /\ root w' = legacy_store.
Proof.
  destruct (write_back_status_unchecked None (http_world [Replied 200; Replied 500])
              [("ideas", JList [JStr "x"]);
               ("votes", JDict [("ann", JList [JInt 3; JInt 5; JInt 0]);
                                ("bob", JDict [("idea_0", JInt 4)])])]
              [("ann", JList [JInt 3; JInt 5; JInt 0]);
               ("bob", JDict [("idea_0", JInt 4)])]
              [Replied 500] [] eq_refl eq_refl eq_refl
              (Forall_cons (Replied 500) I (Forall_nil is_reply)) eq_refl eq_refl)
    as (w' & Hrun & Hshown & Hnet & Hroot).
  exists w'. split; [exact Hrun|]. split; [exact Hshown|]. split; [exact Hnet|].
  apply Hroot. constructor; [discriminate | constructor].
Defined.

(* ================================================================== *)
(** * Creating and resetting a class *)
(* ================================================================== *)

Lemma advance_sess (w : world) : sess (advance w) = sess w.
Proof. apply advance_fields. Qed.

Lemma wrote_sess (p : list string) (v : json) (w : world) : sess (wrote p v w) = sess w.
Proof. unfold wrote. apply advance_sess. Qed.

Lemma wrote_shown (p : list string) (v : json) (w : world) : shown (wrote p v w) = shown w.
Proof. apply (same_client_wrote p v w). Qed.

Lemma advance_shown (w : world) : shown (advance w) = shown w.
Proof. apply advance_fields. Qed.

Lemma get_teacher_password_run (w : world) :
  get_teacher_password w = (Ret (teacher_password_of w), w).
Proof. reflexivity. Qed.

Lemma the_code_some (c : string) (w : world) : c <> "" -> the_code (Some c) w = c.
Proof.
  intros H. unfold the_code, str_truthy.
  destruct (String.eqb_spec c ""); [contradiction | reflexivity].
Qed.

Lemma the_code_own (c : string) (w : world) :
  class_code (sess w) = c -> the_code (Some c) w = c.
Proof. intros <-. unfold the_code. now destruct (str_truthy _). Qed.

Lemma the_code_session (w : world) :
  the_code (Some (class_code (sess w))) w = class_code (sess w).
Proof. now apply the_code_own. Qed.

Lemma get_class_codes_ok (w : world) :
  all_ok w ->
  get_class_codes w
  = (Ret (registry_or_empty (tree_get codes_path (root w))), advance w).
Proof.
  intros Hok. unfold get_class_codes, try_except, bind, is_admin, registry_or_empty.
  destruct (admin w).
  - rewrite ref_get_run, (all_ok_replied w Hok). reflexivity.
  - rewrite requests_get_run, (all_ok_next w Hok). cbn [status_code response_json].
    cbn [Z.eqb Pos.eqb]. unfold lift, ret.
    now destruct (py_truthy (tree_get codes_path (root w))).
Qed.

Lemma save_data_ok (data : json) (code : option string) (w : world) :
  all_ok w ->
  save_data data code w = (Ret true, wrote (class_path (the_code code w)) data w).
Proof.
  intros Hok. unfold save_data, bind. rewrite resolve_code_run.
  unfold try_except, bind, is_admin. destruct (admin w).
  - now rewrite ref_set_run, (all_ok_replied w Hok).
  - now rewrite requests_put_run, (all_ok_next w Hok).
Qed.

Lemma registry_write_ok (v : json) (w : world) :
  all_ok w ->
  (if admin w then
     try_except (ref_set codes_path v ;; ret true)
                (fun e => st_error ("Error creating class: " ++ str_exn e) ;; ret false)
   else (resp <- requests_put codes_path v ;; ret (status_code resp =? 200)%Z)) w
  = (Ret true, wrote codes_path v w).
Proof.
  intros Hok. unfold bind, try_except. destruct (admin w).
  - now rewrite ref_set_run, (all_ok_replied w Hok).
  - now rewrite requests_put_run, (all_ok_next w Hok).
Qed.

(** A wrong password: one message, nothing else. *)
Lemma create_class_wrong_password (pw name code : string) (w : world) :
  pw <> teacher_password_of w ->
  create_class pw name code w = (Ret tt, log w [StError "Incorrect teacher password"]).
Proof.
  intros H. unfold create_class, bind. rewrite get_teacher_password_run.
  destruct (String.eqb_spec pw (teacher_password_of w)); [contradiction|].
  reflexivity.
Qed.

Lemma reset_wrong_password (pw : string) (w : world) :
  pw <> teacher_password_of w ->
  reset_all_data pw w = (Ret tt, log w [StError "Incorrect password"]).
Proof.
  intros H. unfold reset_all_data, bind. rewrite get_teacher_password_run.
  destruct (String.eqb_spec pw (teacher_password_of w)); [contradiction|].
  reflexivity.
Qed.

(** The right password, a name and a code, and a store that answers: the
    class is created, whether or not the code was in the registry before. *)
Lemma create_class_ok (name code : string) (w : world) (reg : dict) :
  name <> "" -> code <> "" ->
  all_ok w ->
  registry_or_empty (tree_get codes_path (root w)) = JDict reg ->
  create_class (teacher_password_of w) name code w
  = (Ret tt,
     log (set_sess (set_joined code (sess w))
            (wrote (class_path code) empty_record
               (wrote codes_path (JDict (dict_set code (JStr name) reg)) (advance w))))
         [StSuccess ("Created and joined class: " ++ name); StRerun]).
Proof.
  intros Hname Hcode Hok Hreg. unfold create_class.
  unfold bind at 1. rewrite get_teacher_password_run, String.eqb_refl.
  unfold str_truthy.
  destruct (String.eqb_spec name ""); [contradiction|].
  destruct (String.eqb_spec code ""); [contradiction|].
  cbn [negb orb].
  unfold bind at 1. rewrite (get_class_codes_ok w Hok), Hreg.
  unfold bind at 1. unfold lift at 1. cbn [py_setitem].
  unfold bind at 1. unfold is_admin at 1. unfold bind at 1.
  rewrite (registry_write_ok _ (advance w) (all_ok_advance w Hok)).
  unfold bind at 1.
  rewrite (save_data_ok empty_record (Some code) _
             (all_ok_wrote _ _ _ (all_ok_advance w Hok))).
  rewrite (the_code_some code _ Hcode).
  unfold bind, get_session, put_session. rewrite !show_run, log_log.
  now rewrite !wrote_sess, advance_sess.
Qed.

Lemma codes_after_class_write (code : string) (v : json) (rt : json) :
  tree_get codes_path (tree_set (class_path code) v rt) = tree_get codes_path rt.
Proof.
  change (class_path code) with (["classes"] ++ [code]).
  rewrite tree_set_app.
  apply (tree_get_set_sibling [] "class_access_codes" "classes").
  discriminate.
Qed.

Lemma reset_ok (w : world) :
  all_ok w ->
  reset_all_data (teacher_password_of w) w
  = (Ret tt, log (wrote (class_path (class_code (sess w))) empty_record w)
                 [StSuccess "Data reset successfully!"; StRerun]).
Proof.
  intros Hok. unfold reset_all_data.
  unfold bind at 1. rewrite get_teacher_password_run, String.eqb_refl.
  unfold bind at 1. unfold get_session at 1.
  unfold bind at 1. rewrite (save_data_ok empty_record _ w Hok), the_code_session.
  unfold bind. now rewrite !show_run, log_log.
Qed.

(** C5. The password the two teacher actions compare against is the
    [teacher_password] secret, or "teacherpass" when there is none.  With any
    other password, creating a class shows "Incorrect teacher password" and
    resetting shows "Incorrect password", and nothing else happens: no
    request is sent, the store and the session are as before.  With exactly
    that password (a class name and a class code given, the registry a
    dictionary or absent, the store answering) the class is created: the
    registry maps the code to the name, the class holds the empty record, the
    session has joined it; and the reset leaves the empty record at the
    session's class. *)
Theorem teacher_gated_mutation :
  (forall w, get_teacher_password w
             = (Ret (match secret_pw w with Some p => p | None => "teacherpass" end), w))
  /\ (forall pw name code w,
         pw <> teacher_password_of w ->
         create_class pw name code w
         = (Ret tt, log w [StError "Incorrect teacher password"]))
  /\ (forall pw w,
         pw <> teacher_password_of w ->
         reset_all_data pw w = (Ret tt, log w [StError "Incorrect password"]))
  /\ (forall name code w reg,
         name <> "" -> code <> "" -> all_ok w ->
         registry_or_empty (tree_get codes_path (root w)) = JDict reg ->
         exists w',
           create_class (teacher_password_of w) name code w = (Ret tt, w')
           /\ shown w' = shown w ++ [StSuccess ("Created and joined class: " ++ name);
                                     StRerun]
           /\ tree_get (codes_path ++ [code]) (root w') = JStr name
           /\ tree_get (class_path code) (root w') = empty_record
           /\ class_code (sess w') = code /\ authenticated (sess w') = true)
  /\ (forall w,
         all_ok w ->
         exists w',
           reset_all_data (teacher_password_of w) w = (Ret tt, w')
           /\ shown w' = shown w ++ [StSuccess "Data reset successfully!"; StRerun]
           /\ tree_get (class_path (class_code (sess w))) (root w') = empty_record).
Proof.
  split; [reflexivity|].
  split; [exact create_class_wrong_password|].
  split; [exact reset_wrong_password|]. split.
  - intros name code w reg Hname Hcode Hok Hreg.
    eexists. split; [apply (create_class_ok name code w reg Hname Hcode Hok Hreg)|].
    split; [cbn [log shown set_shown set_sess]; now rewrite !wrote_shown, advance_shown|].
    cbn [log root set_shown set_sess sess set_joined class_code authenticated].
    rewrite !wrote_root. split; [|split; [apply tree_get_set_same | now split]].
    rewrite tree_get_app, codes_after_class_write, tree_get_set_same.
    cbn [tree_get]. now rewrite dict_get_set_same.
  - intros w Hok. eexists. split; [apply (reset_ok w Hok)|].
    split; [cbn [log shown set_shown]; now rewrite wrote_shown|].
    cbn [log root set_shown]. rewrite wrote_root. apply tree_get_set_same.
Qed.

(** C8, as the code has it.  The class-creation view does not look whether
    the class code is already in the registry.  With the right password, a
    name and a code, and a store that answers, creating a class under a code
    that is registered already succeeds like any other creation: no error is
    shown, the registry now maps the code to the new name, and the record of
    the class under that code is replaced by the empty record. *)
Theorem duplicate_code_overwrites (name code : string) (w : world) (reg : dict)
        (old_name : json) :
  name <> "" -> code <> "" ->
  all_ok w ->
  tree_get codes_path (root w) = JDict reg ->
  dict_get code reg = Some old_name ->
  exists w',
    create_class (teacher_password_of w) name code w = (Ret tt, w')
    /\ shown w' = shown w ++ [StSuccess ("Created and joined class: " ++ name); StRerun]
    /\ tree_get codes_path (root w') = JDict (dict_set code (JStr name) reg)
    /\ tree_get (class_path code) (root w') = empty_record.
Proof.
  intros Hname Hcode Hok Hreg Hdup.
  assert (Hreg' : registry_or_empty (tree_get codes_path (root w)) = JDict reg).
  { rewrite Hreg. unfold registry_or_empty. destruct reg; [discriminate | reflexivity]. }
  eexists. split; [apply (create_class_ok name code w reg Hname Hcode Hok Hreg')|].
  split; [cbn [log shown set_shown set_sess]; now rewrite !wrote_shown, advance_shown|].
  cbn [log root set_shown set_sess]. rewrite !wrote_root.
  split; [|apply tree_get_set_same].
  now rewrite codes_after_class_write, tree_get_set_same.
Qed.

Lemma duplicate_code_overwrites_witness :
  exists w',
    create_class "teacherpass" "Period 4" "c" teacher_world = (Ret tt, w')
    /\ tree_get codes_path (root w') = JDict [("c", JStr "Period 4")]
    /\ tree_get (class_path "c") (root w') = empty_record.
Proof.
  assert (Hname : "Period 4" <> "") by discriminate.
  assert (Hcode : "c" <> "") by discriminate.
  assert (Hok : all_ok teacher_world) by constructor.
  destruct (duplicate_code_overwrites "Period 4" "c" teacher_world
              [("c", JStr "Period 3")] (JStr "Period 3")
              Hname Hcode Hok eq_refl eq_refl) as (w' & Hrun & _ & Hreg & Hcls).
  exists w'. split; [exact Hrun|]. split; [exact Hreg | exact Hcls].
Defined.

(** C8 as the specification words it fails: creating a class under the code
    "c", which is registered and has scenarios and votes, shows no error,
    renames the class in the registry and leaves its record empty. *)
Lemma duplicate_code_not_rejected :
  tree_get (class_path "c") (root teacher_world) = legacy_class
  /\ shown (snd (create_class "teacherpass" "Period 4" "c" teacher_world))
     = [StSuccess "Created and joined class: Period 4"; StRerun]
  /\ tree_get codes_path (root (snd (create_class "teacherpass" "Period 4" "c" teacher_world)))
     = JDict [("c", JStr "Period 4")]
  /\ tree_get (class_path "c")
              (root (snd (create_class "teacherpass" "Period 4" "c" teacher_world)))
     = empty_record.
Proof. repeat split. Qed.

(* ================================================================== *)
(** * Submitting a scenario *)
(* ================================================================== *)

(** What the re-read at the start of an operation leaves behind. *)
Lemma get_data_keeps_session (code : option string) (w : world) (r : result json)
      (w1 : world) :
  get_data code w = (r, w1) -> sess w1 = sess w.
Proof.
  intros H. destruct (get_data_sound code w r w1 H) as (data & _ & _ & _ & Hs & _).
  exact Hs.
Qed.

Lemma get_data_no_legacy_root (code : option string) (w : world) (r : result json)
      (w1 : world) :
  get_data code w = (r, w1) ->
  no_legacy (votes_items (tree_get (class_path (the_code code w)) (root w))) ->
  root w1 = root w.
Proof.
  intros H Hno.
  destruct (get_data_sound code w r w1 H) as (data & _ & _ & _ & _ & _ & HI & _).
  apply (HI (fun rt => rt = root w)); [|reflexivity].
  intros voter l rt Hin _. exfalso.
  unfold no_legacy in Hno. rewrite Forall_forall in Hno.
  now apply (Hno _ Hin l).
Qed.

Lemma submit_without_name (new_idea : string) (now : Q) (w : world) (data : json)
      (w1 : world) :
  student_name (sess w) = "" ->
  get_data None w = (Ret data, w1) ->
  submit_scenario new_idea now w
  = (Ret tt, log w1 [StError "Please enter your group name first!"]).
Proof.
  intros Hname Hread. unfold submit_scenario, bind. rewrite Hread.
  unfold get_session. rewrite (get_data_keeps_session _ _ _ _ Hread), Hname.
  reflexivity.
Qed.

Lemma submit_without_idea (now : Q) (w : world) (data : json) (w1 : world) :
  student_name (sess w) <> "" ->
  get_data None w = (Ret data, w1) ->
  submit_scenario "" now w = (Ret tt, log w1 [StError "Please enter a scenario!"]).
Proof.
  intros Hname Hread. unfold submit_scenario, bind. rewrite Hread.
  unfold get_session. rewrite (get_data_keeps_session _ _ _ _ Hread).
  unfold str_truthy. destruct (String.eqb_spec (student_name (sess w)) "");
    [contradiction | reflexivity].
Qed.

Lemma submit_ok (new_idea : string) (now : Q) (w : world) (d vs : dict)
      (ideas : list json) :
  all_ok w ->
  student_name (sess w) <> "" -> new_idea <> "" ->
  tree_get (class_path (class_code (sess w))) (root w) = JDict d ->
  dict_get "ideas" d = Some (JList ideas) ->
  dict_get "votes" d = Some (JDict vs) ->
  exists w',
    submit_scenario new_idea now w = (Ret tt, w')
    /\ shown w' = shown w ++ [StSuccess "Scenario submitted successfully!"; StRerun]
    /\ tree_get (class_path (class_code (sess w))) (root w')
       = JDict (dict_set "ideas"
                  (JList (ideas ++ [scenario_entry new_idea (student_name (sess w)) now]))
                  (dict_set "votes" (JDict (norm_votes vs vs)) d)).
Proof.
  intros Hok Hname Hidea Hd Hi Hv.
  destruct (get_data_ok None w d vs Hok Hd Hv) as (w1 & Hread & Hc & Hok1 & _).
  destruct Hc as (_ & _ & Hs & Hsh).
  unfold submit_scenario. unfold bind at 1. rewrite Hread.
  unfold bind at 1. unfold get_session at 1. rewrite Hs.
  unfold str_truthy.
  destruct (String.eqb_spec (student_name (sess w)) ""); [contradiction|].
  destruct (String.eqb_spec new_idea ""); [contradiction|].
  cbn [negb].
  rewrite (normalized_dict vs d vs Hv).
  assert (Hi' : dict_get "ideas" (dict_set "votes" (JDict (norm_votes vs vs)) d)
                = Some (JList ideas)).
  { rewrite dict_get_set_other; [exact Hi | discriminate]. }
  unfold bind at 1. unfold lift at 1. unfold py_contains, dict_mem. rewrite Hi'.
  unfold bind at 1. unfold ret at 1.
  unfold bind at 1. unfold lift at 1. unfold append_idea, py_getitem. rewrite Hi'.
  cbn [py_setitem].
  unfold bind at 1.
  rewrite (save_data_ok _ _ w1 Hok1), (the_code_own _ w1 (f_equal class_code Hs)).
  unfold bind. rewrite !show_run, log_log.
  eexists. split; [reflexivity|].
  split; [cbn [log shown set_shown]; now rewrite wrote_shown, Hsh|].
  cbn [log root set_shown]. rewrite wrote_root. apply tree_get_set_same.
Qed.

(** C7, as the code has it.  A submission starts by re-reading the class
    through [get_data] (which writes back the keyed form of every list of
    votes it meets).  Then, with no display name, "Please enter your group
    name first!" is shown, and else, with no scenario text, "Please enter a
    scenario!"; in both cases no record is written, and the store is exactly
    as before when no votes were stored as lists.  With a name and a text,
    and a store that answers and holds the record of the class, the entry
    [{idea, submitted_by, timestamp}] is appended to [ideas] and the whole
    record is written back: the scenarios stored before are all there, in
    order, before the new one; the votes are the stored ones with lists
    replaced by their keyed form, and untouched when there was no list. *)
Theorem scenario_submission :
  (forall new_idea now w data w1,
      student_name (sess w) = "" ->
      get_data None w = (Ret data, w1) ->
      submit_scenario new_idea now w
      = (Ret tt, log w1 [StError "Please enter your group name first!"]))
  /\ (forall now w data w1,
         student_name (sess w) <> "" ->
         get_data None w = (Ret data, w1) ->
         submit_scenario "" now w
         = (Ret tt, log w1 [StError "Please enter a scenario!"]))
  /\ (forall w r w1,
         get_data None w = (r, w1) ->
         no_legacy (votes_items (tree_get (class_path (class_code (sess w))) (root w))) ->
         root w1 = root w)
  /\ (forall new_idea now w d vs ideas,
         all_ok w ->
         student_name (sess w) <> "" -> new_idea <> "" ->
         tree_get (class_path (class_code (sess w))) (root w) = JDict d ->
         dict_get "ideas" d = Some (JList ideas) ->
         dict_get "votes" d = Some (JDict vs) ->
         exists w',
           submit_scenario new_idea now w = (Ret tt, w')
           /\ shown w' = shown w ++ [StSuccess "Scenario submitted successfully!"; StRerun]
           /\ tree_get (class_path (class_code (sess w))) (root w')
              = JDict (dict_set "ideas"
                         (JList (ideas ++ [scenario_entry new_idea (student_name (sess w)) now]))
                         (dict_set "votes" (JDict (norm_votes vs vs)) d))
           /\ (no_legacy vs ->
               tree_get (class_path (class_code (sess w))) (root w')
               = JDict (dict_set "ideas"
                          (JList (ideas ++ [scenario_entry new_idea (student_name (sess w)) now]))
                          d))).
Proof.
  split; [exact submit_without_name|].
  split; [exact submit_without_idea|].
  split; [intros w r w1 H; exact (get_data_no_legacy_root None w r w1 H)|].
  intros new_idea now w d vs ideas Hok Hname Hidea Hd Hi Hv.
  destruct (submit_ok new_idea now w d vs ideas Hok Hname Hidea Hd Hi Hv)
    as (w' & Hrun & Hsh & Hrec).
  exists w'. split; [exact Hrun|]. split; [exact Hsh|]. split; [exact Hrec|].
  intros Hno. rewrite Hrec, (norm_votes_no_list vs Hno vs).
  now rewrite (dict_set_same "votes" (JDict vs) d Hv).
Qed.

(** C7 as the specification words it fails twice.  After a re-read that got
    status 500, the submission writes a record that holds the new scenario
    only: the scenario and the votes stored before are gone.  And a
    submission without a name, which shows the error, still rewrites the
    votes that were stored as a list. *)
Lemma submission_overwrites_and_writes :
  tree_get (class_path "c") (root (http_world [Replied 500])) = legacy_class
  /\ submit_scenario "new" 0 (http_world [Replied 500])
     = (Ret tt,
        mk_world false None
          (JDict [("classes",
                   JDict [("c", JDict [("ideas", JList [scenario_entry "new" "ann" 0]);
                                       ("votes", JDict [])])])])
          [] [StSuccess "Scenario submitted successfully!"; StRerun] ann_session)
  /\ shown (snd (submit_scenario "new" 0 nameless_world))
     = [StError "Please enter your group name first!"]
  /\ tree_get (voter_path "c" "ann") (root nameless_world)
     = JList [JInt 3; JInt 5; JInt 0]
  /\ tree_get (voter_path "c" "ann") (root (snd (submit_scenario "new" 0 nameless_world)))
     = JDict [("idea_0", JInt 3); ("idea_1", JInt 5); ("idea_2", JInt 0)].
Proof. repeat split. Qed.

(* ================================================================== *)
(** * Saving and removing votes *)
(* ================================================================== *)

Lemma keyed_zero_free (l : list json) :
  Forall nonzero l -> zero_free (JDict (keyed_of_list l)).
Proof.
  intros H. rewrite keyed_of_list_spec. cbn [zero_free].
  rewrite <- (keyed_spec_values l) in H.
  now rewrite Forall_map in H.
Qed.

Lemma voter_path_split (code voter : string) (rt : json) :
  tree_get (voter_path code voter) rt
  = tree_get ["votes"; voter] (tree_get (class_path code) rt).
Proof.
  change (voter_path code voter) with (class_path code ++ ["votes"; voter]).
  apply tree_get_app.
Qed.

(** The votes of a voter in a record, in terms of its items. *)
Lemma votes_of_record (voter : string) (data : json) :
  tree_get ["votes"; voter] data
  = match dict_get voter (votes_items data) with
    | Some v => v
    | None => JNull
    end.
Proof.
  unfold votes_items. destruct data; try reflexivity. cbn [tree_get].
  destruct (dict_get "votes" d) as [v|]; [|reflexivity].
  destruct v; reflexivity.
Qed.

Lemma In_dict_get (k : string) (v : json) (d : dict) :
  dict_wf d -> In (k, v) d -> dict_get k d = Some v.
Proof.
  unfold dict_wf. induction d as [|[k' v'] d IH]; simpl; [tauto|].
  intros Hnd [H|H]; inversion Hnd as [|? ? Hnotin Hnd']; subst.
  - injection H as -> ->. now rewrite String.eqb_refl.
  - destruct (String.eqb_spec k k') as [->|Hne]; [|now apply IH].
    exfalso. apply Hnotin. now apply (in_map fst) in H.
Qed.

(** The votes of a voter in the normalized record: never a list. *)
Lemma votes_of_normalized_record (voter : string) (data : json) :
  dict_wf (votes_items data) ->
  tree_get ["votes"; voter] (normalized (votes_items data) data)
  = match tree_get ["votes"; voter] data with
    | JList l => JDict (keyed_of_list l)
    | v => v
    end.
Proof.
  intros Hwf. rewrite (votes_of_record voter data).
  unfold votes_items in *. destruct data; try reflexivity.
  destruct (dict_get "votes" d) as [v|] eqn:Hv;
    [|cbn [normalized tree_get dict_get]; now rewrite Hv].
  destruct v; try (cbn [normalized tree_get dict_get]; rewrite Hv; reflexivity).
  rewrite (votes_of_normalized voter d d0 Hv Hwf).
  destruct (dict_get voter d0) as [[]|]; reflexivity.
Qed.

(** After the re-read, whatever the replies: the participant's votes in the
    record returned are not a list and hold no 0, and neither do the votes
    the store holds for the participant. *)
Lemma get_data_own_votes (w : world) (r : result json) (w1 : world) :
  voters_wf w ->
  zero_free (stored_voteset w) ->
  get_data None w = (r, w1) ->
  exists data,
    r = Ret data
    /\ sess w1 = sess w
    /\ zero_free (stored_voteset w1)
    /\ zero_free (tree_get ["votes"; student_name (sess w)] data)
    /\ (forall l, tree_get ["votes"; student_name (sess w)] data <> JList l).
Proof.
  unfold voters_wf, stored_voteset, own_path. intros Hwf Hclean Hread.
  destruct (get_data_sound None w r w1 Hread)
    as (data & -> & _ & _ & Hs & _ & HI & Hval).
  cbn [the_code] in HI, Hval.
  set (c := class_code (sess w)) in *. set (name := student_name (sess w)) in *.
  set (data0 := tree_get (class_path c) (root w)) in *.
  assert (Hown : tree_get ["votes"; name] data0 = tree_get (voter_path c name) (root w))
    by (symmetry; apply voter_path_split).
  exists data. split; [reflexivity|]. split; [exact Hs|]. split; [|split].
  - rewrite Hs. fold c name.
    apply (HI (fun rt => zero_free (tree_get (voter_path c name) rt))); [|exact Hclean].
    intros voter l rt Hin Hrt.
    change (voter_path c name) with ((class_path c ++ ["votes"]) ++ [name]).
    change (voter_path c voter) with ((class_path c ++ ["votes"]) ++ [voter]).
    rewrite tree_get_set_child.
    destruct (String.eqb_spec name voter) as [<-|Hne]; [|exact Hrt].
    apply keyed_zero_free.
    rewrite <- Hown, (votes_of_record name data0), (In_dict_get _ _ _ Hwf Hin) in Hclean.
    exact Hclean.
  - destruct Hval as [->| ->]; [exact I|].
    rewrite (votes_of_normalized_record name data0 Hwf), Hown.
    destruct (tree_get (voter_path c name) (root w)) eqn:E; try exact Hclean.
    now apply keyed_zero_free.
  - intros l. destruct Hval as [->| ->]; [discriminate|].
    rewrite (votes_of_normalized_record name data0 Hwf).
    destruct (tree_get ["votes"; name] data0); discriminate.
Qed.

Lemma dict_set_Forall (P : string * json -> Prop) (k : string) (v : json) (d : dict) :
  Forall P d -> P (k, v) -> Forall P (dict_set k v d).
Proof.
  intros Hd Hkv. rewrite Forall_forall in *. intros kv Hin.
  destruct (dict_set_In k v d kv Hin) as [->|H]; [exact Hkv | now apply Hd].
Qed.

Lemma dict_pop_Forall (P : string * json -> Prop) (k : string) (d : dict) :
  Forall P d -> Forall P (dict_pop k d).
Proof.
  intros Hd. rewrite Forall_forall in *. intros kv Hin.
  apply Hd. now apply (dict_pop_subset k).
Qed.

Lemma rating_nonzero (rating : Z) : rating <> 0%Z -> nonzero (JInt rating).
Proof. intros H. unfold nonzero, py_eq_int. now apply Z.eqb_neq. Qed.

(** Lines 380-396 put no 0 into the participant's votes when the rating is
    not 0 and the votes read held none. *)
Lemma updated_votes_zero_free (name key : string) (rating : Z) (data my_votes : json) :
  rating <> 0%Z ->
  zero_free (tree_get ["votes"; name] data) ->
  (forall l, tree_get ["votes"; name] data <> JList l) ->
  updated_votes name key rating data = Ret my_votes ->
  zero_free my_votes.
Proof.
  intros Hr Hclean Hnolist. unfold updated_votes.
  destruct data; cbn [py_contains rbind]; try discriminate.
  - destruct (index 0 "votes" s); cbn [rbind py_setitem py_getitem]; discriminate.
  - destruct (existsb _ l); cbn [rbind py_setitem py_getitem]; discriminate.
  - unfold dict_mem. cbn [tree_get] in Hclean, Hnolist.
    destruct (dict_get "votes" d) as [all_votes|] eqn:Hv; cbn [rbind py_getitem py_setitem].
    + rewrite Hv. cbn [rbind].
      destruct all_votes; cbn [py_contains rbind]; try discriminate.
      * destruct (index 0 name s); cbn [negb rbind py_getitem py_setitem]; discriminate.
      * destruct (existsb _ l); cbn [negb rbind py_getitem py_setitem]; discriminate.
      * unfold dict_mem. cbn [tree_get] in Hclean, Hnolist.
        destruct (dict_get name d0) as [mine|] eqn:Hm;
          cbn [negb rbind py_getitem py_setitem].
        -- rewrite Hm. cbn [rbind].
           destruct mine; try (now destruct (Hnolist l));
             cbn [rbind py_getitem]; rewrite ?Hm; cbn [rbind py_setitem];
             try discriminate.
           intros [= <-]. cbn [zero_free] in *.
           apply dict_set_Forall; [exact Hclean | now apply rating_nonzero].
        -- rewrite dict_get_set_same. cbn [rbind py_setitem dict_set].
           intros [= <-]. constructor; [now apply rating_nonzero | constructor].
    + rewrite dict_get_set_same. cbn [rbind py_contains dict_mem dict_get negb py_setitem
                                      dict_set py_getitem].
      rewrite String.eqb_refl. cbn [rbind py_setitem dict_set].
      intros [= <-]. constructor; [now apply rating_nonzero | constructor].
Qed.

(** Lines 463-467 take a key out and put nothing in. *)
Lemma votes_without_zero_free (name key : string) (data updated : json) :
  zero_free (tree_get ["votes"; name] data) ->
  votes_without name key data = Ret (Some updated) ->
  zero_free updated.
Proof.
  intros Hclean. unfold votes_without.
  destruct data; cbn [py_contains rbind]; try discriminate.
  - destruct (index 0 "votes" s); cbn [rbind py_getitem]; discriminate.
  - destruct (existsb _ l); cbn [rbind py_getitem]; discriminate.
  - unfold dict_mem. cbn [tree_get] in Hclean.
    destruct (dict_get "votes" d) as [all_votes|] eqn:Hv; cbn [rbind py_getitem];
      [|discriminate].
    rewrite Hv. cbn [rbind].
    destruct all_votes; cbn [py_contains rbind]; try discriminate.
    + destruct (index 0 name s); cbn [rbind py_getitem]; discriminate.
    + destruct (existsb _ l); cbn [rbind py_getitem]; discriminate.
    + unfold dict_mem. cbn [tree_get] in Hclean.
      destruct (dict_get name d0) as [mine|] eqn:Hm; cbn [rbind py_getitem];
        [|discriminate].
      rewrite ?Hv. cbn [rbind py_getitem]. rewrite ?Hm. cbn [rbind].
      destruct (py_contains key mine) as [[]|]; cbn [rbind]; try discriminate.
      destruct mine; cbn [copy_pop rbind]; try discriminate.
      intros [= <-]. cbn [zero_free] in *. now apply dict_pop_Forall.
Qed.

(** The write of the participant's votes: it consumes one reply, may show an
    error, and the store afterwards holds the payload at the participant's
    path or is as before. *)
Lemma write_votes_frame (payload : json) (what : string) (w : world)
      (r : result bool) (w' : world) :
  write_votes payload what w = (r, w') ->
  sess w' = sess w
  /\ (root w' = root w \/ root w' = tree_set (own_path w) payload (root w)).
Proof.
  unfold write_votes, bind, get_session, is_admin, try_except. fold (own_path w).
  destruct (admin w).
  - rewrite ref_set_run. destruct (replied_ok (next_reply w)).
    + intros [= <- <-]. split; [apply wrote_sess | right; apply wrote_root].
    + unfold st_error. rewrite show_run. intros [= <- <-].
      split; [apply advance_sess | left; apply advance_root].
  - rewrite requests_put_run. destruct (next_reply w) as [c| |m].
    + destruct (c =? 200)%Z; intros [= <- <-].
      * split; [apply wrote_sess | right; apply wrote_root].
      * split; [apply advance_sess | left; apply advance_root].
    + intros [= <- <-]. split; [apply wrote_sess | right; apply wrote_root].
    + intros [= <- <-]. split; [apply advance_sess | left; apply advance_root].
Qed.

Lemma write_votes_ok (payload : json) (what : string) (w : world) :
  all_ok w ->
  write_votes payload what w = (Ret true, wrote (own_path w) payload w).
Proof.
  intros Hok. unfold write_votes, bind, get_session, is_admin, try_except.
  fold (own_path w). destruct (admin w).
  - now rewrite ref_set_run, (all_ok_replied w Hok).
  - now rewrite requests_put_run, (all_ok_next w Hok).
Qed.

Lemma stored_voteset_eq (w w' : world) :
  class_code (sess w') = class_code (sess w) ->
  student_name (sess w') = student_name (sess w) ->
  root w' = root w ->
  stored_voteset w' = stored_voteset w.
Proof. unfold stored_voteset, own_path. now intros -> -> ->. Qed.

Lemma stored_voteset_written (w w' : world) (payload : json) :
  class_code (sess w') = class_code (sess w) ->
  student_name (sess w') = student_name (sess w) ->
  root w' = tree_set (own_path w) payload (root w) ->
  stored_voteset w' = payload.
Proof.
  unfold stored_voteset, own_path. intros -> -> ->. apply tree_get_set_same.
Qed.

Lemma show_only_shows (m : message) : only_shows (show m).
Proof. intros w r w'. rewrite show_run. now intros [= <- <-]. Qed.

Lemma ret_only_shows : only_shows (ret tt).
Proof. intros w r w'. now intros [= <- <-]. Qed.

Lemma seq_only_shows (m1 m2 : M unit) :
  only_shows m1 -> only_shows m2 -> only_shows (m1 ;; m2).
Proof.
  intros H1 H2 w r w'. unfold bind.
  destruct (m1 w) as [[[]|e] w1] eqn:E1; destruct (H1 _ _ _ E1) as [Hr Hs].
  - intros E2. destruct (H2 _ _ _ E2) as [Hr' Hs']. split; congruence.
  - now intros [= <- <-].
Qed.

(** What the store holds for the participant after the write of [payload]
    and whatever follows it on the client side. *)
Lemma after_write_votes (payload : json) (what : string) (w1 : world)
      (r2 : result bool) (w2 : world) :
  zero_free (stored_voteset w1) ->
  zero_free payload ->
  write_votes payload what w1 = (r2, w2) ->
  sess w2 = sess w1 /\ zero_free (stored_voteset w2).
Proof.
  intros Hclean Hpay Hw.
  destruct (write_votes_frame _ _ _ _ _ Hw) as [Hs [Hr|Hr]].
  - split; [exact Hs|]. rewrite (stored_voteset_eq w1 w2); try assumption; now rewrite Hs.
  - split; [exact Hs|].
    rewrite (stored_voteset_written w1 w2 payload); try assumption; now rewrite Hs.
Qed.

Lemma save_vote_zero_free (key : string) (rating : Z) (w : world)
      (r : result bool) (w' : world) :
  rating <> 0%Z ->
  voters_wf w ->
  zero_free (stored_voteset w) ->
  save_vote key rating w = (r, w') ->
  zero_free (stored_voteset w').
Proof.
  intros Hr Hwf Hclean. unfold save_vote. unfold bind at 1.
  destruct (get_data None w) as [r1 w1] eqn:Hread.
  destruct (get_data_own_votes w r1 w1 Hwf Hclean Hread)
    as (data & -> & Hs & Hclean1 & Hdata & Hnolist).
  unfold bind at 1. unfold get_session at 1. rewrite Hs.
  unfold bind at 1. unfold lift at 1.
  destruct (updated_votes (student_name (sess w)) key rating data) as [mv|e] eqn:Hup;
    [|now intros [= <- <-]].
  assert (Hmv : zero_free mv)
    by exact (updated_votes_zero_free _ _ _ _ _ Hr Hdata Hnolist Hup).
  unfold bind at 1.
  destruct (write_votes mv "Error saving vote: " w1) as [r2 w2] eqn:Hw.
  destruct (after_write_votes _ _ _ _ _ Hclean1 Hmv Hw) as [Hs2 Hclean2].
  destruct r2 as [[]|e]; unfold bind, get_session, put_session, ret;
    intros [= <- <-]; exact Hclean2.
Qed.

Lemma remove_zero_free (key : string) (on_success on_failure : M unit) (w : world)
      (r : result unit) (w' : world) :
  only_shows on_success -> only_shows on_failure ->
  voters_wf w ->
  zero_free (stored_voteset w) ->
  remove_stored_vote key on_success on_failure w = (r, w') ->
  zero_free (stored_voteset w').
Proof.
  intros Hos Hof Hwf Hclean. unfold remove_stored_vote. unfold bind at 1.
  destruct (get_data None w) as [r1 w1] eqn:Hread.
  destruct (get_data_own_votes w r1 w1 Hwf Hclean Hread)
    as (data & -> & Hs & Hclean1 & Hdata & _).
  unfold bind at 1. unfold get_session at 1. rewrite Hs.
  unfold bind at 1. unfold lift at 1.
  destruct (votes_without (student_name (sess w)) key data) as [[uv|]|e] eqn:Hwo;
    try (now intros [= <- <-]).
  assert (Huv : zero_free uv) by exact (votes_without_zero_free _ _ _ _ Hdata Hwo).
  unfold bind at 1.
  destruct (write_votes uv "Error removing vote: " w1) as [r2 w2] eqn:Hw.
  destruct (after_write_votes _ _ _ _ _ Hclean1 Huv Hw) as [Hs2 Hclean2].
  destruct r2 as [[]|e]; [| |now intros [= <- <-]].
  - unfold bind, get_session, put_session. intros Hrun.
    destruct (Hos _ _ _ Hrun) as [Hr' Hs'].
    rewrite (stored_voteset_eq w2 w'); [exact Hclean2| | |exact Hr'];
      now rewrite Hs'.
  - intros Hrun. destruct (Hof _ _ _ Hrun) as [Hr' Hs'].
    rewrite (stored_voteset_eq w2 w'); [exact Hclean2| | |exact Hr']; now rewrite Hs'.
Qed.

Lemma positive_nonzero (v : Z) : (v >? 0)%Z = true -> v <> 0%Z.
Proof. intros H ->. discriminate. Qed.

Lemma on_slider_change_zero_free (i : nat) (new_value : Z) (w : world)
      (r : result unit) (w' : world) :
  voters_wf w ->
  zero_free (stored_voteset w) ->
  on_slider_change i new_value w = (r, w') ->
  zero_free (stored_voteset w').
Proof.
  intros Hwf Hclean. unfold on_slider_change. unfold bind at 1. unfold get_session at 1.
  destruct (auto_save (sess w)); [|now intros [= <- <-]].
  destruct (new_value >? 0)%Z eqn:Hpos.
  - destruct (negb _ || _); [|now intros [= <- <-]].
    unfold bind at 1.
    destruct (save_vote (idea_key i) new_value w) as [r1 w1] eqn:Hsave.
    assert (Hclean1 : zero_free (stored_voteset w1))
      by exact (save_vote_zero_free _ _ _ _ _ (positive_nonzero _ Hpos) Hwf Hclean Hsave).
    destruct r1 as [[]|e]; rewrite ?show_run; now intros [= <- <-].
  - destruct (dict_mem _ _); [|now intros [= <- <-]].
    apply remove_zero_free; try assumption;
      [apply show_only_shows | apply ret_only_shows].
Qed.

Lemma press_button_zero_free (i : nat) (new_rating : Z) (w : world)
      (r : result unit) (w' : world) :
  voters_wf w ->
  zero_free (stored_voteset w) ->
  press_button i new_rating w = (r, w') ->
  zero_free (stored_voteset w').
Proof.
  intros Hwf Hclean. unfold press_button. unfold bind at 1. unfold get_session at 1.
  destruct (negb (auto_save (sess w))); [|now intros [= <- <-]].
  destruct (new_rating >? 0)%Z eqn:Hpos.
  - destruct (_ || _); [now intros [= <- <-]|].
    unfold bind at 1.
    destruct (save_vote (idea_key i) new_rating w) as [r1 w1] eqn:Hsave.
    assert (Hclean1 : zero_free (stored_voteset w1))
      by exact (save_vote_zero_free _ _ _ _ _ (positive_nonzero _ Hpos) Hwf Hclean Hsave).
    destruct r1 as [[]|e]; unfold bind, st_error; rewrite ?show_run;
      now intros [= <- <-].
  - destruct (dict_mem _ _); [|now intros [= <- <-]].
    apply remove_zero_free; try assumption.
    + apply seq_only_shows; apply show_only_shows.
    + apply show_only_shows.
Qed.

(** The pure part of [save_vote] on a record whose votes for the participant
    are a dictionary. *)
Lemma updated_votes_dict (name key : string) (rating : Z) (d nv mine : dict) :
  dict_get "votes" d = Some (JDict nv) ->
  dict_get name nv = Some (JDict mine) ->
  updated_votes name key rating (JDict d)
  = Ret (JDict (dict_set key (JInt rating) mine)).
Proof.
  intros Hv Hm. unfold updated_votes.
  cbn [py_contains rbind]. unfold dict_mem. rewrite Hv.
  cbn [rbind py_getitem]. rewrite Hv. cbn [rbind py_contains]. unfold dict_mem.
  rewrite Hm. cbn [negb rbind py_getitem]. rewrite Hm. cbn [rbind py_getitem].
  rewrite Hm. reflexivity.
Qed.

Lemma votes_without_dict (name key : string) (d nv mine : dict) :
  dict_get "votes" d = Some (JDict nv) ->
  dict_get name nv = Some (JDict mine) ->
  dict_mem key mine = true ->
  votes_without name key (JDict d) = Ret (Some (JDict (dict_pop key mine))).
Proof.
  intros Hv Hm Hk. unfold votes_without.
  cbn [py_contains rbind]. unfold dict_mem at 1. rewrite Hv.
  cbn [rbind py_getitem]. rewrite Hv. cbn [rbind py_contains]. unfold dict_mem at 1.
  rewrite Hm. cbn [rbind py_getitem]. rewrite ?Hv. cbn [rbind py_getitem]. rewrite ?Hm.
  cbn [rbind py_contains]. rewrite Hk. reflexivity.
Qed.

(** The participant's votes in the normalized record. *)
Lemma own_normalized (name : string) (vs : dict) (stored : json) :
  dict_wf vs ->
  dict_get name vs = Some stored ->
  dict_get name (norm_votes vs vs)
  = Some (match stored with
          | JList l => JDict (keyed_of_list l)
          | v => v
          end).
Proof.
  intros Hwf Hs. rewrite (norm_votes_get name vs Hwf vs), Hs. now destruct stored.
Qed.


(** A removal with a store that answers. *)
Lemma remove_ok (key : string) (on_success on_failure : M unit) (w : world)
      (d vs mine : dict) :
  all_ok w ->
  tree_get (class_path (class_code (sess w))) (root w) = JDict d ->
  dict_get "votes" d = Some (JDict vs) ->
  dict_get (student_name (sess w)) (norm_votes vs vs) = Some (JDict mine) ->
  dict_mem key mine = true ->
  exists w2,
    remove_stored_vote key on_success on_failure w = on_success w2
    /\ stored_voteset w2 = JDict (dict_pop key mine)
    /\ sess w2 = set_current_votes (dict_pop key (current_votes (sess w))) (sess w)
    /\ shown w2 = shown w.
Proof.
  intros Hok Hd Hv Hm Hk.
  destruct (get_data_ok None w d vs Hok Hd Hv) as (w1 & Hread & Hc & Hok1 & _).
  destruct Hc as (_ & _ & Hs & Hsh).
  unfold remove_stored_vote. unfold bind at 1. rewrite Hread.
  unfold bind at 1. unfold get_session at 1. rewrite Hs.
  rewrite (normalized_dict vs d vs Hv).
  unfold bind at 1. unfold lift at 1.
  rewrite (votes_without_dict _ key _ (norm_votes vs vs) mine
             (dict_get_set_same _ _ _) Hm Hk).
  unfold bind at 1. rewrite (write_votes_ok _ _ w1 Hok1).
  unfold bind, get_session, put_session. rewrite wrote_sess.
  eexists. split; [reflexivity|]. split; [|split].
  - unfold stored_voteset, own_path.
    cbn [sess set_sess set_current_votes class_code student_name root].
    rewrite wrote_root. unfold own_path. rewrite Hs. apply tree_get_set_same.
  - cbn [sess set_sess]. now rewrite Hs.
  - cbn [shown set_sess]. now rewrite wrote_shown.
Qed.

(** C2, as the code has it.  No save or remove operation puts a 0 into the
    participant's stored votes: when the stored votes (keyed, or a list) hold
    no value equal to 0 before [save_vote] with a rating other than 0, before
    a change of a slider in auto-save mode, or before a press on Submit Vote
    or Remove Vote, they hold none afterwards, whatever the store replies.
    A slider moved to 0, and the Remove Vote button, take the key out of the
    stored votes when the store answers.  Values of 0 that are stored already
    (the 0 entries of a list, which the conversion keeps) stay stored. *)
Theorem votes_stay_zero_free :
  (forall key rating w r w',
      rating <> 0%Z -> voters_wf w -> zero_free (stored_voteset w) ->
      save_vote key rating w = (r, w') -> zero_free (stored_voteset w'))
  /\ (forall i new_value w r w',
         voters_wf w -> zero_free (stored_voteset w) ->
         on_slider_change i new_value w = (r, w') -> zero_free (stored_voteset w'))
  /\ (forall i new_rating w r w',
         voters_wf w -> zero_free (stored_voteset w) ->
         press_button i new_rating w = (r, w') -> zero_free (stored_voteset w'))
  /\ (forall i w d vs mine,
         all_ok w ->
         dict_mem (idea_key i) (current_votes (sess w)) = true ->
         tree_get (class_path (class_code (sess w))) (root w) = JDict d ->
         dict_get "votes" d = Some (JDict vs) -> dict_wf vs ->
         dict_get (student_name (sess w)) vs = Some (JDict mine) -> dict_wf mine ->
         dict_mem (idea_key i) mine = true ->
         exists w',
           (if auto_save (sess w) then on_slider_change i 0 w else press_button i 0 w)
           = (Ret tt, w')
           /\ stored_voteset w' = JDict (dict_pop (idea_key i) mine)
           /\ dict_get (idea_key i) (dict_pop (idea_key i) mine) = None).
Proof.
  split; [exact save_vote_zero_free|].
  split; [exact on_slider_change_zero_free|].
  split; [exact press_button_zero_free|].
  intros i w d vs mine Hok Hcv Hd Hv Hwf Hm Hwfm Hk.
  assert (Hm' : dict_get (student_name (sess w)) (norm_votes vs vs) = Some (JDict mine))
    by exact (own_normalized _ vs (JDict mine) Hwf Hm).
  destruct (auto_save (sess w)) eqn:Hauto.
  - destruct (remove_ok (idea_key i) (show (StToast "Vote removed")) (ret tt)
                w d vs mine Hok Hd Hv Hm' Hk) as (w2 & Hrun & Hst & Hs2 & _).
    exists (log w2 [StToast "Vote removed"]).
    unfold on_slider_change. unfold bind at 1. unfold get_session at 1.
    rewrite Hauto. cbn [Z.gtb Z.compare]. rewrite Hcv, Hrun, show_run.
    split; [reflexivity|]. split; [exact Hst | now apply dict_pop_get_same].
  - destruct (remove_ok (idea_key i)
                (show (StSuccess "Vote removed!") ;; show StRerun)
                (st_error "Failed to remove vote. Please try again.")
                w d vs mine Hok Hd Hv Hm' Hk) as (w2 & Hrun & Hst & Hs2 & _).
    exists (log w2 [StSuccess "Vote removed!"; StRerun]).
    unfold press_button. unfold bind at 1. unfold get_session at 1.
    rewrite Hauto. cbn [negb Z.gtb Z.compare]. rewrite Hcv, Hrun.
    unfold bind. rewrite !show_run, log_log.
    split; [reflexivity|]. split; [exact Hst | now apply dict_pop_get_same].
Qed.

(** C2 as the specification words it fails: "ann" had the list [3, 5, 0]
    stored; a read has left its keyed form in the store and in her session.
    After she submits the rating 4 for the first scenario, her stored votes
    still hold the key [idea_2] with the value 0. *)
Lemma stored_zero_survives_save :
  root (snd (get_data None (http_world []))) = root ann_loaded_world
  /\ fst (press_button 0 4 ann_loaded_world) = Ret tt
  /\ shown (snd (press_button 0 4 ann_loaded_world))
     = [StSuccess "Vote submitted for this scenario!"; StRerun]
  /\ stored_voteset (snd (press_button 0 4 ann_loaded_world))
     = JDict [("idea_0", JInt 4); ("idea_1", JInt 5); ("idea_2", JInt 0)]
  /\ tree_get (voter_path "c" "ann" ++ ["idea_2"])
              (root (snd (press_button 0 4 ann_loaded_world))) = JInt 0.
Proof. repeat split. Qed.

(* ------------------------------------------------------------------ *)
(** ** The two conversions of a list of votes *)

Lemma keyed_from_get (l : list json) : forall (n j : nat) (v : json),
  nth_error l j = Some v ->
  dict_get (idea_key (n + j))
           (map (fun iv => (idea_key (fst iv), snd iv)) (combine (seq n (List.length l)) l))
  = Some v.
Proof.
  induction l as [|x l IH]; intros n [|j] v H; simpl in H; try discriminate.
  - injection H as ->. simpl. now rewrite Nat.add_0_r, String.eqb_refl.
  - cbn [List.length seq combine map dict_get fst snd].
    destruct (String.eqb_spec (idea_key (n + S j)) (idea_key n)) as [E|_].
    + apply idea_key_inj in E. lia.
    + replace (n + S j) with (S n + j) by lia. now apply IH.
Qed.

Lemma keyed_spec_get (l : list json) (j : nat) (v : json) :
  nth_error l j = Some v -> dict_get (idea_key j) (keyed_spec l) = Some v.
Proof. intros H. exact (keyed_from_get l 0 j v H). Qed.









(* ================================================================== *)
(** * The statements at work on the sample data *)
(* ================================================================== *)

Lemma get_data_fail_soft_witness :
  get_data None (http_world [Replied 404]) = (Ret empty_record, http_world [])
  /\ get_data None (http_world [Dropped "timeout"])
     = (Ret empty_record,
        log (http_world []) [StError "Error retrieving data: timeout"]).
Proof.
  destruct get_data_fail_soft as (_ & _ & _ & Hdrop & _ & Hstatus).
  split.
  - rewrite (Hstatus None (http_world [Replied 404]) 404%Z eq_refl eq_refl);
      [reflexivity | discriminate].
  - rewrite (Hdrop None (http_world [Dropped "timeout"]) "timeout" eq_refl).
    reflexivity.
Defined.

Lemma teacher_gated_mutation_witness :
  create_class "guess" "Period 4" "d" teacher_world
  = (Ret tt, log teacher_world [StError "Incorrect teacher password"])
  /\ exists w',
       create_class "teacherpass" "Period 4" "d" teacher_world = (Ret tt, w')
       /\ tree_get (codes_path ++ ["d"]) (root w') = JStr "Period 4"
       /\ tree_get (class_path "d") (root w') = empty_record
       /\ authenticated (sess w') = true.
Proof.
  destruct teacher_gated_mutation as (_ & Hwrong & _ & Hright & _).
  split.
  - apply Hwrong. discriminate.
  - assert (Hname : "Period 4" <> "") by discriminate.
    assert (Hcode : "d" <> "") by discriminate.
    assert (Hok : all_ok teacher_world) by constructor.
    destruct (Hright "Period 4" "d" teacher_world [("c", JStr "Period 3")]
                Hname Hcode Hok eq_refl) as (w' & Hrun & _ & Hreg & Hcls & _ & Hauth).
    exists w'. split; [exact Hrun|]. split; [exact Hreg|]. split; [exact Hcls | exact Hauth].
Defined.

Lemma scenario_submission_witness :
  exists w',
    submit_scenario "new" 0 bob_world = (Ret tt, w')
    /\ tree_get (class_path "c") (root w')
       = JDict [("ideas", JList [JStr "x"; scenario_entry "new" "bob" 0]);
                ("votes", JDict [("bob", JDict [("idea_0", JInt 4)])])].
Proof.
  destruct scenario_submission as (_ & _ & _ & Hvalid).
  assert (Hname : student_name (sess bob_world) <> "") by discriminate.
  assert (Hidea : "new" <> "") by discriminate.
  assert (Hok : all_ok bob_world) by constructor.
  destruct (Hvalid "new" 0%Q bob_world
              [("ideas", JList [JStr "x"]);
               ("votes", JDict [("bob", JDict [("idea_0", JInt 4)])])]
              [("bob", JDict [("idea_0", JInt 4)])] [JStr "x"]
              Hok Hname Hidea eq_refl eq_refl eq_refl) as (w' & Hrun & _ & Hrec & _).
  exists w'. split; [exact Hrun | exact Hrec].
Defined.

Lemma votes_stay_zero_free_witness :
  exists w',
    on_slider_change 0 0 bob_world = (Ret tt, w')
    /\ stored_voteset w' = JDict [].
Proof.
  destruct votes_stay_zero_free as (_ & _ & _ & Hremove).
  assert (Hok : all_ok bob_world) by constructor.
  assert (Hwf : dict_wf [("bob", JDict [("idea_0", JInt 4)])]).
  { unfold dict_wf. simpl. repeat constructor. simpl. tauto. }
  assert (Hwfm : dict_wf [("idea_0", JInt 4)]).
  { unfold dict_wf. simpl. repeat constructor. simpl. tauto. }
  destruct (Hremove 0 bob_world
              [("ideas", JList [JStr "x"]);
               ("votes", JDict [("bob", JDict [("idea_0", JInt 4)])])]
              [("bob", JDict [("idea_0", JInt 4)])] [("idea_0", JInt 4)]
              Hok eq_refl eq_refl eq_refl Hwf eq_refl Hwfm eq_refl)
    as (w' & Hrun & Hst & _).
  exists w'. split; [exact Hrun | exact Hst].
Defined.


(* ================================================================== *)
(** * Further properties: the keyed form and the aggregation *)
(* ================================================================== *)

Lemma dict_set_middle (k : string) (v v0 : json) (pre rest : dict) :
  ~ In k (map fst pre) ->
  dict_set k v (pre ++ (k, v0) :: rest) = pre ++ (k, v) :: rest.
Proof.
  induction pre as [|[k' v'] pre IH]; simpl; intros Hnotin.
  - now rewrite String.eqb_refl.
  - destruct (String.eqb_spec k k') as [->|Hne]; [exfalso; apply Hnotin; now left|].
    f_equal. apply IH. intros Hin. apply Hnotin. now right.
Qed.

Lemma norm_votes_from (items : dict) : forall pre : dict,
  dict_wf (pre ++ items) ->
  norm_votes items (pre ++ items) = pre ++ map norm_item items.
Proof.
  unfold dict_wf. induction items as [|[k v] items IH]; intros pre Hwf.
  - simpl. reflexivity.
  - assert (Hnotin : ~ In k (map fst pre)).
    { rewrite map_app in Hwf. simpl in Hwf. apply NoDup_remove_2 in Hwf.
      intros Hin. apply Hwf. apply in_or_app. now left. }
    assert (Hstep : forall v', norm_votes items (pre ++ (k, v') :: items)
                               = pre ++ (k, v') :: map norm_item items).
    { intros v'.
      change (pre ++ (k, v') :: items) with (pre ++ [(k, v')] ++ items).
      rewrite app_assoc, IH; [now rewrite <- app_assoc|].
      rewrite <- app_assoc. simpl. rewrite map_app in *. exact Hwf. }
    destruct v; cbn [norm_votes]; try (rewrite Hstep; reflexivity).
    rewrite (dict_set_middle k _ _ pre items Hnotin), Hstep. reflexivity.
Qed.

(** With voters of different names the conversion replaces each list where
    it stands. *)
Lemma norm_votes_map (vs : dict) : dict_wf vs -> norm_votes vs vs = map norm_item vs.
Proof. intros Hwf. exact (norm_votes_from vs [] Hwf). Qed.

Lemma norm_items_no_legacy (vs : dict) : no_legacy (map norm_item vs).
Proof.
  unfold no_legacy. rewrite Forall_map. rewrite Forall_forall. intros [k v] _ l.
  unfold norm_item. simpl. destruct v; discriminate.
Qed.

Lemma norm_items_wf (vs : dict) : dict_wf vs -> dict_wf (map norm_item vs).
Proof.
  unfold dict_wf. rewrite map_map. simpl. now intros H.
Qed.

Lemma keyed_from_get_none (l : list json) : forall (n : nat) (k : nat),
  k < n \/ n + List.length l <= k ->
  dict_get (idea_key k)
           (map (fun iv => (idea_key (fst iv), snd iv)) (combine (seq n (List.length l)) l))
  = None.
Proof.
  induction l as [|x l IH]; intros n k Hk; [reflexivity|].
  cbn [List.length seq combine map dict_get fst snd].
  destruct (String.eqb_spec (idea_key k) (idea_key n)) as [E|_].
  - apply idea_key_inj in E. simpl in Hk. lia.
  - apply IH. simpl in Hk. lia.
Qed.

(** Looking a position up in the keyed form is looking it up in the list. *)
Lemma keyed_lookup (l : list json) (i : nat) :
  dict_get (idea_key i) (keyed_of_list l) = nth_error l i.
Proof.
  rewrite keyed_of_list_spec. destruct (nth_error l i) as [v|] eqn:E.
  - now apply keyed_spec_get.
  - apply nth_error_None in E. unfold keyed_spec, enumerate.
    apply keyed_from_get_none. right. simpl. exact E.
Qed.

Section NormalizedResults.

Variable int_of_str : string -> option Z.

Lemma spec_collected_norm (i : nat) (items : dict) :
  spec_collected int_of_str i (map norm_item items) = spec_collected int_of_str i items.
Proof.
  unfold spec_collected. induction items as [|[k v] items IH]; [reflexivity|].
  cbn [map flat_map]. rewrite IH. f_equal.
  unfold norm_item. cbn [fst snd]. destruct v; try reflexivity.
  cbn [norm_value spec_rating]. now rewrite keyed_lookup.
Qed.

(** X1. The rows of the results are the same whether they are computed from
    a record as it is stored, with votes kept as lists, or from the record
    [get_data] makes of it: the list branch of the aggregation (lines
    644-649) and its dictionary branch (lines 637-642) on the keyed form
    collect the same ratings. *)
Theorem results_unchanged_by_normalization (d vs : dict) (ideas : list json) :
  dict_get "votes" d = Some (JDict vs) ->
  dict_wf vs ->
  build_results int_of_str (normalized vs (JDict d)) (enumerate ideas) []
  = build_results int_of_str (JDict d) (enumerate ideas) [].
Proof.
  intros Hv Hwf. rewrite (normalized_dict vs d vs Hv), (norm_votes_map vs Hwf).
  rewrite (build_results_spec int_of_str _ (map norm_item vs) ideas).
  - rewrite (build_results_spec int_of_str d vs ideas).
    + f_equal. unfold spec_rows. apply map_ext. intros [i idea_data].
      unfold spec_row. cbn [fst snd]. now rewrite spec_collected_norm.
    + unfold stored_votes. now rewrite Hv.
  - unfold stored_votes. now rewrite dict_get_set_same.
Qed.

End NormalizedResults.

Lemma results_unchanged_by_normalization_witness :
  build_results no_int_of_str
    (normalized [("ann", JList [JInt 3; JInt 5; JInt 0]);
                 ("bob", JDict [("idea_0", JInt 4)])]
                (JDict [("ideas", JList [JStr "x"]);
                        ("votes", JDict [("ann", JList [JInt 3; JInt 5; JInt 0]);
                                         ("bob", JDict [("idea_0", JInt 4)])])]))
    (enumerate [JStr "x"]) []
  = Ret [mk_row 1 (JStr "Unknown scenario") (JStr "Unknown") (7 # 2) 2].
Proof.
  assert (Hwf : dict_wf [("ann", JList [JInt 3; JInt 5; JInt 0]);
                         ("bob", JDict [("idea_0", JInt 4)])]).
  { unfold dict_wf. simpl. repeat constructor; simpl; intuition discriminate. }
  rewrite (results_unchanged_by_normalization no_int_of_str
             [("ideas", JList [JStr "x"]);
              ("votes", JDict [("ann", JList [JInt 3; JInt 5; JInt 0]);
                               ("bob", JDict [("idea_0", JInt 4)])])]
             [("ann", JList [JInt 3; JInt 5; JInt 0]);
              ("bob", JDict [("idea_0", JInt 4)])]
             [JStr "x"] eq_refl Hwf).
  reflexivity.
Defined.

(** X2. A scenario is shown with the same text and the same submitter in the
    list of scenarios, above its slider and in the results: the two branches
    of lines 309-315 and of lines 428-433 never fail on a missing key and
    give what lines 625-630 give, "Unknown scenario" and "Unknown" standing
    in for what an entry lacks. *)
Theorem same_fallbacks_everywhere (idea_data : json) :
  listing_fields idea_data = Ret (idea_details idea_data)
  /\ voting_text idea_data = Ret (fst (idea_details idea_data)).
Proof.
  unfold listing_fields, voting_text, idea_details, dict_mem.
  destruct idea_data; try (split; reflexivity).
  cbn [py_getitem py_get rbind fst].
  destruct (dict_get "idea" d) as [t|]; destruct (dict_get "submitted_by" d) as [b|];
    split; reflexivity.
Qed.

(* ================================================================== *)
(** * Further properties: the order of the sliders, the session's votes *)
(* ================================================================== *)

Lemma enumerate_indices {A : Type} (l : list A) :
  map fst (enumerate l) = seq 0 (List.length l).
Proof.
  unfold enumerate. generalize 0 as n.
  induction l as [|x l IH]; intros n; simpl; [reflexivity | now rewrite IH].
Qed.

Section OrderingFacts.

Variable shuffle : list (nat * json) -> list (nat * json).
Hypothesis shuffle_permutes : forall l, Permutation l (shuffle l).

(** X3. The first time the voting tab is drawn the sliders are the scenarios
    of the record, each once, in the order the shuffle left them.  From then
    on the order kept in the session is used as it is, whatever the record
    holds by then: nothing is reshuffled, and a scenario submitted later, at
    an index the kept order does not have, gets no slider. *)
Theorem voting_order_kept (d d' : dict) (ideas ideas' : list json) :
  dict_get "ideas" d = Some (JList ideas) ->
  dict_get "ideas" d' = Some (JList ideas') ->
  exists kept,
    voting_order shuffle None (JDict d) = Ret kept
    /\ Permutation (enumerate ideas) kept
    /\ voting_order shuffle (Some kept) (JDict d') = Ret kept
    /\ forall j, List.length ideas <= j -> ~ In j (map fst kept).
Proof.
  intros Hi Hi'. exists (shuffle (enumerate ideas)).
  unfold voting_order. cbn [py_getitem rbind]. rewrite Hi, Hi'. cbn [rbind py_iter].
  split; [reflexivity|]. split; [apply shuffle_permutes|]. split; [reflexivity|].
  intros j Hj Hin.
  apply (Permutation_in j (Permutation_map fst (Permutation_sym
           (shuffle_permutes (enumerate ideas))))) in Hin.
  rewrite enumerate_indices, in_seq in Hin. lia.
Qed.

End OrderingFacts.

Lemma voting_order_kept_witness :
  exists kept,
    voting_order (@rev (nat * json)) None (JDict [("ideas", JList [JStr "x"; JStr "y"])])
    = Ret kept
    /\ voting_order (@rev (nat * json)) (Some kept)
         (JDict [("ideas", JList [JStr "x"; JStr "y"; JStr "z"])])
       = Ret kept
    /\ ~ In 2 (map fst kept).
Proof.
  destruct (voting_order_kept (@rev (nat * json)) (@Permutation_rev (nat * json))
              [("ideas", JList [JStr "x"; JStr "y"])]
              [("ideas", JList [JStr "x"; JStr "y"; JStr "z"])]
              [JStr "x"; JStr "y"] [JStr "x"; JStr "y"; JStr "z"] eq_refl eq_refl)
    as (kept & H1 & _ & H2 & H3).
  exists kept. split; [exact H1|]. split; [exact H2|]. apply H3. simpl. lia.
Defined.

Lemma init_current_votes_dict (name : string) (d nv : dict) :
  dict_get "votes" d = Some (JDict nv) ->
  (forall l, dict_get name nv <> Some (JList l)) ->
  init_current_votes name (JDict d) = Ret (loaded_votes (dict_get name nv)).
Proof.
  intros Hv Hnolist. unfold init_current_votes.
  cbn [py_contains rbind]. unfold dict_mem at 1. rewrite Hv.
  cbn [rbind py_getitem]. rewrite Hv. cbn [rbind py_contains]. unfold dict_mem.
  destruct (dict_get name nv) as [mine|] eqn:Hm; cbn [rbind]; [|reflexivity].
  rewrite ?Hv. cbn [rbind py_getitem]. rewrite ?Hm. cbn [rbind].
  destruct mine; try reflexivity. now destruct (Hnolist l).
Qed.

(** X4. When the voting tab loads the session's votes from the record it
    has just read (the store answering), it loads exactly what the store now
    holds for the participant: the stored dictionary, the keyed form of a
    stored list in full (the bound of lines 361-363 never applies, the read
    has converted the list already), and nothing for a participant without
    votes. *)
Theorem loaded_votes_match_store (w : world) (d vs : dict) :
  all_ok w ->
  tree_get (class_path (class_code (sess w))) (root w) = JDict d ->
  dict_get "votes" d = Some (JDict vs) ->
  dict_wf vs ->
  exists data w1,
    get_data None w = (Ret data, w1)
    /\ init_current_votes (student_name (sess w)) data
       = Ret (loaded_votes (dict_get (student_name (sess w)) vs))
    /\ (forall l, dict_get (student_name (sess w)) vs = Some (JList l) ->
                  stored_voteset w1 = JDict (keyed_of_list l)
                  /\ map snd (keyed_of_list l) = l)
    /\ (forall m, dict_get (student_name (sess w)) vs = Some (JDict m) ->
                  stored_voteset w1 = JDict m).
Proof.
  intros Hok Hd Hv Hwf.
  destruct (get_data_ok None w d vs Hok Hd Hv) as (w1 & Hread & Hc & _ & Hroot).
  destruct Hc as (_ & _ & Hs & _). cbn [the_code] in Hroot.
  exists (normalized vs (JDict d)), w1. split; [exact Hread|].
  set (name := student_name (sess w)) in *.
  assert (Hget : dict_get name (norm_votes vs vs)
                 = match dict_get name vs with
                   | Some (JList l) => Some (JDict (keyed_of_list l))
                   | other => other
                   end).
  { rewrite (norm_votes_get name vs Hwf vs). now destruct (dict_get name vs) as [[]|]. }
  assert (Hstored : stored_voteset w1
                    = match dict_get name vs with
                      | Some (JList l) => JDict (keyed_of_list l)
                      | Some v => v
                      | None => JNull
                      end).
  { unfold stored_voteset, own_path. rewrite Hs. fold name.
    rewrite voter_path_split, Hroot, written_class, Hd.
    apply (votes_of_normalized name d vs Hv Hwf). }
  split; [|split].
  - rewrite (normalized_dict vs d vs Hv).
    rewrite (init_current_votes_dict name _ (norm_votes vs vs) (dict_get_set_same _ _ _)).
    + rewrite Hget. now destruct (dict_get name vs) as [[]|].
    + intros l. rewrite Hget. destruct (dict_get name vs) as [[]|]; discriminate.
  - intros l Hl. rewrite Hstored, Hl. split; [reflexivity|].
    rewrite keyed_of_list_spec. apply keyed_spec_values.
  - intros m Hm. now rewrite Hstored, Hm.
Qed.

Lemma loaded_votes_match_store_witness :
  exists data w1,
    get_data None (http_world []) = (Ret data, w1)
    /\ init_current_votes "ann" data
       = Ret [("idea_0", JInt 3); ("idea_1", JInt 5); ("idea_2", JInt 0)]
    /\ stored_voteset w1
       = JDict [("idea_0", JInt 3); ("idea_1", JInt 5); ("idea_2", JInt 0)].
Proof.
  assert (Hok : all_ok (http_world [])) by constructor.
  assert (Hwf : dict_wf [("ann", JList [JInt 3; JInt 5; JInt 0]);
                         ("bob", JDict [("idea_0", JInt 4)])]).
  { unfold dict_wf. simpl. repeat constructor; simpl; intuition discriminate. }
  destruct (loaded_votes_match_store (http_world [])
              [("ideas", JList [JStr "x"]);
               ("votes", JDict [("ann", JList [JInt 3; JInt 5; JInt 0]);
                                ("bob", JDict [("idea_0", JInt 4)])])]
              [("ann", JList [JInt 3; JInt 5; JInt 0]);
               ("bob", JDict [("idea_0", JInt 4)])]
              Hok eq_refl eq_refl Hwf) as (data & w1 & Hread & Hinit & Hlist & _).
  exists data, w1. split; [exact Hread|]. split; [exact Hinit|].
  exact (proj1 (Hlist [JInt 3; JInt 5; JInt 0] eq_refl)).
Defined.

(* ================================================================== *)
(** * The strings the code builds and the paths they name *)
(* ================================================================== *)

Lemma key_char_not_slash (c : ascii) : key_char c = true -> Ascii.eqb c "/"%char = false.
Proof.
  unfold key_char. cbn [existsb]. destruct (Ascii.eqb c "/"%char); [discriminate|reflexivity].
Qed.

Lemma string_append_nil (s : string) : (s ++ "")%string = s.
Proof. induction s as [|c s IH]; simpl; [reflexivity | now rewrite IH]. Qed.

Lemma segments_from_keys (s : string) :
  all_chars key_char s = true ->
  forall acc rest, segments_from acc (s ++ rest) = segments_from (acc ++ s) rest.
Proof.
  induction s as [|c s IH]; intros Hs acc rest.
  - now rewrite string_append_nil.
  - cbn [all_chars] in Hs. apply andb_prop in Hs. destruct Hs as [Hc Hs].
    cbn [append segments_from]. rewrite (key_char_not_slash c Hc), (IH Hs).
    now rewrite string_append_assoc.
Qed.

Lemma plain_key_parts (s : string) :
  plain_key s = true -> s <> "" /\ all_chars key_char s = true.
Proof.
  unfold plain_key. intros H. apply andb_prop in H. destruct H as [Hne Hs].
  split; [|exact Hs]. intros ->. discriminate.
Qed.

Lemma segments_from_key (s rest : string) :
  plain_key s = true ->
  segments_from "" (s ++ rest) = segments_from s rest.
Proof.
  intros H. destruct (plain_key_parts s H) as [_ Hs].
  now rewrite (segments_from_keys s Hs "" rest).
Qed.

Lemma push_segment_key (s : string) (l : list string) :
  plain_key s = true -> push_segment s l = s :: l.
Proof.
  intros H. destruct (plain_key_parts s H) as [Hne _].
  destruct s; [contradiction | reflexivity].
Qed.

(** A key is one segment. *)
Lemma url_segments_key (s : string) : plain_key s = true -> url_segments s = [s].
Proof.
  intros H. unfold url_segments. rewrite <- (string_append_nil s) at 1.
  rewrite (segments_from_key s "" H). cbn [segments_from]. now apply push_segment_key.
Qed.

(** For a class code that is a key, [f"/classes/{class_code}"] names the node
    at [class_path]. *)
Lemma class_url_segments (code : string) :
  plain_key code = true -> url_segments (class_url code) = class_path code.
Proof.
  intros H. unfold url_segments, class_url, class_path.
  cbn [append segments_from Ascii.eqb Bool.eqb push_segment].
  f_equal. exact (url_segments_key code H).
Qed.

(** For a class code and a name that are keys,
    [f"/classes/{class_code}/votes/{student_name}"] names the node at
    [voter_path]. *)
Lemma vote_url_segments (code name : string) :
  plain_key code = true -> plain_key name = true ->
  url_segments (vote_url code name) = voter_path code name.
Proof.
  intros Hc Hn. unfold url_segments, vote_url, voter_path.
  cbn [append segments_from Ascii.eqb Bool.eqb push_segment].
  f_equal. rewrite (segments_from_key code _ Hc).
  cbn [append segments_from Ascii.eqb Bool.eqb].
  rewrite (push_segment_key code _ Hc). f_equal.
  cbn [append segments_from Ascii.eqb Bool.eqb push_segment].
  f_equal. exact (url_segments_key name Hn).
Qed.

(** A name with a slash in it is not a key: the string built with it names a
    node further down, here inside the votes of another participant. *)
Lemma slash_names_a_nested_node :
  plain_key "ann/idea_0" = false
  /\ url_segments (vote_url "c" "ann/idea_0") = voter_path "c" "ann" ++ ["idea_0"].
Proof. split; reflexivity. Qed.

(* ================================================================== *)
(** * Further properties: the helper functions of the store *)
(* ================================================================== *)

Lemma get_class_codes_run (w : world) :
  get_class_codes w
  = if admin w then
      (if replied_ok (next_reply w)
       then (Ret (registry_or_empty (tree_get codes_path (root w))), advance w)
       else (Ret (JDict []), log (advance w) [codes_error (sdk_error (next_reply w))]))
    else
      match next_reply w with
      | Replied c =>
          if (c =? 200)%Z
          then (Ret (registry_or_empty (tree_get codes_path (root w))), advance w)
          else (Ret (JDict []), advance w)
      | Garbled => (Ret (JDict []), log (advance w) [codes_error JSONDecodeError])
      | Dropped msg => (Ret (JDict []), log (advance w) [codes_error (TransportError msg)])
      end.
Proof.
  unfold get_class_codes, try_except, bind, is_admin, registry_or_empty.
  destruct (admin w).
  - rewrite ref_get_run. destruct (replied_ok (next_reply w)); [reflexivity|].
    unfold st_error. now rewrite show_run.
  - rewrite requests_get_run. destruct (next_reply w) as [c| |m];
      cbn [status_code response_json].
    + destruct (c =? 200)%Z; [|reflexivity]. unfold lift, ret.
      now destruct (py_truthy (tree_get codes_path (root w))).
    + cbn [Z.eqb Pos.eqb]. unfold lift, st_error. now rewrite show_run.
    + unfold st_error. now rewrite show_run.
Qed.

(** Reading the registry consumes one reply, may show one error, and leaves
    the store and the session alone. *)
Lemma get_class_codes_frame (w : world) (r : result json) (w1 : world) :
  get_class_codes w = (r, w1) ->
  (exists reg, r = Ret reg)
  /\ root w1 = root w /\ sess w1 = sess w /\ admin w1 = admin w
  /\ secret_pw w1 = secret_pw w /\ net w1 = tl (net w).
Proof.
  rewrite get_class_codes_run.
  destruct (advance_fields w) as (Ha & Hp & Hr & Hsh & Hs & Hn).
  destruct (admin w); [destruct (replied_ok _)|destruct (next_reply w) as [c| |m]];
    try (intros [= <- <-]; split; [eexists; reflexivity|]; repeat split; assumption).
  destruct (c =? 200)%Z;
    intros [= <- <-]; (split; [eexists; reflexivity|]); repeat split; assumption.
Qed.

(** X5. [get_class_codes] never raises and never writes.  It returns the
    registry when the store answers and holds one, and the empty dictionary
    when nothing (or anything falsy) is stored there; when the request
    raises it shows one error and returns the empty dictionary; and over
    plain HTTP a reply with a status other than 200 gives the empty
    dictionary without any message. *)
Theorem get_class_codes_fail_soft :
  (forall w, exists reg w',
        get_class_codes w = (Ret reg, w') /\ root w' = root w /\ sess w' = sess w)
  /\ (forall w,
         replied_ok (next_reply w) = true ->
         get_class_codes w
         = (Ret (if py_truthy (tree_get codes_path (root w))
                 then tree_get codes_path (root w) else JDict []), advance w))
  /\ (forall w msg,
         next_reply w = Dropped msg ->
         get_class_codes w
         = (Ret (JDict []),
            log (advance w) [StError ("Error getting class codes: " ++ msg)]))
  /\ (forall w c,
         admin w = false -> next_reply w = Replied c -> c <> 200%Z ->
         get_class_codes w = (Ret (JDict []), advance w)).
Proof.
  split; [|split; [|split]].
  - intros w. destruct (get_class_codes w) as [r w'] eqn:E.
    destruct (get_class_codes_frame w r w' E) as ((reg & ->) & Hr & Hs & _).
    now exists reg, w'.
  - intros w Hok. rewrite get_class_codes_run, Hok.
    destruct (next_reply w) as [c| |m]; try discriminate. simpl in Hok. rewrite Hok.
    now destruct (admin w).
  - intros w msg H. rewrite get_class_codes_run, H. now destruct (admin w).
  - intros w c Ha H Hc. rewrite get_class_codes_run, Ha, H.
    destruct (Z.eqb_spec c 200); [contradiction | reflexivity].
Qed.

Lemma save_data_run (data : json) (code : option string) (w : world) :
  save_data data code w
  = if admin w then
      (if replied_ok (next_reply w)
       then (Ret true, wrote (class_path (the_code code w)) data w)
       else (Ret false, log (advance w) [saving_error (sdk_error (next_reply w))]))
    else
      match next_reply w with
      | Replied c =>
          if (c =? 200)%Z
          then (Ret true, wrote (class_path (the_code code w)) data w)
          else (Ret false, advance w)
      | Garbled => (Ret true, wrote (class_path (the_code code w)) data w)
      | Dropped msg => (Ret false, log (advance w) [saving_error (TransportError msg)])
      end.
Proof.
  unfold save_data, bind. rewrite resolve_code_run.
  unfold try_except, bind, is_admin. destruct (admin w).
  - rewrite ref_set_run. destruct (replied_ok (next_reply w)); [reflexivity|].
    unfold st_error. now rewrite show_run.
  - rewrite requests_put_run. destruct (next_reply w) as [c| |m];
      cbn [status_code]; try reflexivity.
    now destruct (c =? 200)%Z.
Qed.

(** X6. [save_data] never raises, and what it returns tells what happened to
    the store: after [True] the class path holds exactly the data given and
    nothing was shown; after [False] the store is as it was.  The session is
    never touched. *)
Theorem save_data_tells_the_truth (data : json) (code : option string) (w : world) :
  exists ok w',
    save_data data code w = (Ret ok, w')
    /\ sess w' = sess w
    /\ (ok = true ->
        root w' = tree_set (class_path (the_code code w)) data (root w)
        /\ tree_get (class_path (the_code code w)) (root w') = data
        /\ shown w' = shown w)
    /\ (ok = false -> root w' = root w).
Proof.
  rewrite save_data_run.
  destruct (advance_fields w) as (_ & _ & Hr & Hsh & Hs & _).
  assert (Hwrote : forall p,
             sess (wrote p data w) = sess w
             /\ (true = true ->
                 root (wrote p data w) = tree_set p data (root w)
                 /\ tree_get p (root (wrote p data w)) = data
                 /\ shown (wrote p data w) = shown w)
             /\ (true = false -> root (wrote p data w) = root w)).
  { intros p. split; [apply wrote_sess|]. split; [|discriminate].
    intros _. rewrite wrote_root, wrote_shown. split; [reflexivity|].
    split; [apply tree_get_set_same | reflexivity]. }
  destruct (admin w); [destruct (replied_ok _)|destruct (next_reply w) as [c| |m]];
    try (eexists; eexists; split; [reflexivity | apply Hwrote]);
    try (eexists; eexists; split; [reflexivity|];
         split; [exact Hs|]; split; [discriminate | intros _; exact Hr]).
  destruct (c =? 200)%Z.
  - eexists; eexists; split; [reflexivity | apply Hwrote].
  - eexists; eexists; split; [reflexivity|].
    split; [exact Hs|]. split; [discriminate | intros _; exact Hr].
Qed.

Lemma the_code_sess (code : option string) (w w1 : world) :
  sess w1 = sess w -> the_code code w1 = the_code code w.
Proof. unfold the_code. now intros ->. Qed.

Lemma other_class_after_class_write (a b : string) (v : json) (rt : json) :
  a <> b ->
  tree_get (class_path b) (tree_set (class_path a) v rt) = tree_get (class_path b) rt.
Proof.
  intros Hne. apply (tree_get_set_sibling ["classes"] b a). congruence.
Qed.

Lemma other_class_after_voter_write (a b voter : string) (v : json) (rt : json) :
  a <> b ->
  tree_get (class_path b) (tree_set (voter_path a voter) v rt)
  = tree_get (class_path b) rt.
Proof.
  intros Hne. change (voter_path a voter) with (class_path a ++ ["votes"; voter]).
  rewrite tree_set_app. now apply other_class_after_class_write.
Qed.

Lemma codes_after_voter_write (a voter : string) (v : json) (rt : json) :
  tree_get codes_path (tree_set (voter_path a voter) v rt) = tree_get codes_path rt.
Proof.
  change (voter_path a voter) with (class_path a ++ ["votes"; voter]).
  rewrite tree_set_app. apply codes_after_class_write.
Qed.

(** [save_vote] whatever the replies: beyond what its re-read does, the
    store changes at the participant's path or not at all. *)
Lemma save_vote_frame (key : string) (rating : Z) (w : world) (r : result bool)
      (w' : world) :
  save_vote key rating w = (r, w') ->
  exists r1 w1,
    get_data None w = (r1, w1)
    /\ (root w' = root w1 \/ exists payload, root w' = tree_set (own_path w) payload (root w1)).
Proof.
  unfold save_vote. unfold bind at 1.
  destruct (get_data None w) as [r1 w1] eqn:Hread.
  assert (Hs : sess w1 = sess w) by exact (get_data_keeps_session _ _ _ _ Hread).
  intros Hrun. exists r1, w1. split; [reflexivity|].
  destruct r1 as [data|e]; [|injection Hrun as <- <-; now left].
  revert Hrun. unfold bind at 1. unfold get_session at 1.
  unfold bind at 1. unfold lift at 1.
  destruct (updated_votes _ key rating data) as [mv|e]; [|intros [= <- <-]; now left].
  unfold bind at 1.
  destruct (write_votes mv "Error saving vote: " w1) as [r2 w2] eqn:Hw.
  destruct (write_votes_frame _ _ _ _ _ Hw) as [Hs2 Hr2].
  assert (Hroot : root w2 = root w1
                  \/ exists payload, root w2 = tree_set (own_path w) payload (root w1)).
  { destruct Hr2 as [H|H]; [now left|]. right. exists mv.
    unfold own_path in *. now rewrite <- Hs. }
  destruct r2 as [[]|e]; unfold bind, get_session, put_session, ret;
    intros [= <- <-]; exact Hroot.
Qed.

(** Classes in terms of the paths: a write at the path of one class code, or
    of a voter of it, leaves the node at the path of another code alone. *)
Lemma classes_apart :
  (forall data code w other r w',
      the_code code w <> other ->
      save_data data code w = (r, w') ->
      tree_get (class_path other) (root w') = tree_get (class_path other) (root w)
      /\ tree_get codes_path (root w') = tree_get codes_path (root w))
  /\ (forall code w other r w',
         the_code code w <> other ->
         get_data code w = (r, w') ->
         tree_get (class_path other) (root w') = tree_get (class_path other) (root w)
         /\ tree_get codes_path (root w') = tree_get codes_path (root w))
  /\ (forall key rating w other r w',
         class_code (sess w) <> other ->
         save_vote key rating w = (r, w') ->
         tree_get (class_path other) (root w') = tree_get (class_path other) (root w)
         /\ tree_get codes_path (root w') = tree_get codes_path (root w)).
Proof.
  assert (Hread : forall code w other r w',
             the_code code w <> other ->
             get_data code w = (r, w') ->
             tree_get (class_path other) (root w') = tree_get (class_path other) (root w)
             /\ tree_get codes_path (root w') = tree_get codes_path (root w)).
  { intros code w other r w' Hne Hrun.
    destruct (get_data_sound code w r w' Hrun) as (data & _ & _ & _ & _ & _ & HI & _).
    apply (HI (fun rt => tree_get (class_path other) rt
                         = tree_get (class_path other) (root w)
                         /\ tree_get codes_path rt = tree_get codes_path (root w)));
      [|split; reflexivity].
    intros voter l rt _ [H1 H2].
    now rewrite (other_class_after_voter_write _ other voter _ rt Hne),
                codes_after_voter_write. }
  split; [|split; [exact Hread|]].
  - intros data code w other r w' Hne. rewrite save_data_run.
    destruct (advance_fields w) as (_ & _ & Hr & _).
    assert (Hw : tree_get (class_path other)
                          (root (wrote (class_path (the_code code w)) data w))
                 = tree_get (class_path other) (root w)
                 /\ tree_get codes_path (root (wrote (class_path (the_code code w)) data w))
                    = tree_get codes_path (root w)).
    { rewrite wrote_root. split; [now apply other_class_after_class_write|].
      apply codes_after_class_write. }
    destruct (admin w); [destruct (replied_ok _)|destruct (next_reply w) as [c| |m]];
      try (intros [= <- <-]; exact Hw);
      try (intros [= <- <-]; cbn [log root set_shown]; now rewrite Hr).
    destruct (c =? 200)%Z; intros [= <- <-]; [exact Hw | now rewrite Hr].
  - intros key rating w other r w' Hne Hrun.
    destruct (save_vote_frame key rating w r w' Hrun) as (r1 & w1 & Hget & Hroot).
    destruct (Hread None w other r1 w1 Hne Hget) as [H1 H2].
    destruct Hroot as [-> | [payload ->]]; [now split|].
    unfold own_path.
    now rewrite (other_class_after_voter_write _ other _ _ _ Hne), codes_after_voter_write.
Qed.

(** X7. Classes do not see each other.  For class codes that are keys of
    the store, and for a vote a participant's name that is one: saving a
    record for one class, reading one class (with its write-backs) and saving
    a vote in the class of the session leave what [f"/classes/{other}"] names
    for every other class code, and the registry of class codes, exactly as
    they were, whatever the store replies.  Nothing is said of a code or a
    name that is not a key: with a slash in it, the string the code builds
    names another node ([slash_names_a_nested_node]). *)
Theorem class_isolation :
  (forall data code w other r w',
      plain_key (the_code code w) = true -> plain_key other = true ->
      the_code code w <> other ->
      save_data data code w = (r, w') ->
      node_at (class_url other) (root w') = node_at (class_url other) (root w)
      /\ tree_get codes_path (root w') = tree_get codes_path (root w))
  /\ (forall code w other r w',
         plain_key (the_code code w) = true -> plain_key other = true ->
         the_code code w <> other ->
         get_data code w = (r, w') ->
         node_at (class_url other) (root w') = node_at (class_url other) (root w)
         /\ tree_get codes_path (root w') = tree_get codes_path (root w))
  /\ (forall key rating w other r w',
         plain_key (class_code (sess w)) = true ->
         plain_key (student_name (sess w)) = true ->
         plain_key other = true ->
         class_code (sess w) <> other ->
         save_vote key rating w = (r, w') ->
         node_at (class_url other) (root w') = node_at (class_url other) (root w)
         /\ tree_get codes_path (root w') = tree_get codes_path (root w)).
Proof.
  destruct classes_apart as (Hsave & Hread & Hvote).
  split; [|split].
  - intros data code w other r w' _ Hother Hne Hrun. unfold node_at.
    rewrite (class_url_segments other Hother). exact (Hsave data code w other r w' Hne Hrun).
  - intros code w other r w' _ Hother Hne Hrun. unfold node_at.
    rewrite (class_url_segments other Hother). exact (Hread code w other r w' Hne Hrun).
  - intros key rating w other r w' _ _ Hother Hne Hrun. unfold node_at.
    rewrite (class_url_segments other Hother).
    exact (Hvote key rating w other r w' Hne Hrun).
Qed.

Lemma get_data_plain (code : option string) (w : world) (d vs : dict) :
  all_ok w ->
  tree_get (class_path (the_code code w)) (root w) = JDict d ->
  d <> [] ->
  stored_votes d = Some vs ->
  no_legacy vs ->
  exists w', get_data code w = (Ret (JDict d), w')
             /\ same_client w w' /\ all_ok w' /\ root w' = root w.
Proof.
  intros Hok Hd Hne Hsv Hno. unfold stored_votes in Hsv.
  destruct (dict_get "votes" d) as [v|] eqn:Hv.
  - destruct v; try discriminate. injection Hsv as ->.
    destruct (get_data_ok code w d vs Hok Hd Hv) as (w' & Hrun & Hc & Hok' & Hroot).
    exists w'. rewrite Hrun, (normalized_no_list vs Hno).
    split; [reflexivity|]. split; [exact Hc|]. split; [exact Hok'|].
    now rewrite Hroot, (written_no_list _ vs Hno).
  - exists (advance w). rewrite get_data_run. unfold get_data_try, bind.
    rewrite fetch_class_run, (all_ok_replied w Hok), (all_ok_next w Hok), Hd.
    assert (Hfetch : (if admin w
                      then (Ret (Some (JDict d)), advance w)
                      else if (200 =? 200)%Z then (Ret (Some (JDict d)), advance w)
                           else (Ret None, advance w))
                     = (Ret (Some (JDict d)), advance w)) by now destruct (admin w).
    rewrite Hfetch. unfold normalize_record.
    destruct d as [|kv d']; [contradiction|]. cbn [py_truthy].
    unfold bind, lift, py_contains, dict_mem. rewrite Hv. unfold ret.
    split; [reflexivity|]. split; [apply same_client_advance|].
    split; [now apply all_ok_advance | apply advance_root].
Qed.

(** X8. What [save_data] writes for a class, [get_data] reads back: with the
    store answering, a record that is a non-empty dictionary whose votes (if
    it has any) are dictionaries, none stored as a list, comes back as it was
    saved, and the read changes nothing in the store and shows nothing. *)
Theorem save_then_read (code : option string) (w : world) (d vs : dict) :
  all_ok w ->
  d <> [] ->
  stored_votes d = Some vs ->
  no_legacy vs ->
  exists w1 w2,
    save_data (JDict d) code w = (Ret true, w1)
    /\ get_data code w1 = (Ret (JDict d), w2)
    /\ root w2 = root w1
    /\ shown w2 = shown w.
Proof.
  intros Hok Hne Hsv Hno.
  set (w1 := wrote (class_path (the_code code w)) (JDict d) w).
  assert (Hs1 : sess w1 = sess w) by apply wrote_sess.
  assert (Hd1 : tree_get (class_path (the_code code w1)) (root w1) = JDict d).
  { rewrite (the_code_sess code w w1 Hs1). unfold w1. rewrite wrote_root.
    apply tree_get_set_same. }
  destruct (get_data_plain code w1 d vs (all_ok_wrote _ _ w Hok) Hd1 Hne Hsv Hno)
    as (w2 & Hread & Hc & _ & Hroot).
  exists w1, w2. split; [apply (save_data_ok _ _ w Hok)|].
  split; [exact Hread|]. split; [exact Hroot|].
  destruct Hc as (_ & _ & _ & ->). apply wrote_shown.
Qed.

Lemma save_then_read_witness :
  exists w1 w2,
    save_data plain_class (Some "d") bob_world = (Ret true, w1)
    /\ get_data (Some "d") w1 = (Ret plain_class, w2)
    /\ root w2 = root w1.
Proof.
  assert (Hok : all_ok bob_world) by constructor.
  assert (Hne : [("ideas", JList [JStr "x"]);
                 ("votes", JDict [("bob", JDict [("idea_0", JInt 4)])])] <> [])
    by discriminate.
  assert (Hno : no_legacy [("bob", JDict [("idea_0", JInt 4)])]).
  { constructor; [intros l; discriminate | constructor]. }
  destruct (save_then_read (Some "d") bob_world _ _ Hok Hne eq_refl Hno)
    as (w1 & w2 & Hsave & Hread & Hroot & _).
  exists w1, w2. split; [exact Hsave|]. split; [exact Hread | exact Hroot].
Defined.

Lemma dict_set_nonempty (k : string) (v : json) (d : dict) : dict_set k v d <> [].
Proof.
  destruct d as [|[k' v'] d']; simpl; [discriminate|].
  destruct (String.eqb k k'); discriminate.
Qed.

(** X9. Reading a class twice is reading it once: with the store answering
    and voters of different names, the second [get_data] returns the record
    the first one returned and leaves the store as the first one left it;
    every list has been converted by then, so nothing is written again. *)
Theorem read_twice (code : option string) (w : world) (d vs : dict) :
  all_ok w ->
  tree_get (class_path (the_code code w)) (root w) = JDict d ->
  dict_get "votes" d = Some (JDict vs) ->
  dict_wf vs ->
  exists data w1 w2,
    get_data code w = (Ret data, w1)
    /\ get_data code w1 = (Ret data, w2)
    /\ root w2 = root w1
    /\ no_legacy (votes_items data).
Proof.
  intros Hok Hd Hv Hwf.
  destruct (get_data_ok code w d vs Hok Hd Hv) as (w1 & Hread & Hc & Hok1 & Hroot).
  destruct Hc as (_ & _ & Hs & _).
  assert (Hdata : normalized vs (JDict d)
                  = JDict (dict_set "votes" (JDict (map norm_item vs)) d)).
  { now rewrite (normalized_dict vs d vs Hv), (norm_votes_map vs Hwf). }
  assert (Hd1 : tree_get (class_path (the_code code w1)) (root w1)
                = JDict (dict_set "votes" (JDict (map norm_item vs)) d)).
  { rewrite (the_code_sess code w w1 Hs), Hroot, written_class, Hd. exact Hdata. }
  assert (Hne : dict_set "votes" (JDict (map norm_item vs)) d <> []).
  { apply dict_set_nonempty. }
  assert (Hsv : stored_votes (dict_set "votes" (JDict (map norm_item vs)) d)
                = Some (map norm_item vs)).
  { unfold stored_votes. now rewrite dict_get_set_same. }
  destruct (get_data_plain code w1 _ _ Hok1 Hd1 Hne Hsv (norm_items_no_legacy vs))
    as (w2 & Hread2 & _ & _ & Hroot2).
  exists (normalized vs (JDict d)), w1, w2. split; [exact Hread|].
  split; [rewrite Hdata; exact Hread2|]. split; [exact Hroot2|].
  rewrite Hdata. unfold votes_items. rewrite dict_get_set_same.
  apply norm_items_no_legacy.
Qed.

Lemma read_twice_witness :
  exists data w1 w2,
    get_data None (http_world []) = (Ret data, w1)
    /\ get_data None w1 = (Ret data, w2)
    /\ root w2 = root w1.
Proof.
  assert (Hok : all_ok (http_world [])) by constructor.
  assert (Hwf : dict_wf [("ann", JList [JInt 3; JInt 5; JInt 0]);
                         ("bob", JDict [("idea_0", JInt 4)])]).
  { unfold dict_wf. simpl. repeat constructor; simpl; intuition discriminate. }
  destruct (read_twice None (http_world [])
              [("ideas", JList [JStr "x"]);
               ("votes", JDict [("ann", JList [JInt 3; JInt 5; JInt 0]);
                                ("bob", JDict [("idea_0", JInt 4)])])]
              [("ann", JList [JInt 3; JInt 5; JInt 0]);
               ("bob", JDict [("idea_0", JInt 4)])]
              Hok eq_refl eq_refl Hwf) as (data & w1 & w2 & H1 & H2 & H3 & _).
  exists data, w1, w2. split; [exact H1|]. split; [exact H2 | exact H3].
Defined.

(* ================================================================== *)
(** * Further properties: joining, leaving and creating a class *)
(* ================================================================== *)

Lemma get_class_codes_failed (w : world) :
  replied_ok (next_reply w) = false ->
  exists ms, get_class_codes w = (Ret (JDict []), log (advance w) ms).
Proof.
  intros Hf. rewrite get_class_codes_run, Hf.
  destruct (admin w); [eexists; reflexivity|].
  destruct (next_reply w) as [c| |m]; try (eexists; reflexivity).
  simpl in Hf. rewrite Hf. exists []. now rewrite log_nil.
Qed.

Lemma create_class_after_codes (name code : string) (w w1 : world) (reg : dict) :
  name <> "" -> code <> "" ->
  get_class_codes w = (Ret (JDict reg), w1) ->
  all_ok w1 ->
  create_class (teacher_password_of w) name code w
  = (Ret tt,
     log (set_sess (set_joined code (sess w1))
            (wrote (class_path code) empty_record
               (wrote codes_path (JDict (dict_set code (JStr name) reg)) w1)))
         [StSuccess ("Created and joined class: " ++ name); StRerun]).
Proof.
  intros Hname Hcode Hcodes Hok1. unfold create_class.
  unfold bind at 1. rewrite get_teacher_password_run, String.eqb_refl.
  unfold str_truthy.
  destruct (String.eqb_spec name ""); [contradiction|].
  destruct (String.eqb_spec code ""); [contradiction|].
  cbn [negb orb].
  unfold bind at 1. rewrite Hcodes.
  unfold bind at 1. unfold lift at 1. cbn [py_setitem].
  unfold bind at 1. unfold is_admin at 1. unfold bind at 1.
  rewrite (registry_write_ok _ w1 Hok1).
  unfold bind at 1.
  rewrite (save_data_ok empty_record (Some code) _ (all_ok_wrote _ _ _ Hok1)).
  rewrite (the_code_some code _ Hcode).
  unfold bind, get_session, put_session. rewrite !show_run, log_log.
  now rewrite !wrote_sess.
Qed.

(** X10. When the registry cannot be read, creating a class replaces it:
    [get_class_codes] answers a failed read with the empty dictionary, the
    new code is put into that, and the result is written over the registry.
    With the right password, a name and a code, a first request that fails
    and a store that answers afterwards, the creation succeeds and the
    registry holds the new class only, whatever it held before. *)
Theorem registry_replaced_after_failed_read (name code : string) (w : world) :
  name <> "" -> code <> "" ->
  replied_ok (next_reply w) = false ->
  all_ok (advance w) ->
  exists w',
    create_class (teacher_password_of w) name code w = (Ret tt, w')
    /\ tree_get codes_path (root w') = JDict [(code, JStr name)]
    /\ In (StSuccess ("Created and joined class: " ++ name)) (shown w')
    /\ authenticated (sess w') = true.
Proof.
  intros Hname Hcode Hfail Hok.
  destruct (get_class_codes_failed w Hfail) as (ms & Hcodes).
  eexists. split.
  - apply (create_class_after_codes name code w _ [] Hname Hcode Hcodes).
    now apply all_ok_log.
  - cbn [log root set_shown set_sess sess set_joined authenticated shown dict_set].
    rewrite !wrote_root. split; [|split; [|reflexivity]].
    + now rewrite codes_after_class_write, tree_get_set_same.
    + apply in_or_app. right. now left.
Qed.

Lemma registry_replaced_after_failed_read_witness :
  tree_get codes_path
           (root (mk_world false None registered_store [Replied 503] []
                           (mk_session "" false "" [] false)))
  = JDict [("c", JStr "Period 3")]
  /\ exists w',
       create_class "teacherpass" "Period 4" "d"
                    (mk_world false None registered_store [Replied 503] []
                              (mk_session "" false "" [] false))
       = (Ret tt, w')
       /\ tree_get codes_path (root w') = JDict [("d", JStr "Period 4")].
Proof.
  split; [reflexivity|].
  assert (Hname : "Period 4" <> "") by discriminate.
  assert (Hcode : "d" <> "") by discriminate.
  destruct (registry_replaced_after_failed_read "Period 4" "d"
              (mk_world false None registered_store [Replied 503] []
                        (mk_session "" false "" [] false))
              Hname Hcode eq_refl (Forall_nil _)) as (w' & Hrun & Hreg & _).
  exists w'. split; [exact Hrun | exact Hreg].
Defined.

Section JoiningFacts.

Variable py_str : json -> string.

Lemma join_class_after_codes (code : string) (w w1 : world) (reg : dict) :
  get_class_codes w = (Ret (JDict reg), w1) ->
  join_class py_str code w
  = match dict_get code reg with
    | Some class_name =>
        (Ret tt, log (set_sess (set_joined code (sess w1)) w1)
                     [StSuccess ("Joined class: " ++ py_str class_name); StRerun])
    | None => (Ret tt, log w1 [StError "Invalid class code. Please try again."])
    end.
Proof.
  intros Hcodes. unfold join_class. unfold bind at 1. rewrite Hcodes.
  unfold bind at 1. unfold lift at 1. cbn [py_contains]. unfold dict_mem.
  destruct (dict_get code reg) as [class_name|] eqn:E; [|reflexivity].
  unfold bind, get_session, put_session, lift. cbn [py_getitem]. rewrite E.
  now rewrite !show_run, log_log.
Qed.

(** X11. Joining a class looks the code up in the registry and never writes
    to the store.  With the registry read and the code in it, the session is
    authenticated under that code and the name registered is shown; with the
    code not in it, "Invalid class code. Please try again." is shown and the
    session stays as it was.  When the registry cannot be read the same
    error is shown, for a registered code too. *)
Theorem join_checks_registry :
  (forall code w r w', join_class py_str code w = (r, w') -> root w' = root w)
  /\ (forall code w reg,
         replied_ok (next_reply w) = true ->
         registry_or_empty (tree_get codes_path (root w)) = JDict reg ->
         join_class py_str code w
         = match dict_get code reg with
           | Some class_name =>
               (Ret tt, log (set_sess (set_joined code (sess w)) (advance w))
                            [StSuccess ("Joined class: " ++ py_str class_name); StRerun])
           | None =>
               (Ret tt, log (advance w) [StError "Invalid class code. Please try again."])
           end)
  /\ (forall code w,
         replied_ok (next_reply w) = false ->
         exists ms,
           join_class py_str code w
           = (Ret tt, log (advance w)
                          (ms ++ [StError "Invalid class code. Please try again."]))).
Proof.
  split; [|split].
  - intros code w r w'. unfold join_class. unfold bind at 1.
    destruct (get_class_codes w) as [r1 w1] eqn:Hcodes.
    destruct (get_class_codes_frame w r1 w1 Hcodes) as ((reg & ->) & Hr & _).
    unfold bind at 1. unfold lift at 1.
    destruct (py_contains code reg) as [[]|e]; try (now intros [= <- <-]).
    unfold bind at 1. unfold get_session at 1. unfold bind at 1.
    unfold put_session at 1. unfold bind at 1. unfold lift at 1.
    destruct (py_getitem code reg) as [v|e]; [|now intros [= <- <-]].
    unfold bind. rewrite !show_run. now intros [= <- <-].
  - intros code w reg Hok Hreg.
    assert (Hcodes : get_class_codes w = (Ret (JDict reg), advance w)).
    { rewrite get_class_codes_run, Hok, Hreg.
      destruct (next_reply w) as [c| |m]; try discriminate. simpl in Hok. rewrite Hok.
      now destruct (admin w). }
    rewrite (join_class_after_codes code w _ reg Hcodes). now rewrite advance_sess.
  - intros code w Hfail. destruct (get_class_codes_failed w Hfail) as (ms & Hcodes).
    exists ms. rewrite (join_class_after_codes code w _ [] Hcodes). cbn [dict_get].
    now rewrite log_log.
Qed.

Lemma switch_class_run (w : world) :
  switch_class w
  = (Ret tt,
     log (set_sess (mk_session "" false (student_name (sess w))
                               (current_votes (sess w)) (auto_save (sess w))) w)
         [StRerun]).
Proof.
  unfold switch_class, bind, get_session, put_session. now rewrite show_run.
Qed.

(** X12. Switching class and joining another one keeps the participant's
    display name and the votes the session has loaded: the session that has
    joined the new class still holds the votes cached for the class it
    left. *)
Theorem switch_keeps_cached_votes (code : string) (w : world) (reg : dict)
        (class_name : json) :
  replied_ok (next_reply w) = true ->
  registry_or_empty (tree_get codes_path (root w)) = JDict reg ->
  dict_get code reg = Some class_name ->
  exists w',
    (switch_class ;; join_class py_str code) w = (Ret tt, w')
    /\ sess w' = mk_session code true (student_name (sess w)) (current_votes (sess w))
                            (auto_save (sess w))
    /\ root w' = root w.
Proof.
  intros Hok Hreg Hin. unfold bind at 1. rewrite switch_class_run.
  set (w0 := log (set_sess _ w) [StRerun]).
  assert (Hcodes : get_class_codes w0 = (Ret (JDict reg), advance w0)).
  { rewrite get_class_codes_run.
    change (next_reply w0) with (next_reply w). change (root w0) with (root w).
    change (admin w0) with (admin w). rewrite Hok, Hreg.
    destruct (next_reply w) as [c| |m]; try discriminate. simpl in Hok. rewrite Hok.
    now destruct (admin w). }
  rewrite (join_class_after_codes code w0 _ reg Hcodes), Hin.
  eexists. split; [reflexivity|].
  cbn [log sess set_shown set_sess root]. rewrite advance_sess, advance_root.
  split; reflexivity.
Qed.

End JoiningFacts.

Lemma switch_keeps_cached_votes_witness :
  exists w',
    (switch_class ;; join_class str_of_name "d") leaving_world = (Ret tt, w')
    /\ sess w' = mk_session "d" true "ann" [("idea_0", JInt 3)] false
    /\ root w' = two_class_store.
Proof.
  exact (switch_keeps_cached_votes str_of_name "d" leaving_world
           [("c", JStr "Period 3"); ("d", JStr "Period 4")] (JStr "Period 4")
           eq_refl eq_refl eq_refl).
Defined.

(* ================================================================== *)
(** * Further properties: clearing one's votes *)
(* ================================================================== *)

Lemma dict_get_pop_other (k k' : string) (d : dict) :
  k <> k' -> dict_get k (dict_pop k' d) = dict_get k d.
Proof.
  intros Hk. induction d as [|[k0 v0] d IH]; simpl; [reflexivity|].
  destruct (String.eqb_spec k' k0) as [->|Hk0].
  - destruct (String.eqb_spec k k0); [contradiction | reflexivity].
  - simpl. now rewrite IH.
Qed.

Lemma tree_delete_step (k : string) (p : list string) (d : dict) :
  p <> [] ->
  tree_delete (k :: p) (JDict d)
  = match dict_get k d with
    | Some c => JDict (dict_set k (tree_delete p c) d)
    | None => JDict d
    end.
Proof. destruct p; [contradiction | reflexivity]. Qed.

Lemma tree_get_delete_last (q : list string) (k : string) : forall j,
  (forall d, tree_get q j = JDict d -> dict_wf d) ->
  tree_get (q ++ [k]) (tree_delete (q ++ [k]) j) = JNull.
Proof.
  induction q as [|k0 q IH]; intros j Hwf.
  - destruct j as [| | | | | |d]; try reflexivity.
    cbn [app tree_delete tree_get]. now rewrite (dict_pop_get_same k d (Hwf d eq_refl)).
  - destruct j as [| | | | | |d]; try reflexivity.
    change ((k0 :: q) ++ [k]) with (k0 :: (q ++ [k])).
    rewrite tree_delete_step by (now destruct q).
    destruct (dict_get k0 d) as [c|] eqn:E.
    + cbn [tree_get]. rewrite dict_get_set_same. apply IH.
      intros d0 Hd0. apply Hwf. cbn [tree_get]. now rewrite E.
    + cbn [tree_get]. now rewrite E.
Qed.

Lemma tree_get_delete_diverging (q : list string) (x y : string) (r1 r2 : list string) :
  x <> y -> forall j,
  tree_get (q ++ x :: r1) (tree_delete (q ++ y :: r2) j) = tree_get (q ++ x :: r1) j.
Proof.
  intros Hxy. induction q as [|k0 q IH]; intros j.
  - destruct j as [| | | | | |d]; try (now destruct r2).
    cbn [app]. destruct r2 as [|z r2].
    + cbn [tree_delete tree_get]. now rewrite dict_get_pop_other.
    + rewrite tree_delete_step by discriminate.
      destruct (dict_get y d) as [c|]; [|reflexivity].
      cbn [tree_get]. now rewrite dict_get_set_other.
  - destruct j as [| | | | | |d]; try reflexivity.
    change ((k0 :: q) ++ y :: r2) with (k0 :: (q ++ y :: r2)).
    change ((k0 :: q) ++ x :: r1) with (k0 :: (q ++ x :: r1)).
    rewrite tree_delete_step by (now destruct q).
    destruct (dict_get k0 d) as [c|] eqn:E; [|reflexivity].
    cbn [tree_get]. now rewrite dict_get_set_same, E, IH.
Qed.

Lemma ref_delete_run (p : list string) (w : world) :
  ref_delete p w
  = if replied_ok (next_reply w)
    then (Ret tt, set_root (tree_delete p (root w)) (advance w))
    else (Exc (sdk_error (next_reply w)), advance w).
Proof.
  unfold ref_delete, bind. rewrite next_outcome_run.
  destruct (replied_ok (next_reply w)); [|reflexivity].
  unfold store_delete. now rewrite advance_root.
Qed.

Lemma requests_delete_run (p : list string) (w : world) :
  requests_delete p w
  = match next_reply w with
    | Replied c =>
        (Ret (mk_response c (Ret JNull)),
         if (c =? 200)%Z then set_root (tree_delete p (root w)) (advance w)
         else advance w)
    | Garbled =>
        (Ret (mk_response 200 (Exc JSONDecodeError)),
         set_root (tree_delete p (root w)) (advance w))
    | Dropped msg => (Exc (TransportError msg), advance w)
    end.
Proof.
  unfold requests_delete, bind, store_delete, ret. rewrite next_outcome_run.
  destruct (next_reply w) as [c| |msg]; rewrite ?advance_root; try reflexivity.
  destruct (c =? 200)%Z; now rewrite ?advance_root.
Qed.

Ltac messages_shown :=
  cbv beta iota; rewrite ?show_run; cbv beta iota; rewrite ?show_run; cbv beta iota;
  rewrite ?log_log; cbn [sess set_root]; rewrite ?advance_sess; reflexivity.

Lemma clear_all_votes_run (cached : option (list (nat * json))) (w : world) :
  clear_all_votes cached w
  = if (if admin w then replied_ok (next_reply w)
        else match next_reply w with
             | Replied c => (c =? 200)%Z
             | Garbled => true
             | Dropped _ => false
             end)
    then (Ret None,
          log (set_sess (set_current_votes [] (sess w))
                 (set_root (tree_delete (own_path w) (root w)) (advance w)))
              [StSuccess "All your votes have been cleared!"; StRerun])
    else match next_reply w with
         | Dropped msg =>
             if admin w then
               (Ret cached,
                log (advance w)
                    [StError ("Error clearing votes: " ++ str_exn (TransportError msg));
                     StError "Failed to clear votes. Please try again."])
             else (Exc (TransportError msg), advance w)
         | o =>
             (Ret cached,
              log (advance w)
                  ((if admin w
                    then [StError ("Error clearing votes: " ++ str_exn (sdk_error o))]
                    else [])
                   ++ [StError "Failed to clear votes. Please try again."]))
         end.
Proof.
  unfold clear_all_votes. unfold bind at 1. unfold get_session at 1.
  unfold bind at 1. unfold is_admin at 1.
  fold (own_path w).
  destruct (admin w).
  - unfold try_except, bind, get_session, put_session, st_error, ret.
    rewrite ref_delete_run.
    destruct (next_reply w) as [c| |msg]; cbn [replied_ok].
    + destruct (c =? 200)%Z; messages_shown.
    + messages_shown.
    + messages_shown.
  - unfold bind, get_session, put_session, st_error, ret.
    rewrite requests_delete_run.
    destruct (next_reply w) as [c| |msg].
    + cbn [status_code]. destruct (c =? 200)%Z; messages_shown.
    + cbn [status_code Z.eqb Pos.eqb]. messages_shown.
    + reflexivity.
Qed.

Lemma votes_node_wf (w : world) :
  voters_wf w ->
  forall d,
    tree_get ["classes"; class_code (sess w); "votes"] (root w) = JDict d -> dict_wf d.
Proof.
  unfold voters_wf. intros Hwf d.
  change ["classes"; class_code (sess w); "votes"]
    with (class_path (class_code (sess w)) ++ ["votes"]).
  rewrite tree_get_app.
  destruct (tree_get (class_path (class_code (sess w))) (root w))
    as [| | | | | |dd]; try discriminate.
  cbn [tree_get votes_items] in *.
  destruct (dict_get "votes" dd) as [v|]; [|discriminate].
  intros ->. exact Hwf.
Qed.

(** A successful clearing in terms of the paths. *)
Lemma clear_all_votes_paths (cached : option (list (nat * json))) (w : world) :
  replied_ok (next_reply w) = true ->
  voters_wf w ->
  exists w',
    clear_all_votes cached w = (Ret None, w')
    /\ tree_get (voter_path (class_code (sess w)) (student_name (sess w))) (root w') = JNull
    /\ current_votes (sess w') = []
    /\ shown w' = shown w ++ [StSuccess "All your votes have been cleared!"; StRerun]
    /\ (forall other, other <> student_name (sess w) ->
          tree_get (voter_path (class_code (sess w)) other) (root w')
          = tree_get (voter_path (class_code (sess w)) other) (root w))
    /\ tree_get (class_path (class_code (sess w)) ++ ["ideas"]) (root w')
       = tree_get (class_path (class_code (sess w)) ++ ["ideas"]) (root w)
    /\ (forall other, other <> class_code (sess w) ->
          tree_get (class_path other) (root w') = tree_get (class_path other) (root w))
    /\ tree_get codes_path (root w') = tree_get codes_path (root w).
Proof.
  intros Hok Hwf. rewrite clear_all_votes_run, Hok.
  destruct (next_reply w) as [c| |msg]; try discriminate. cbn [replied_ok] in Hok.
  rewrite Hok. replace (if admin w then true else true) with true by now destruct (admin w).
  eexists. split; [reflexivity|].
  unfold own_path.
  cbn [log set_shown set_sess set_root sess root shown set_current_votes class_code
       student_name current_votes].
  rewrite advance_shown.
  set (c0 := class_code (sess w)). set (n := student_name (sess w)).
  repeat split.
  - exact (tree_get_delete_last ["classes"; c0; "votes"] n (root w) (votes_node_wf w Hwf)).
  - intros other Hother.
    exact (tree_get_delete_diverging ["classes"; c0; "votes"] other n [] [] Hother (root w)).
  - apply (tree_get_delete_diverging ["classes"; c0] "ideas" "votes" [] [n]). discriminate.
  - intros other Hother.
    exact (tree_get_delete_diverging ["classes"] other c0 [] ["votes"; n] Hother (root w)).
  - apply (tree_get_delete_diverging [] "class_access_codes" "classes" [] [c0; "votes"; n]).
    discriminate.
Qed.

(** X13. "Clear All My Votes", when the request is answered with a success,
    for a class code and a participant's name that are keys of the store:
    nothing is stored any more at
    [f"/classes/{class_code}/votes/{student_name}"], the votes of the session
    are emptied and the kept order of the sliders is dropped, so that the
    page is drawn again with a new one.  The votes of every other
    participant, the scenarios of the class, the other classes (other names
    and codes that are keys) and the registry are as they were.  Nothing is
    said of a name that is not a key: with a slash in it the string names a
    node further down ([slash_names_a_nested_node]). *)
Theorem cleared_votes_are_gone (cached : option (list (nat * json))) (w : world) :
  plain_key (class_code (sess w)) = true ->
  plain_key (student_name (sess w)) = true ->
  replied_ok (next_reply w) = true ->
  voters_wf w ->
  exists w',
    clear_all_votes cached w = (Ret None, w')
    /\ node_at (vote_url (class_code (sess w)) (student_name (sess w))) (root w') = JNull
    /\ current_votes (sess w') = []
    /\ shown w' = shown w ++ [StSuccess "All your votes have been cleared!"; StRerun]
    /\ (forall other,
          plain_key other = true -> other <> student_name (sess w) ->
          node_at (vote_url (class_code (sess w)) other) (root w')
          = node_at (vote_url (class_code (sess w)) other) (root w))
    /\ tree_get ["ideas"] (node_at (class_url (class_code (sess w))) (root w'))
       = tree_get ["ideas"] (node_at (class_url (class_code (sess w))) (root w))
    /\ (forall other,
          plain_key other = true -> other <> class_code (sess w) ->
          node_at (class_url other) (root w') = node_at (class_url other) (root w))
    /\ tree_get codes_path (root w') = tree_get codes_path (root w).
Proof.
  intros Hc Hn Hok Hwf.
  destruct (clear_all_votes_paths cached w Hok Hwf)
    as (w' & Hrun & Hgone & Hsess & Hshown & Hothers & Hideas & Hclasses & Hcodes).
  exists w'. unfold node_at.
  rewrite (vote_url_segments _ _ Hc Hn), (class_url_segments _ Hc).
  split; [exact Hrun|]. split; [exact Hgone|]. split; [exact Hsess|].
  split; [exact Hshown|]. split; [|split; [|split; [|exact Hcodes]]].
  - intros other Hkey Hother. rewrite (vote_url_segments _ other Hc Hkey).
    exact (Hothers other Hother).
  - rewrite <- !tree_get_app. exact Hideas.
  - intros other Hkey Hother. rewrite (class_url_segments other Hkey).
    exact (Hclasses other Hother).
Qed.

Lemma cleared_votes_are_gone_witness :
  node_at (vote_url "c" "ann") (root ann_loaded_world)
  = JDict [("idea_0", JInt 3); ("idea_1", JInt 5); ("idea_2", JInt 0)]
  /\ exists w',
       clear_all_votes (Some [(0%nat, JStr "x")]) ann_loaded_world = (Ret None, w')
       /\ node_at (vote_url "c" "ann") (root w') = JNull
       /\ current_votes (sess w') = []
       /\ node_at (vote_url "c" "bob") (root w') = JDict [("idea_0", JInt 4)].
Proof.
  split; [reflexivity|].
  assert (Hwf : voters_wf ann_loaded_world).
  { unfold voters_wf, dict_wf. cbn.
    repeat constructor; cbn; intuition discriminate. }
  destruct (cleared_votes_are_gone (Some [(0%nat, JStr "x")]) ann_loaded_world
              eq_refl eq_refl eq_refl Hwf)
    as (w' & Hrun & Hgone & Hsess & _ & Hothers & _).
  assert (Hbob : "bob" <> student_name (sess ann_loaded_world)) by discriminate.
  exists w'. repeat split; try assumption.
  exact (Hothers "bob" eq_refl Hbob).
Defined.

(** X14. "Clear All My Votes", when the request is answered with a status
    other than 200: the store and the session are left as they were, the
    kept order of the sliders is kept, and the last thing shown is "Failed to
    clear votes. Please try again."; over plain HTTP it is the only thing
    shown. *)
Theorem failed_clearing_changes_nothing (cached : option (list (nat * json)))
        (w : world) :
  failed (next_reply w) ->
  exists ms,
    clear_all_votes cached w
    = (Ret cached,
       log (advance w) (ms ++ [StError "Failed to clear votes. Please try again."]))
    /\ (admin w = false -> ms = []).
Proof.
  intros Hfail. rewrite clear_all_votes_run.
  destruct (next_reply w) as [c| |msg]; try contradiction. cbn [failed] in Hfail.
  cbn [replied_ok]. destruct (Z.eqb_spec c 200) as [->|_]; [contradiction|].
  replace (if admin w then false else false) with false by now destruct (admin w).
  eexists. split; [reflexivity|]. now intros ->.
Qed.

Lemma failed_clearing_changes_nothing_witness :
  exists ms,
    clear_all_votes (Some [(0%nat, JStr "x")])
                    (mk_world false None loaded_store [Replied 401] []
                              (sess ann_loaded_world))
    = (Ret (Some [(0%nat, JStr "x")]),
       log (mk_world false None loaded_store [] [] (sess ann_loaded_world))
           (ms ++ [StError "Failed to clear votes. Please try again."]))
    /\ ms = [].
Proof.
  destruct (failed_clearing_changes_nothing (Some [(0%nat, JStr "x")])
              (mk_world false None loaded_store [Replied 401] []
                        (sess ann_loaded_world)))
    as (ms & Hrun & Hms).
  - cbn. discriminate.
  - exists ms. split; [exact Hrun | now apply Hms].
Defined.

(* ================================================================== *)
(** * Further properties: a vote that is saved, a vote that is refused *)
(* ================================================================== *)

Lemma updated_votes_any (name key : string) (rating : Z) (d nv mine : dict) :
  dict_get "votes" d = Some (JDict nv) ->
  votes_to_update name nv = Some mine ->
  updated_votes name key rating (JDict d)
  = Ret (JDict (dict_set key (JInt rating) mine)).
Proof.
  intros Hv Hm. unfold votes_to_update in Hm.
  destruct (dict_get name nv) as [stored|] eqn:E.
  - destruct stored; try discriminate. injection Hm as ->.
    now apply updated_votes_dict with nv.
  - injection Hm as <-. unfold updated_votes.
    cbn [py_contains rbind]. unfold dict_mem. rewrite Hv.
    cbn [rbind py_getitem]. rewrite Hv. cbn [rbind py_contains]. unfold dict_mem.
    rewrite E. cbn [negb rbind py_setitem py_getitem].
    now rewrite dict_get_set_same.
Qed.

Lemma save_vote_after_read (key : string) (rating : Z) (w w1 : world)
      (d nv mine : dict) :
  get_data None w = (Ret (JDict d), w1) ->
  dict_get "votes" d = Some (JDict nv) ->
  votes_to_update (student_name (sess w)) nv = Some mine ->
  save_vote key rating w
  = match write_votes (JDict (dict_set key (JInt rating) mine)) "Error saving vote: " w1 with
    | (Ret true, w2) =>
        (Ret true,
         set_sess (set_current_votes (dict_set key (JInt rating) (current_votes (sess w2)))
                                     (sess w2)) w2)
    | (Ret false, w2) => (Ret false, w2)
    | (Exc e, w2) => (Exc e, w2)
    end.
Proof.
  intros Hread Hv Hm. unfold save_vote. unfold bind at 1. rewrite Hread.
  unfold bind at 1. unfold get_session at 1.
  rewrite (get_data_keeps_session _ _ _ _ Hread).
  unfold bind at 1. unfold lift at 1.
  rewrite (updated_votes_any _ key rating d nv mine Hv Hm).
  unfold bind at 1.
  destruct (write_votes _ _ w1) as [[[]|e] w2]; reflexivity.
Qed.

Lemma write_votes_refused (payload : json) (what : string) (w : world) (c : Z) :
  admin w = false -> next_reply w = Replied c -> c <> 200%Z ->
  write_votes payload what w = (Ret false, advance w).
Proof.
  intros Ha Hnext Hc. unfold write_votes, bind, get_session, is_admin. rewrite Ha.
  rewrite requests_put_run, Hnext. cbn [status_code ret].
  now destruct (Z.eqb_spec c 200).
Qed.

(** A read over plain HTTP whose first request is answered with the record:
    one more request for every list of votes, whatever each is answered, the
    normalized record, nothing shown; the store is as it was when no
    write-back was accepted (so also when there was no list). *)
Lemma get_data_http (code : option string) (w : world) (d vs : dict)
      (replies rest : list outcome) :
  admin w = false ->
  net w = Replied 200 :: replies ++ rest ->
  List.length replies = count_lists vs ->
  Forall is_reply replies ->
  tree_get (class_path (the_code code w)) (root w) = JDict d ->
  dict_get "votes" d = Some (JDict vs) ->
  exists w1,
    get_data code w = (Ret (normalized vs (JDict d)), w1)
    /\ same_client w w1 /\ net w1 = rest
    /\ (Forall failed replies -> root w1 = root w).
Proof.
  intros Ha Hnet Hlen Hrep Hd Hv.
  destruct (advance_net_cons w _ _ Hnet) as [Hnext Hadv].
  assert (Ha1 : admin (advance w) = false)
    by (destruct (same_client_advance w) as [-> _]; exact Ha).
  assert (Hdict : has_votes_dict (JDict d)) by (now exists d, vs).
  destruct (normalize_loop_unchecked (the_code code w) vs (JDict d) (advance w)
              replies rest Ha1 Hdict Hadv Hlen Hrep) as (w1 & Hrun & Hc & Hnet1 & Hroot1).
  exists w1. rewrite get_data_run. unfold get_data_try, bind.
  rewrite fetch_class_run, Ha, Hnext, Hd. cbn [Z.eqb Pos.eqb].
  unfold normalize_record.
  destruct d as [|kv d']; [discriminate|]. cbn [py_truthy].
  unfold bind, lift, py_contains, dict_mem, py_getitem. rewrite Hv. cbn [py_items].
  rewrite Hrun. split; [reflexivity|].
  split; [exact (same_client_trans _ _ _ (same_client_advance w) Hc)|].
  split; [exact Hnet1|]. intros Hf. rewrite (Hroot1 Hf). apply advance_root.
Qed.

(** X15. A vote the store refuses.  Over plain HTTP, with the class read (and
    the write-backs of the lists it holds answered, whatever the answer) and
    the write of the vote answered with a status other than 200, the votes
    of the session do not change and the store is what the read left: the
    keyed forms the read wrote back for the lists of votes apart, nothing is
    written, and with no list stored (or none of the write-backs accepted)
    the store is as it was.  When votes are saved automatically, moving the
    slider then shows nothing at all: the slider keeps the new value while no
    vote is stored.  When they are submitted with the button, "Failed to
    submit vote. Please try again." is shown. *)
Theorem refused_vote_feedback (i : nat) (new_value : Z) (w : world) (d vs mine : dict)
        (c : Z) (replies rest : list outcome) :
  admin w = false ->
  net w = Replied 200 :: replies ++ Replied c :: rest ->
  List.length replies = count_lists vs ->
  Forall is_reply replies ->
  c <> 200%Z ->
  tree_get (class_path (class_code (sess w))) (root w) = JDict d ->
  dict_get "votes" d = Some (JDict vs) ->
  votes_to_update (student_name (sess w)) (norm_votes vs vs) = Some mine ->
  (0 < new_value)%Z ->
  negb (dict_mem (idea_key i) (current_votes (sess w)))
  || differs (idea_key i) (current_votes (sess w)) new_value = true ->
  exists data w1 w',
    get_data None w = (Ret data, w1)
    /\ root w' = root w1
    /\ (Forall failed replies -> root w' = root w)
    /\ sess w' = sess w /\ shown w' = shown w /\ net w' = rest
    /\ (auto_save (sess w) = true -> on_slider_change i new_value w = (Ret tt, w'))
    /\ (auto_save (sess w) = false ->
        press_button i new_value w
        = (Ret tt, log w' [StError "Failed to submit vote. Please try again."])).
Proof.
  intros Ha Hnet Hlen Hrep Hc Hd Hv Hm Hpos Hguard.
  destruct (get_data_http None w d vs replies (Replied c :: rest) Ha Hnet Hlen Hrep Hd Hv)
    as (w1 & Hread & Hcl & Hnet1 & Hroot1).
  destruct Hcl as (Ha1 & _ & Hs1 & Hsh1).
  destruct (advance_net_cons w1 _ _ Hnet1) as [Hnext1 Hadv1].
  assert (Hsave : save_vote (idea_key i) new_value w = (Ret false, advance w1)).
  { rewrite (normalized_dict vs d vs Hv) in Hread.
    rewrite (save_vote_after_read _ _ w w1 _ (norm_votes vs vs) mine Hread
               (dict_get_set_same _ _ _) Hm).
    rewrite (write_votes_refused _ _ w1 c);
      [reflexivity | congruence | assumption | assumption]. }
  assert (Hgt : (new_value >? 0)%Z = true) by now apply Z.gtb_lt.
  exists (normalized vs (JDict d)), w1, (advance w1).
  split; [exact Hread|]. split; [apply advance_root|].
  split; [intros Hf; rewrite advance_root; now apply Hroot1|].
  split; [now rewrite advance_sess|]. split; [now rewrite advance_shown|].
  split; [exact Hadv1|]. split; intros Hauto.
  - unfold on_slider_change. unfold bind at 1. unfold get_session at 1.
    rewrite Hauto. cbv zeta. rewrite Hgt, Hguard. unfold bind. now rewrite Hsave.
  - unfold press_button. unfold bind at 1. unfold get_session at 1.
    rewrite Hauto. cbn [negb]. cbv zeta. rewrite Hgt.
    assert (Hen : (new_value =? 0)%Z
                  || (dict_mem (idea_key i) (current_votes (sess w))
                      && negb (differs (idea_key i) (current_votes (sess w)) new_value))
                  = false).
    { destruct (Z.eqb_spec new_value 0) as [->|_]; [discriminate|].
      destruct (dict_mem _ _), (differs _ _ _); try reflexivity; discriminate. }
    rewrite Hen. unfold bind. rewrite Hsave. unfold st_error. now rewrite show_run.
Qed.

Lemma refused_vote_feedback_witness :
  (exists w',
     on_slider_change 0 4 (refusing_world true) = (Ret tt, w')
     /\ root w' = loaded_store
     /\ sess w' = sess (refusing_world true)
     /\ shown w' = [])
  /\ exists w',
       press_button 1 4 (http_world [Replied 200; Replied 200; Replied 500])
       = (Ret tt, log w' [StError "Failed to submit vote. Please try again."])
       /\ root w' = loaded_store
       /\ sess w' = ann_session
       /\ shown w' = [].
Proof.
  assert (Hc : 500%Z <> 200%Z) by discriminate.
  assert (Hpos : (0 < 4)%Z) by reflexivity.
  split.
  - destruct (refused_vote_feedback 0 4 (refusing_world true)
                [("ideas", JList [JStr "x"]);
                 ("votes", JDict [("ann", JDict [("idea_0", JInt 3); ("idea_1", JInt 5);
                                                 ("idea_2", JInt 0)]);
                                  ("bob", JDict [("idea_0", JInt 4)])])]
                [("ann", JDict [("idea_0", JInt 3); ("idea_1", JInt 5); ("idea_2", JInt 0)]);
                 ("bob", JDict [("idea_0", JInt 4)])]
                [("idea_0", JInt 3); ("idea_1", JInt 5); ("idea_2", JInt 0)] 500 [] []
                eq_refl eq_refl eq_refl (Forall_nil _) Hc eq_refl eq_refl eq_refl Hpos
                eq_refl)
      as (data & w1 & w' & _ & _ & Hroot & Hsess & Hshown & _ & Hauto & _).
    exists w'. split; [exact (Hauto eq_refl)|].
    split; [exact (Hroot (Forall_nil _))|]. now split.
  - destruct (refused_vote_feedback 1 4
                (http_world [Replied 200; Replied 200; Replied 500])
                [("ideas", JList [JStr "x"]);
                 ("votes", JDict [("ann", JList [JInt 3; JInt 5; JInt 0]);
                                  ("bob", JDict [("idea_0", JInt 4)])])]
                [("ann", JList [JInt 3; JInt 5; JInt 0]);
                 ("bob", JDict [("idea_0", JInt 4)])]
                [("idea_0", JInt 3); ("idea_1", JInt 5); ("idea_2", JInt 0)] 500
                [Replied 200] []
                eq_refl eq_refl eq_refl (Forall_cons (Replied 200) I (Forall_nil is_reply))
                Hc eq_refl eq_refl eq_refl Hpos eq_refl)
      as (data & w1 & w' & Hread & Hroot & _ & Hsess & Hshown & _ & _ & Hmanual).
    exists w'. split; [|split; [|now split]].
    + exact (Hmanual eq_refl).
    + rewrite Hroot.
      assert (E : get_data None (http_world [Replied 200; Replied 200; Replied 500])
                  = (Ret (normalized (votes_items legacy_class) legacy_class),
                     mk_world false None loaded_store [Replied 500] [] ann_session))
        by reflexivity.
      rewrite E in Hread. now injection Hread as _ <-.
Defined.

Lemma dict_get_norm_items (k : string) (vs : dict) :
  dict_get k (map norm_item vs)
  = match dict_get k vs with
    | Some v => Some (norm_value v)
    | None => None
    end.
Proof.
  induction vs as [|[k' v'] vs IH]; [reflexivity|].
  cbn [map norm_item fst snd dict_get]. now destruct (String.eqb k k').
Qed.

Lemma class_after_own_write (c name : string) (payload : json) (rt : json) (d1 nv : dict) :
  tree_get (class_path c) rt = JDict d1 ->
  dict_get "votes" d1 = Some (JDict nv) ->
  tree_get (class_path c) (tree_set (voter_path c name) payload rt)
  = JDict (dict_set "votes" (JDict (dict_set name payload nv)) d1).
Proof.
  intros Hd Hv.
  change (voter_path c name) with (class_path c ++ ["votes"; name]).
  rewrite tree_set_app, tree_get_set_same, Hd.
  cbn [tree_set]. rewrite Hv. reflexivity.
Qed.

(** A save and the read after it, in terms of the paths. *)
Lemma save_vote_round_trip (key : string) (rating : Z) (w : world)
        (d vs mine : dict) :
  all_ok w ->
  tree_get (class_path (class_code (sess w))) (root w) = JDict d ->
  dict_get "votes" d = Some (JDict vs) ->
  dict_wf vs ->
  votes_to_update (student_name (sess w)) (norm_votes vs vs) = Some mine ->
  exists w1 data w2,
    save_vote key rating w = (Ret true, w1)
    /\ get_data None w1 = (Ret data, w2)
    /\ root w2 = root w1
    /\ tree_get (voter_path (class_code (sess w)) (student_name (sess w))) (root w1)
       = JDict (dict_set key (JInt rating) mine)
    /\ tree_get ["votes"; student_name (sess w); key] data = JInt rating
    /\ dict_get key (current_votes (sess w1)) = Some (JInt rating)
    /\ (forall k, k <> key ->
          tree_get ["votes"; student_name (sess w); k] data
          = match dict_get k mine with Some v => v | None => JNull end)
    /\ (forall other, other <> student_name (sess w) ->
          tree_get ["votes"; other] data
          = match dict_get other vs with Some v => norm_value v | None => JNull end)
    /\ tree_get ["ideas"] data = tree_get ["ideas"] (JDict d).
Proof.
  intros Hok Hd Hv Hwf Hm.
  set (c := class_code (sess w)) in *. set (name := student_name (sess w)) in *.
  set (nv := norm_votes vs vs) in *.
  set (d1 := dict_set "votes" (JDict nv) d).
  set (payload := JDict (dict_set key (JInt rating) mine)).
  destruct (get_data_ok None w d vs Hok Hd Hv) as (wa & Hread & Hcl & Hoka & Hroota).
  destruct Hcl as (_ & _ & Hsa & _).
  rewrite (normalized_dict vs d vs Hv) in Hread. fold nv d1 in Hread.
  assert (Hv1 : dict_get "votes" d1 = Some (JDict nv)) by apply dict_get_set_same.
  pose proof (save_vote_after_read key rating w wa d1 nv mine Hread Hv1 Hm) as Hsave.
  rewrite (write_votes_ok _ _ wa Hoka) in Hsave. fold payload in Hsave.
  rewrite wrote_sess, Hsa in Hsave.
  set (w1 := set_sess _ _) in Hsave.
  assert (Hok1 : all_ok w1) by exact (all_ok_wrote (own_path wa) payload wa Hoka).
  assert (Hclass1 : tree_get (class_path (the_code None w1)) (root w1)
                    = JDict (dict_set "votes" (JDict (dict_set name payload nv)) d1)).
  { change (the_code None w1) with c. change (root w1) with (root (wrote (own_path wa) payload wa)).
    rewrite wrote_root. unfold own_path. rewrite Hsa. fold c name.
    apply class_after_own_write; [|exact Hv1].
    change (class_path c) with (class_path (the_code None w)).
    rewrite Hroota, written_class.
    change (the_code None w) with c. now rewrite Hd, (normalized_dict vs d vs Hv). }
  assert (Hno : no_legacy (dict_set name payload nv)).
  { apply dict_set_Forall; [|intros l; discriminate].
    unfold nv. rewrite (norm_votes_map vs Hwf). apply norm_items_no_legacy. }
  destruct (get_data_plain None w1 _ (dict_set name payload nv) Hok1 Hclass1
              (dict_set_nonempty "votes" (JDict (dict_set name payload nv)) d1))
    as (w2 & Hread2 & _ & _ & Hroot2).
  { unfold stored_votes. now rewrite dict_get_set_same. }
  { exact Hno. }
  exists w1, (JDict (dict_set "votes" (JDict (dict_set name payload nv)) d1)), w2.
  split; [exact Hsave|]. split; [exact Hread2|]. split; [exact Hroot2|].
  split; [|split; [|split; [|split; [|split]]]].
  - change (root w1) with (root (wrote (own_path wa) payload wa)).
    rewrite wrote_root. unfold own_path. rewrite Hsa. apply tree_get_set_same.
  - cbn [tree_get]. rewrite !dict_get_set_same. unfold payload.
    now rewrite dict_get_set_same.
  - apply dict_get_set_same.
  - intros k Hk. cbn [tree_get]. rewrite !dict_get_set_same. unfold payload.
    now rewrite (dict_get_set_other k key) by exact Hk.
  - intros other Hother. cbn [tree_get]. rewrite dict_get_set_same.
    rewrite (dict_get_set_other other name) by exact Hother.
    unfold nv. rewrite (norm_votes_map vs Hwf), dict_get_norm_items.
    now destruct (dict_get other vs).
  - cbn [tree_get]. unfold d1.
    now rewrite !(dict_get_set_other "ideas" "votes") by discriminate.
Qed.

(** X16. A vote that is saved is the vote that is read, for a class code and
    a participant's name that are keys of the store.  With the store
    answering and voters of different names, [save_vote] succeeds; what
    [f"/classes/{class_code}/votes/{student_name}"] names then holds the
    participant's votes with the new rating, and the next [get_data] returns
    a record that holds the rating under the participant's name and the
    scenario's key, the value the session's votes now hold as well.  In that
    record every other participant has the votes stored before (a list in
    its keyed form) and the scenarios are the same; this read finds nothing
    to convert and leaves the store as it is.  Nothing is said of a name that
    is not a key ([slash_names_a_nested_node]). *)
Theorem saved_vote_is_read_back (key : string) (rating : Z) (w : world)
        (d vs mine : dict) :
  plain_key (class_code (sess w)) = true ->
  plain_key (student_name (sess w)) = true ->
  all_ok w ->
  node_at (class_url (class_code (sess w))) (root w) = JDict d ->
  dict_get "votes" d = Some (JDict vs) ->
  dict_wf vs ->
  votes_to_update (student_name (sess w)) (norm_votes vs vs) = Some mine ->
  exists w1 data w2,
    save_vote key rating w = (Ret true, w1)
    /\ get_data None w1 = (Ret data, w2)
    /\ root w2 = root w1
    /\ node_at (vote_url (class_code (sess w)) (student_name (sess w))) (root w1)
       = JDict (dict_set key (JInt rating) mine)
    /\ tree_get ["votes"; student_name (sess w); key] data = JInt rating
    /\ dict_get key (current_votes (sess w1)) = Some (JInt rating)
    /\ (forall k, k <> key ->
          tree_get ["votes"; student_name (sess w); k] data
          = match dict_get k mine with Some v => v | None => JNull end)
    /\ (forall other, other <> student_name (sess w) ->
          tree_get ["votes"; other] data
          = match dict_get other vs with Some v => norm_value v | None => JNull end)
    /\ tree_get ["ideas"] data = tree_get ["ideas"] (JDict d).
Proof.
  intros Hc Hn Hok Hd Hv Hwf Hm. unfold node_at in *.
  rewrite (class_url_segments _ Hc) in Hd. rewrite (vote_url_segments _ _ Hc Hn).
  exact (save_vote_round_trip key rating w d vs mine Hok Hd Hv Hwf Hm).
Qed.

Lemma saved_vote_is_read_back_witness :
  exists w1 data w2,
    save_vote "idea_1" 2 (sdk_world []) = (Ret true, w1)
    /\ get_data None w1 = (Ret data, w2)
    /\ node_at (vote_url "c" "ann") (root w1)
       = JDict [("idea_0", JInt 3); ("idea_1", JInt 2); ("idea_2", JInt 0)]
    /\ tree_get ["votes"; "ann"; "idea_1"] data = JInt 2
    /\ tree_get ["votes"; "ann"; "idea_0"] data = JInt 3
    /\ tree_get ["votes"; "bob"] data = JDict [("idea_0", JInt 4)].
Proof.
  assert (Hwf : dict_wf [("ann", JList [JInt 3; JInt 5; JInt 0]);
                         ("bob", JDict [("idea_0", JInt 4)])]).
  { unfold dict_wf. cbn. repeat constructor; cbn; intuition discriminate. }
  assert (Hkey : "idea_0" <> "idea_1") by discriminate.
  assert (Hbob : "bob" <> student_name (sess (sdk_world []))) by discriminate.
  destruct (saved_vote_is_read_back "idea_1" 2 (sdk_world []) _ _
              [("idea_0", JInt 3); ("idea_1", JInt 5); ("idea_2", JInt 0)]
              eq_refl eq_refl (Forall_nil _) eq_refl eq_refl Hwf eq_refl)
    as (w1 & data & w2 & Hsave & Hread & _ & Hnode & Hmine & _ & Hrest & Hothers & _).
  exists w1, data, w2. split; [exact Hsave|]. split; [exact Hread|].
  split; [exact Hnode|]. split; [exact Hmine|].
  split; [exact (Hrest "idea_0" Hkey) | exact (Hothers "bob" Hbob)].
Defined.

(* ================================================================== *)
(** * Further properties: a class after a reset, a scenario after its
      submission *)
(* ================================================================== *)

Section ResetFacts.

Variable int_of_str : string -> option Z.


End ResetFacts.


Lemma submit_ok_world (new_idea : string) (now : Q) (w : world) (d vs : dict)
      (ideas : list json) :
  all_ok w ->
  student_name (sess w) <> "" -> new_idea <> "" ->
  tree_get (class_path (class_code (sess w))) (root w) = JDict d ->
  dict_get "ideas" d = Some (JList ideas) ->
  dict_get "votes" d = Some (JDict vs) ->
  exists wa,
    all_ok wa /\ sess wa = sess w
    /\ submit_scenario new_idea now w
       = (Ret tt,
          log (wrote (class_path (class_code (sess w)))
                 (JDict (dict_set "ideas"
                           (JList (ideas ++ [scenario_entry new_idea (student_name (sess w))
                                                            now]))
                           (dict_set "votes" (JDict (norm_votes vs vs)) d)))
                 wa)
              [StSuccess "Scenario submitted successfully!"; StRerun]).
Proof.
  intros Hok Hname Hidea Hd Hi Hv.
  destruct (get_data_ok None w d vs Hok Hd Hv) as (w1 & Hread & Hc & Hok1 & _).
  destruct Hc as (_ & _ & Hs & Hsh).
  exists w1. split; [exact Hok1|]. split; [exact Hs|].
  unfold submit_scenario. unfold bind at 1. rewrite Hread.
  unfold bind at 1. unfold get_session at 1. rewrite Hs.
  unfold str_truthy.
  destruct (String.eqb_spec (student_name (sess w)) ""); [contradiction|].
  destruct (String.eqb_spec new_idea ""); [contradiction|].
  cbn [negb].
  rewrite (normalized_dict vs d vs Hv).
  assert (Hi' : dict_get "ideas" (dict_set "votes" (JDict (norm_votes vs vs)) d)
                = Some (JList ideas)).
  { rewrite dict_get_set_other; [exact Hi | discriminate]. }
  unfold bind at 1. unfold lift at 1. unfold py_contains, dict_mem. rewrite Hi'.
  unfold bind at 1. unfold ret at 1.
  unfold bind at 1. unfold lift at 1. unfold append_idea, py_getitem. rewrite Hi'.
  cbn [py_setitem].
  unfold bind at 1.
  rewrite (save_data_ok _ _ w1 Hok1), (the_code_own _ w1 (f_equal class_code Hs)).
  unfold bind. now rewrite !show_run, log_log.
Qed.

(** X18. A scenario that is submitted is the last of the list that is read
    next, and the scenarios before it keep their positions, so that the keys
    [idea_i] of the votes still name the same scenarios.  With the store
    answering, a name, a text and voters of different names, the record read
    after the submission lists the scenarios stored before followed by the new
    one, which the list of scenarios shows with its text and the name of the
    participant; the votes in that record are the ones stored before, lists
    in their keyed form. *)
Theorem submitted_scenario_is_listed (new_idea : string) (now : Q) (w : world)
        (d vs : dict) (ideas : list json) :
  all_ok w ->
  student_name (sess w) <> "" -> new_idea <> "" ->
  tree_get (class_path (class_code (sess w))) (root w) = JDict d ->
  dict_get "ideas" d = Some (JList ideas) ->
  dict_get "votes" d = Some (JDict vs) ->
  dict_wf vs ->
  exists w1 data w2 listed,
    submit_scenario new_idea now w = (Ret tt, w1)
    /\ get_data None w1 = (Ret data, w2)
    /\ py_getitem "ideas" data = Ret (JList listed)
    /\ listed = ideas ++ [scenario_entry new_idea (student_name (sess w)) now]
    /\ (forall i, i < List.length ideas -> nth_error listed i = nth_error ideas i)
    /\ (exists entry,
          nth_error listed (List.length ideas) = Some entry
          /\ listing_fields entry = Ret (JStr new_idea, JStr (student_name (sess w))))
    /\ py_getitem "votes" data = Ret (JDict (map norm_item vs)).
Proof.
  intros Hok Hname Hidea Hd Hi Hv Hwf.
  destruct (submit_ok_world new_idea now w d vs ideas Hok Hname Hidea Hd Hi Hv)
    as (wa & Hoka & Hsa & Hsubmit).
  set (c := class_code (sess w)) in *.
  set (entry := scenario_entry new_idea (student_name (sess w)) now) in *.
  set (nv := norm_votes vs vs) in *.
  set (d2 := dict_set "ideas" (JList (ideas ++ [entry])) (dict_set "votes" (JDict nv) d))
    in *.
  set (w1 := log (wrote (class_path c) (JDict d2) wa) _) in Hsubmit.
  assert (Hok1 : all_ok w1) by exact (all_ok_wrote (class_path c) (JDict d2) wa Hoka).
  assert (Hclass : tree_get (class_path (the_code None w1)) (root w1) = JDict d2).
  { change (the_code None w1) with (class_code (sess (wrote (class_path c) (JDict d2) wa))).
    rewrite wrote_sess, Hsa. fold c.
    change (root w1) with (root (wrote (class_path c) (JDict d2) wa)).
    rewrite wrote_root. apply tree_get_set_same. }
  assert (Hvotes : dict_get "votes" d2 = Some (JDict nv)).
  { unfold d2. rewrite dict_get_set_other by discriminate. apply dict_get_set_same. }
  assert (Hno : no_legacy nv).
  { unfold nv. rewrite (norm_votes_map vs Hwf). apply norm_items_no_legacy. }
  destruct (get_data_plain None w1 d2 nv Hok1 Hclass
              (dict_set_nonempty "ideas" (JList (ideas ++ [entry]))
                                 (dict_set "votes" (JDict nv) d)))
    as (w2 & Hread & _); [unfold stored_votes; now rewrite Hvotes | exact Hno |].
  exists w1, (JDict d2), w2, (ideas ++ [entry]).
  split; [exact Hsubmit|]. split; [exact Hread|].
  split; [cbn [py_getitem]; unfold d2; now rewrite dict_get_set_same|].
  split; [reflexivity|]. split; [|split].
  - intros i Hi'. now apply nth_error_app1.
  - exists entry. split; [|reflexivity].
    rewrite nth_error_app2 by apply Nat.le_refl. now rewrite Nat.sub_diag.
  - cbn [py_getitem]. rewrite Hvotes. unfold nv. now rewrite (norm_votes_map vs Hwf).
Qed.

Lemma submitted_scenario_is_listed_witness :
  exists w1 data w2 listed,
    submit_scenario "Using AI to screen job applicants" 1700000000 (sdk_world [])
    = (Ret tt, w1)
    /\ get_data None w1 = (Ret data, w2)
    /\ py_getitem "ideas" data = Ret (JList listed)
    /\ listed = [JStr "x"; scenario_entry "Using AI to screen job applicants" "ann"
                                          1700000000].
Proof.
  assert (Hwf : dict_wf [("ann", JList [JInt 3; JInt 5; JInt 0]);
                         ("bob", JDict [("idea_0", JInt 4)])]).
  { unfold dict_wf. cbn. repeat constructor; cbn; intuition discriminate. }
  assert (Hname : student_name (sess (sdk_world [])) <> "") by discriminate.
  assert (Hidea : "Using AI to screen job applicants" <> "") by discriminate.
  destruct (submitted_scenario_is_listed "Using AI to screen job applicants" 1700000000
              (sdk_world []) _ _ [JStr "x"]
              (Forall_nil _) Hname Hidea eq_refl eq_refl eq_refl Hwf)
    as (w1 & data & w2 & listed & Hsubmit & Hread & Hideas & Hlisted & _).
  exists w1, data, w2, listed. now repeat split.
Defined.

(* ================================================================== *)
(** * Further properties: votes the session holds and the store does not *)
(* ================================================================== *)

Lemma votes_without_unknown (name key : string) (d vs : dict) :
  dict_get "votes" d = Some (JDict vs) ->
  dict_get name vs = None ->
  votes_without name key (JDict d) = Ret None.
Proof.
  intros Hv Hn. unfold votes_without.
  cbn [py_contains rbind]. unfold dict_mem at 1. rewrite Hv.
  cbn [rbind py_getitem]. rewrite Hv. cbn [rbind py_contains]. unfold dict_mem.
  now rewrite Hn.
Qed.

Lemma remove_unknown (key : string) (on_success on_failure : M unit) (w : world)
      (d vs : dict) :
  all_ok w ->
  tree_get (class_path (class_code (sess w))) (root w) = JDict d ->
  dict_get "votes" d = Some (JDict vs) ->
  dict_wf vs ->
  dict_get (student_name (sess w)) vs = None ->
  exists w',
    remove_stored_vote key on_success on_failure w = (Ret tt, w')
    /\ same_client w w'
    /\ root w' = written (class_code (sess w)) vs (root w).
Proof.
  intros Hok Hd Hv Hwf Hn.
  destruct (get_data_ok None w d vs Hok Hd Hv) as (w1 & Hread & Hcl & _ & Hroot).
  exists w1. split; [|now split].
  unfold remove_stored_vote. unfold bind at 1. rewrite Hread.
  unfold bind at 1. unfold get_session at 1.
  destruct Hcl as (_ & _ & -> & _).
  unfold bind at 1. unfold lift at 1.
  rewrite (normalized_dict vs d vs Hv).
  rewrite (votes_without_unknown _ key _ (norm_votes vs vs) (dict_get_set_same _ _ _)).
  - reflexivity.
  - now rewrite (norm_votes_get _ vs Hwf vs), Hn.
Qed.

(** X19. A rating the session holds and the store does not (the class was
    reset, or the votes were cleared, from another session) stays in the
    session.  The same rating is never sent again: neither the slider nor the
    Submit Vote button makes a request for a rating equal to the one the
    session holds, so the world is left exactly as it is.  And it cannot be
    removed: with the slider at 0, the store answering and voters of
    different names, the automatic save and the Remove Vote button read the
    class, find nothing stored for the participant, and leave the session and
    the page as they are; the store is what that read leaves, which is the
    store as it was when no votes are stored as a list, and otherwise the
    store with those lists written back in their keyed form. *)
Theorem stale_rating_stays (i : nat) (v : Z) (w : world) (d vs : dict) :
  all_ok w ->
  tree_get (class_path (class_code (sess w))) (root w) = JDict d ->
  dict_get "votes" d = Some (JDict vs) ->
  dict_wf vs ->
  dict_get (student_name (sess w)) vs = None ->
  dict_get (idea_key i) (current_votes (sess w)) = Some (JInt v) ->
  (0 < v)%Z ->
  on_slider_change i v w = (Ret tt, w)
  /\ press_button i v w = (Ret tt, w)
  /\ exists w',
       (if auto_save (sess w) then on_slider_change i 0 w else press_button i 0 w)
       = (Ret tt, w')
       /\ sess w' = sess w /\ shown w' = shown w
       /\ root w' = written (class_code (sess w)) vs (root w)
       /\ root w' = root (snd (get_data None w))
       /\ (no_legacy vs -> root w' = root w).
Proof.
  intros Hok Hd Hv Hwf Hn Hcached Hpos.
  assert (Hgt : (v >? 0)%Z = true) by now apply Z.gtb_lt.
  assert (Hmem : dict_mem (idea_key i) (current_votes (sess w)) = true)
    by (unfold dict_mem; now rewrite Hcached).
  assert (Hsame : differs (idea_key i) (current_votes (sess w)) v = false).
  { unfold differs. rewrite Hcached. cbn [py_eq_int]. now rewrite Z.eqb_refl. }
  assert (Hread : root (snd (get_data None w)) = written (class_code (sess w)) vs (root w)).
  { destruct (get_data_ok None w d vs Hok Hd Hv) as (w1 & -> & _ & _ & Hroot).
    exact Hroot. }
  split; [|split].
  - unfold on_slider_change, bind, get_session.
    destruct (auto_save (sess w)); [|reflexivity].
    cbv zeta. now rewrite Hgt, Hmem, Hsame.
  - unfold press_button, bind, get_session.
    destruct (auto_save (sess w)); [reflexivity|].
    cbn [negb]. cbv zeta. rewrite Hgt, Hmem, Hsame.
    now rewrite Bool.orb_true_r.
  - destruct (auto_save (sess w)) eqn:Hauto.
    + destruct (remove_unknown (idea_key i) (show (StToast "Vote removed")) (ret tt)
                  w d vs Hok Hd Hv Hwf Hn) as (w' & Hrun & (_ & _ & Hs & Hsh) & Hroot).
      exists w'. split; [|split; [exact Hs|split; [exact Hsh|split; [exact Hroot|split]]]].
      * unfold on_slider_change. unfold bind at 1. unfold get_session at 1.
        rewrite Hauto. cbv zeta. cbn [Z.gtb Z.compare]. now rewrite Hmem.
      * now rewrite Hroot, Hread.
      * intros Hno. now rewrite Hroot, (written_no_list _ vs Hno).
    + destruct (remove_unknown (idea_key i)
                  (show (StSuccess "Vote removed!") ;; show StRerun)
                  (st_error "Failed to remove vote. Please try again.")
                  w d vs Hok Hd Hv Hwf Hn) as (w' & Hrun & (_ & _ & Hs & Hsh) & Hroot).
      exists w'. split; [|split; [exact Hs|split; [exact Hsh|split; [exact Hroot|split]]]].
      * unfold press_button. unfold bind at 1. unfold get_session at 1.
        rewrite Hauto. cbn [negb]. cbv zeta. cbn [Z.gtb Z.compare]. now rewrite Hmem.
      * now rewrite Hroot, Hread.
      * intros Hno. now rewrite Hroot, (written_no_list _ vs Hno).
Qed.

Lemma stale_rating_stays_witness :
  on_slider_change 0 4 (stale_world true) = (Ret tt, stale_world true)
  /\ press_button 0 4 (stale_world false) = (Ret tt, stale_world false)
  /\ (exists w',
        on_slider_change 0 0 (stale_world true) = (Ret tt, w')
        /\ current_votes (sess w') = [("idea_0", JInt 4)]
        /\ root w' = root (stale_world true))
  /\ exists w',
       press_button 0 0 stale_legacy_world = (Ret tt, w')
       /\ current_votes (sess w') = [("idea_0", JInt 2)]
       /\ shown w' = []
       /\ root w' = loaded_store.
Proof.
  assert (Hpos : (0 < 4)%Z) by reflexivity.
  assert (Hpos2 : (0 < 2)%Z) by reflexivity.
  assert (Hwf : dict_wf [("ann", JList [JInt 3; JInt 5; JInt 0]);
                         ("bob", JDict [("idea_0", JInt 4)])]).
  { unfold dict_wf. cbn. repeat constructor; cbn; intuition discriminate. }
  destruct (stale_rating_stays 0 4 (stale_world true)
              [("ideas", JList []); ("votes", JDict [])] [] (Forall_nil _) eq_refl eq_refl
              (NoDup_nil _) eq_refl eq_refl Hpos)
    as (Hslider & _ & w' & Hremove & Hs & _ & _ & _ & Hsame).
  destruct (stale_rating_stays 0 4 (stale_world false)
              [("ideas", JList []); ("votes", JDict [])] [] (Forall_nil _) eq_refl eq_refl
              (NoDup_nil _) eq_refl eq_refl Hpos) as (_ & Hbutton & _).
  destruct (stale_rating_stays 0 2 stale_legacy_world
              [("ideas", JList [JStr "x"]);
               ("votes", JDict [("ann", JList [JInt 3; JInt 5; JInt 0]);
                                ("bob", JDict [("idea_0", JInt 4)])])]
              [("ann", JList [JInt 3; JInt 5; JInt 0]);
               ("bob", JDict [("idea_0", JInt 4)])]
              (Forall_nil _) eq_refl eq_refl Hwf eq_refl eq_refl Hpos2)
    as (_ & _ & w2 & Hremove2 & Hs2 & Hsh2 & Hroot2 & _).
  split; [exact Hslider|]. split; [exact Hbutton|]. split.
  - exists w'. split; [exact Hremove|]. split; [now rewrite Hs|].
    exact (Hsame (Forall_nil _)).
  - exists w2. split; [exact Hremove2|]. split; [now rewrite Hs2|].
    split; [exact Hsh2 | exact Hroot2].
Defined.

(* ================================================================== *)
(** * The further properties at work on the sample data *)
(* ================================================================== *)

Lemma get_class_codes_fail_soft_witness :
  tree_get codes_path registered_store = JDict [("c", JStr "Period 3")]
  /\ get_class_codes (mk_world false None registered_store [Replied 503] []
                               (mk_session "" false "" [] false))
     = (Ret (JDict []),
        mk_world false None registered_store [] [] (mk_session "" false "" [] false)).
Proof.
  split; [reflexivity|].
  destruct get_class_codes_fail_soft as (_ & _ & _ & Hstatus).
  apply (Hstatus (mk_world false None registered_store [Replied 503] []
                           (mk_session "" false "" [] false)) 503%Z);
    [reflexivity | reflexivity | discriminate].
Defined.

Lemma save_data_tells_the_truth_witness :
  exists w',
    save_data plain_class (Some "c") (http_world [Replied 500]) = (Ret false, w')
    /\ root w' = legacy_store.
Proof.
  destruct (save_data_tells_the_truth plain_class (Some "c") (http_world [Replied 500]))
    as (ok & w' & Hrun & _ & _ & Hfalse).
  assert (E : save_data plain_class (Some "c") (http_world [Replied 500])
              = (Ret false, http_world [])) by reflexivity.
  rewrite E in Hrun. injection Hrun as Hok Hw. subst ok.
  exists (http_world []). split; [reflexivity|].
  rewrite Hw. exact (Hfalse eq_refl).
Defined.

Lemma class_isolation_witness :
  node_at (class_url "d") (root (snd (save_vote "idea_0" 5 leaving_world)))
  = empty_record
  /\ tree_get codes_path (root (snd (save_vote "idea_0" 5 leaving_world)))
     = JDict [("c", JStr "Period 3"); ("d", JStr "Period 4")].
Proof.
  destruct class_isolation as (_ & _ & Hvote).
  assert (Hne : class_code (sess leaving_world) <> "d") by discriminate.
  exact (Hvote "idea_0" 5%Z leaving_world "d" _ _ eq_refl eq_refl eq_refl Hne
               (surjective_pairing (save_vote "idea_0" 5 leaving_world))).
Defined.

Lemma join_checks_registry_witness :
  join_class str_of_name "zzz" leaving_world
  = (Ret tt, log leaving_world [StError "Invalid class code. Please try again."])
  /\ join_class str_of_name "d" leaving_world
     = (Ret tt, log (set_sess (set_joined "d" (sess leaving_world)) leaving_world)
                    [StSuccess "Joined class: Period 4"; StRerun]).
Proof.
  destruct (join_checks_registry str_of_name) as (_ & Hknown & _).
  split.
  - exact (Hknown "zzz" leaving_world
                  [("c", JStr "Period 3"); ("d", JStr "Period 4")] eq_refl eq_refl).
  - exact (Hknown "d" leaving_world
                  [("c", JStr "Period 3"); ("d", JStr "Period 4")] eq_refl eq_refl).
Defined.
